(** * OpenClaw control plane: a shallow embedding of the backend

    The development follows the JavaScript sources of the backend:
    the secret-redacting logger, the container manager, the workspace
    and subscription models, the webhook state machine, the payment
    routes, the workspace routes and the authenticated reverse proxy,
    and further the user model, the token service and its middleware,
    the input validators and the checkout and cancellation routes.

    Conventions.
    - Asynchronous handlers run to completion one after the other; a
      handler is a function from the server state (database and
      container engine) to a new state and an HTTP response.
    - SQL tables are lists of rows, with the columns and constraints
      the migrations of the repository give them.  A statement that
      names a column its table does not have raises
      ([payment_events.razorpay_event_id] and
      [subscriptions.cancelled_at] are named by the queries and
      declared by no migration), and so do an [UPDATE] whose new row
      fails the [CHECK] on the subscription status of migration 003
      (which does not list [past_due]), the query of the ownership
      check on a workspace identifier that is not a UUID, and a
      violated unique key of [workspaces], [users] or
      [subscriptions].  A transaction that raises is rolled back.
    - Time is an integer number of milliseconds; every request is
      served at one instant [now].
    - Strings are byte strings; [toLowerCase] folds the ASCII letters.
    - Library code (the container daemon, HMAC-SHA256, [JSON.parse],
      [express-validator], the [uuid] input of the database server,
      the header and body handling of [express-http-proxy],
      floating-point parsing of resource limits, [bcrypt],
      [jsonwebtoken], the Razorpay SDK)
      enters through type classes; the theorems hold for every
      instance. *)

From Stdlib Require Import ZArith List String Ascii Bool Lia Sorted.
From stdpp Require Import base gmap strings list pretty.
Import ListNotations.

Set Warnings "-register-all".

Local Open Scope string_scope.
Local Open Scope Z_scope.

(* ===================================================================== *)
(** * Part I: definitions *)
(* ===================================================================== *)

(** ** JavaScript values and string primitives *)

Module Js.

(** Thrown [Error]s carry their message. *)
Inductive result (A : Type) : Type :=
| Ok (a : A)
| Throw (message : string).
Arguments Ok {A} a.
Arguments Throw {A} message.

Definition bind {A B} (r : result A) (k : A -> result B) : result B :=
  match r with
  | Ok a => k a
  | Throw m => Throw m
  end.

(** [String.prototype.toLowerCase], on ASCII. *)
Definition lower_ascii (c : ascii) : ascii :=
  let n := nat_of_ascii c in
  if (65 <=? n)%nat && (n <=? 90)%nat then ascii_of_nat (n + 32) else c.

Fixpoint toLowerCase (s : string) : string :=
  match s with
  | EmptyString => EmptyString
  | String c s' => String (lower_ascii c) (toLowerCase s')
  end.

(** [s.includes(sub)]. *)
Fixpoint includes (s sub : string) : bool :=
  String.prefix sub s ||
  match s with
  | EmptyString => false
  | String _ s' => includes s' sub
  end.

(** Drop the first [n] characters. *)
Fixpoint drop_chars (n : nat) (s : string) : string :=
  match n, s with
  | O, _ => s
  | S n', String _ s' => drop_chars n' s'
  | S _, EmptyString => EmptyString
  end.

(** [s.replace(pat, '')] with a string pattern: the first occurrence
    of [pat] in [s], wherever it is, is removed. *)
Fixpoint replace_first_with_empty (pat s : string) : string :=
  if String.prefix pat s then drop_chars (String.length pat) s
  else match s with
       | EmptyString => EmptyString
       | String c s' => String c (replace_first_with_empty pat s')
       end.

(** [s.substring(0, n)]. *)
Fixpoint take_chars (n : nat) (s : string) : string :=
  match n, s with
  | O, _ => EmptyString
  | S n', String c s' => String c (take_chars n' s')
  | S _, EmptyString => EmptyString
  end.

(** Truthiness of a possibly absent string: [undefined], [null] and
    the empty string are falsy. *)
Definition truthy_str (o : option string) : bool :=
  match o with
  | Some s => negb (String.eqb s "")
  | None => false
  end.

(** [a || b] on possibly absent strings. *)
Definition or_str (a b : option string) : option string :=
  if truthy_str a then a else b.

(** Untyped values, as far as the logger and [res.json] see them. *)
Inductive jsval : Type :=
| JUndefined
| JNull
| JBool (b : bool)
| JNum (z : Z)
| JStr (s : string)
| JArr (items : list jsval)
| JObj (fields : list (string * jsval)).

(** [typeof v === 'object' && v !== null]. *)
Definition is_object (v : jsval) : bool :=
  match v with
  | JArr _ | JObj _ => true
  | _ => false
  end.

(** [!!v]: every array and every object is truthy, the empty array
    included. *)
Definition truthy (v : jsval) : bool :=
  match v with
  | JUndefined | JNull => false
  | JBool b => b
  | JNum z => negb (z =? 0)
  | JStr s => negb (String.eqb s "")
  | JArr _ | JObj _ => true
  end.

Fixpoint assoc (k : string) (fs : list (string * jsval)) : option jsval :=
  match fs with
  | [] => None
  | (k', v) :: fs' => if String.eqb k k' then Some v else assoc k fs'
  end.

(** An array index as a property name: a canonical decimal numeral. *)
Definition digit_of (c : ascii) : option nat :=
  let n := nat_of_ascii c in
  if (48 <=? n)%nat && (n <=? 57)%nat then Some (n - 48)%nat else None.

Fixpoint parse_digits (acc : nat) (s : string) : option nat :=
  match s with
  | EmptyString => Some acc
  | String c s' =>
      match digit_of c with
      | Some d => parse_digits (10 * acc + d) s'
      | None => None
      end
  end.

Definition array_index (k : string) : option nat :=
  match k with
  | EmptyString => None
  | String c EmptyString => digit_of c
  | String c _ => if Ascii.eqb c "0" then None else parse_digits 0 k
  end.

(** Property read [v[k]] (or [v.k]).  An array answers for [length]
    and for its indices only; every other name is [undefined]. *)
Definition get_prop (v : jsval) (k : string) : jsval :=
  match v with
  | JObj fs => default JUndefined (assoc k fs)
  | JArr items =>
      if String.eqb k "length" then JNum (Z.of_nat (List.length items))
      else match array_index k with
           | Some i => nth i items JUndefined
           | None => JUndefined
           end
  | _ => JUndefined
  end.

(** [a === b] where [b] is a string literal. *)
Definition strict_eq_str (a : jsval) (b : string) : bool :=
  match a with
  | JStr s => String.eqb s b
  | _ => false
  end.

End Js.
Export Js.

#[global] Instance result_bind : MBind Js.result := fun A B k r => Js.bind r k.
#[global] Instance result_ret : MRet Js.result := fun A a => Js.Ok a.

(** ** utils/logger.js *)

Module Logger.

Definition SECRET_FIELDS : list string :=
  [ "password"; "password_hash"; "api_key"; "apiKey"; "apikey";
    "authorization"; "token"; "jwt"; "secret"; "x-api-key";
    "razorpay_key_secret"; "RAZORPAY_KEY_SECRET"; "JWT_SECRET" ].

Definition REDACTED : jsval := JStr "[REDACTED]".

(** [SECRET_FIELDS.some((field) => lowerKey.includes(field.toLowerCase()))] *)
Definition isSecret (key : string) : bool :=
  let lowerKey := toLowerCase key in
  existsb (fun field => includes lowerKey (toLowerCase field)) SECRET_FIELDS.

Fixpoint redactSecrets (obj : jsval) : jsval :=
  match obj with
  | JArr items => JArr (List.map redactSecrets items)
  | JObj fields =>
      JObj (List.map
              (fun kv =>
                 if isSecret (fst kv) then (fst kv, REDACTED)
                 else match snd kv with
                      | JArr _ | JObj _ => (fst kv, redactSecrets (snd kv))
                      | value => (fst kv, value)
                      end)
              fields)
  | _ => obj
  end.

(** The entries of a value at any nesting depth, through objects and
    arrays. *)
Inductive entry_of (k : string) (v : jsval) : jsval -> Prop :=
| entry_here fields :
    In (k, v) fields -> entry_of k v (JObj fields)
| entry_in_field k' v' fields :
    In (k', v') fields -> entry_of k v v' -> entry_of k v (JObj fields)
| entry_in_item item items :
    In item items -> entry_of k v item -> entry_of k v (JArr items).

End Logger.


(** ** The relational store *)

Module Db.

(** A row of [subscriptions].  [status] is the text column the state
    machine reads and writes.  [sub_cancelled_at] is what a handler
    and a route call [cancelled_at]: migration 003 declares no such
    column (see [subscriptions_columns]), no statement of the model
    succeeds in writing it and no route reads it from a row. *)
Record subscription : Type := mkSubscription {
  sub_id : string;
  sub_user_id : string;
  sub_razorpay_subscription_id : option string;
  sub_status : string;
  sub_plan_id : string;
  sub_current_period_start : Z;
  sub_current_period_end : Z;
  sub_cancelled_at : option Z;
  sub_created_at : Z;
  sub_updated_at : Z }.

(** A Razorpay subscription or payment entity, as the handlers read it. *)
Record entity : Type := mkEntity {
  ent_id : option string;
  ent_subscription_id : option string;
  ent_notes_user_id : option string;
  ent_current_start : Z;
  ent_current_end : Z;
  ent_error_reason : option string }.

(** The parsed webhook body: [event], [payload.subscription.entity]
    and [payload.payment.entity]; [wp_payload] is [None] when the
    body has no [payload] member. *)
Record payload_part : Type := mkPayloadPart {
  pl_subscription_entity : option entity;
  pl_payment_entity : option entity }.

Record webhook_payload : Type := mkWebhookPayload {
  wp_event : string;
  wp_payload : option payload_part }.

(** A row of [payment_events]; the generated key and the insertion
    time are written by the database and read by no query here, the
    stored payload stands for its [JSON.stringify].
    [pe_razorpay_event_id] is the value [insertPaymentEvent] binds to
    [razorpay_event_id]: migration 004 declares no such column (see
    [payment_events_columns]), so no statement of the model succeeds
    in writing or reading it. *)
Record payment_event : Type := mkPaymentEvent {
  pe_subscription_id : option string;
  pe_event_type : string;
  pe_razorpay_payment_id : option string;
  pe_razorpay_event_id : string;
  pe_webhook_payload : webhook_payload;
  pe_amount_cents : option Z;
  pe_currency : string }.

(** A row of [workspaces]. *)
Record workspace : Type := mkWorkspace {
  ws_id : string;
  ws_user_id : string;
  ws_name : string;
  ws_api_key : string;
  ws_cpu_limit : string;
  ws_memory_limit : string;
  ws_container_id : option string;
  ws_container_status : string;
  ws_created_at : Z;
  ws_updated_at : Z;
  ws_last_started_at : option Z }.

Record db : Type := mkDb {
  subscriptions : list subscription;
  payment_events : list payment_event;
  workspaces : list workspace }.

(** [ORDER BY key DESC] as a stable insertion sort. *)
Fixpoint insert_desc {A} (key : A -> Z) (x : A) (l : list A) : list A :=
  match l with
  | [] => [x]
  | y :: l' => if key y <? key x then x :: l else y :: insert_desc key x l'
  end.

Definition order_by_desc {A} (key : A -> Z) (l : list A) : list A :=
  fold_right (insert_desc key) [] l.

(** [$1 = column] for a nullable text column compared with a bound
    parameter: [NULL] on either side never matches. *)
Definition sql_eq_opt (param column : option string) : bool :=
  match param, column with
  | Some a, Some b => String.eqb a b
  | _, _ => false
  end.

(** The columns of [subscriptions] ([migrations/003]) and of
    [payment_events] ([migrations/004]), and the values the
    constraint [check_subscription_status] of migration 003 admits. *)
Definition subscriptions_columns : list string :=
  [ "id"; "user_id"; "razorpay_subscription_id"; "status"; "plan_id";
    "current_period_start"; "current_period_end"; "created_at"; "updated_at" ].

Definition payment_events_columns : list string :=
  [ "id"; "subscription_id"; "razorpay_payment_id"; "event_type"; "amount_cents";
    "currency"; "webhook_payload"; "created_at" ].

Definition check_subscription_status : list string :=
  [ "pending"; "active"; "expired"; "cancelled"; "payment_failed" ].

Definition dquote : string := String (ascii_of_nat 34) EmptyString.

(** The server refuses a statement that names a column the table does
    not have (error 42703); [named] lists the columns of the
    statement, [target] is the relation an [INSERT] or [UPDATE]
    writes to, which the message then names. *)
Definition undefined_column (target : option string) (column : string) : string :=
  "column " +:+ dquote +:+ column +:+ dquote
  +:+ match target with
      | Some relation => " of relation " +:+ dquote +:+ relation +:+ dquote
      | None => ""
      end
  +:+ " does not exist".

Definition named_columns (target : option string) (table named : list string)
  : result unit :=
  match List.find (fun c => negb (existsb (String.eqb c) table)) named with
  | Some c => Throw (undefined_column target c)
  | None => Ok tt
  end.

End Db.
Export Db.

(** ** config/docker.js and services/containerManager.js *)

Module ContainerManager.

(** An error raised by the engine client: the HTTP status of the
    daemon's answer, when there is one, and the message. *)
Record docker_error : Type := mkDockerError {
  statusCode : option Z;
  err_message : string }.

Inductive docker_res (A : Type) : Type :=
| DockerOk (a : A)
| DockerErr (e : docker_error).
Arguments DockerOk {A} a.
Arguments DockerErr {A} e.

(** What [container.inspect()] returns, as far as it is read:
    [NetworkSettings.Networks], network name to [IPAddress]. *)
Record inspect_info : Type := mkInspectInfo {
  info_networks : list (string * string) }.

(** The options handed to [docker.createContainer]. *)
Record container_config : Type := mkContainerConfig {
  cfg_Image : string;
  cfg_name : string;
  cfg_Hostname : string;
  cfg_Env : list string;
  cfg_PortBindings : list (string * string);
  cfg_PublishAllPorts : bool;
  cfg_CpuQuota : Z;
  cfg_CpuPeriod : Z;
  cfg_Memory : Z;
  cfg_MemorySwap : Z;
  cfg_NetworkMode : string;
  cfg_ReadonlyRootfs : bool;
  cfg_CapDrop : list string;
  cfg_CapAdd : list string;
  cfg_SecurityOpt : list string;
  cfg_RestartPolicy : string;
  cfg_EndpointsConfig : list string }.

(** The container daemon behind the [dockerode] client: an abstract
    state and the calls the manager makes on it. *)
Class DockerEngine (E : Type) : Type := {
  docker_listNetworks : E -> string -> docker_res (list string);
  docker_createNetwork : E -> string -> E * docker_res unit;
  docker_createContainer : E -> container_config -> E * docker_res string;
  container_inspect : E -> string -> docker_res inspect_info;
  container_start : E -> string -> E * docker_res unit;
  container_stop : E -> string -> Z -> E * docker_res unit;
  container_remove : E -> string -> bool -> E * docker_res unit;
  container_restart : E -> string -> Z -> E * docker_res unit }.

(** [utils/validation.js] and [parseMemoryLimit] work on floating
    point numbers; they are taken as given: [validated_cpu_quota] is
    [validateCpuLimit(cpuLimit) * 100000]. *)
Class Limits : Type := {
  validated_cpu_quota : string -> result Z;
  validateMemoryLimit : string -> result string;
  parseMemoryLimit : string -> result Z }.

(** Process configuration read from the environment; an unset
    variable reads as the empty string, [MAX_WORKSPACES_PER_USER] is
    the outcome of [parseInt] on its variable ([None] for [NaN]). *)
Class Config : Type := {
  OPENCLAW_NETWORK : string;
  OPENCLAW_IMAGE : string;
  OPENCLAW_PORT : string;
  WEBHOOK_SECRET : string;
  MAX_WORKSPACES_PER_USER : option Z;
  DEFAULT_CPU_LIMIT : string;
  DEFAULT_MEMORY_LIMIT : string;
  FRONTEND_URL : string }.

Section Manager.
Context {E : Type} `{DockerEngine E} `{Limits} `{Config}.

Definition has_status (e : docker_error) (code : Z) : bool :=
  match statusCode e with
  | Some c => c =? code
  | None => false
  end.

Definition ensureNetwork (eng : E) : E * result unit :=
  match docker_listNetworks eng OPENCLAW_NETWORK with
  | DockerErr e => (eng, Throw (err_message e))
  | DockerOk networks =>
      if (List.length networks =? 0)%nat then
        match docker_createNetwork eng OPENCLAW_NETWORK with
        | (eng', DockerOk _) => (eng', Ok tt)
        | (eng', DockerErr e) => (eng', Throw (err_message e))
        end
      else (eng, Ok tt)
  end.

Definition containerConfig (workspaceId : string) (cpuQuota memoryBytes : Z)
  : container_config :=
  let containerName := "openclaw_workspace_" +:+ workspaceId in
  {| cfg_Image := OPENCLAW_IMAGE;
     cfg_name := containerName;
     cfg_Hostname := containerName;
     cfg_Env := ["WORKSPACE_ID=" +:+ workspaceId];
     cfg_PortBindings := [];
     cfg_PublishAllPorts := false;
     cfg_CpuQuota := cpuQuota;
     cfg_CpuPeriod := 100000;
     cfg_Memory := memoryBytes;
     cfg_MemorySwap := memoryBytes;
     cfg_NetworkMode := OPENCLAW_NETWORK;
     cfg_ReadonlyRootfs := false;
     cfg_CapDrop := ["ALL"];
     cfg_CapAdd := ["NET_BIND_SERVICE"];
     cfg_SecurityOpt := ["no-new-privileges:true"];
     cfg_RestartPolicy := "no";
     cfg_EndpointsConfig := [OPENCLAW_NETWORK] |}.

Definition createContainer (eng : E) (workspaceId cpuLimit memoryLimit : string)
  : E * result string :=
  match validated_cpu_quota cpuLimit with
  | Throw m => (eng, Throw m)
  | Ok cpuQuota =>
  match validateMemoryLimit memoryLimit with
  | Throw m => (eng, Throw m)
  | Ok validatedMemory =>
      let failed (m : string) : result string :=
        Throw ("Failed to create container: " +:+ m) in
      match ensureNetwork eng with
      | (eng1, Throw m) => (eng1, failed m)
      | (eng1, Ok _) =>
      match parseMemoryLimit validatedMemory with
      | Throw m => (eng1, failed m)
      | Ok memoryBytes =>
      match docker_createContainer eng1
              (containerConfig workspaceId cpuQuota memoryBytes) with
      | (eng2, DockerOk id) => (eng2, Ok id)
      | (eng2, DockerErr e) => (eng2, failed (err_message e))
      end end end
  end end.

(** The [catch] block of [startContainer]. *)
Definition startContainer_catch (e : docker_error) : result bool :=
  if has_status e 304 then Ok true
  else if has_status e 404 then Throw "Container not found"
  else Throw ("Failed to start container: " +:+ err_message e).

Definition startContainer (eng : E) (containerId : string) : E * result bool :=
  match container_inspect eng containerId with
  | DockerErr e => (eng, startContainer_catch e)
  | DockerOk _ =>
      match container_start eng containerId with
      | (eng', DockerOk _) => (eng', Ok true)
      | (eng', DockerErr e) => (eng', startContainer_catch e)
      end
  end.

(** The [catch] block of [stopContainer]. *)
Definition stopContainer_catch (e : docker_error) : result bool :=
  if has_status e 304 then Ok true
  else if has_status e 404 then Throw "Container not found"
  else Throw ("Failed to stop container: " +:+ err_message e).

Definition stopContainer_t (eng : E) (containerId : string) (timeout : Z)
  : E * result bool :=
  match container_stop eng containerId timeout with
  | (eng', DockerOk _) => (eng', Ok true)
  | (eng', DockerErr e) => (eng', stopContainer_catch e)
  end.

(** [stopContainer(containerId)] with the default [timeout = 30]. *)
Definition stopContainer (eng : E) (containerId : string) : E * result bool :=
  stopContainer_t eng containerId 30.

(** The [catch] block of [removeContainer]. *)
Definition removeContainer_catch (e : docker_error) : result bool :=
  if has_status e 404 then Ok true
  else Throw ("Failed to remove container: " +:+ err_message e).

Definition removeContainer (eng : E) (containerId : string) (force : bool)
  : E * result bool :=
  match container_remove eng containerId force with
  | (eng', DockerOk _) => (eng', Ok true)
  | (eng', DockerErr e) => (eng', removeContainer_catch e)
  end.

Definition restartContainer_catch (e : docker_error) : result bool :=
  if has_status e 404 then Throw "Container not found"
  else Throw ("Failed to restart container: " +:+ err_message e).

Definition restartContainer (eng : E) (containerId : string) : E * result bool :=
  match container_restart eng containerId 30 with
  | (eng', DockerOk _) => (eng', Ok true)
  | (eng', DockerErr e) => (eng', restartContainer_catch e)
  end.

Fixpoint network_address (name : string) (nets : list (string * string))
  : option string :=
  match nets with
  | [] => None
  | (n, ip) :: nets' => if String.eqb n name then Some ip else network_address name nets'
  end.

(** [getContainerIp]: the address on the internal network, [null]
    when the network is not attached or the inspection fails. *)
Definition getContainerIp (eng : E) (containerId : string) : option string :=
  match container_inspect eng containerId with
  | DockerOk info => network_address OPENCLAW_NETWORK (info_networks info)
  | DockerErr _ => None
  end.

End Manager.

End ContainerManager.
Export ContainerManager.

(** ** HTTP plumbing shared by the routes *)

Module Http.

(** [res.status(code).json(body)]. *)
Record response : Type := mkResponse {
  res_status : Z;
  res_body : jsval }.

Definition json (code : Z) (body : list (string * jsval)) : response :=
  {| res_status := code; res_body := JObj body |}.

(** A request no middleware and no handler answers: no status line is
    ever sent ([0] is no HTTP status). *)
Definition unanswered : response :=
  {| res_status := 0; res_body := JUndefined |}.

(** The server state a handler works on. *)
Record state (E : Type) : Type := mkState {
  st_db : db;
  st_engine : E }.
Arguments mkState {E} st_db st_engine.
Arguments st_db {E} s.
Arguments st_engine {E} s.

(** What a request takes from its environment: the clock, the verdict
    of the rate limiter on it, and the values generated while it is
    served (a row identifier and the 32 random bytes of an API key in
    hexadecimal). *)
Record environment : Type := mkEnvironment {
  now : Z;
  limiter_admits : bool;
  fresh_uuid : string;
  fresh_api_key : string }.

(** [middleware/errorHandler.js]: an [Error] without [statusCode]
    becomes a 500 carrying its message. *)
Definition errorHandler (message : string) : response :=
  json 500 [("error", JStr (if String.eqb message "" then "Internal server error" else message))].

(** [req.headers] as Node builds it from the header lines: names are
    lower-cased, a repeated name has its values joined. *)
Definition node_headers (raw : list (string * string)) : gmap string string :=
  fold_left
    (fun (m : gmap string string) (line : string * string) =>
       let name := toLowerCase (fst line) in
       match m !! name with
       | None => <[name := snd line]> m
       | Some old => <[name := old +:+ ", " +:+ snd line]> m
       end)
    raw ∅.

(** [express-validator] and [JSON.parse] are library code. *)
Class Validators : Type := {
  isUUID : string -> bool;
  create_body_valid : option string -> option string -> option string -> bool }.

Class Json : Type := {
  JSON_parse : string -> option webhook_payload }.

(** The server casts a parameter bound to a [uuid] column and raises
    (error 22P02) on text that is not a UUID; it accepts at least the
    forms [isUUID] of [express-validator] accepts. *)
Class UuidColumn `{Validators} : Type := {
  uuid_in : string -> bool;
  uuid_in_isUUID : forall s, isUUID s = true -> uuid_in s = true }.

(** [crypto.createHmac('sha256', key).update(body).digest('hex')]. *)
Class Crypto : Type := {
  hmac_sha256_hex : string -> string -> string }.

End Http.
Export Http.

(** ** models/workspace.js *)

Module WorkspaceModel.

Definition findById (d : db) (workspaceId : string) : option workspace :=
  List.find (fun w => String.eqb (ws_id w) workspaceId) (workspaces d).

Definition findByApiKey (d : db) (apiKey : string) : option workspace :=
  List.find (fun w => String.eqb (ws_api_key w) apiKey) (workspaces d).

(** The bound parameter may be [undefined], which the driver sends as
    [NULL]: no row matches. *)
Definition findByUserId (d : db) (userId : option string) : list workspace :=
  order_by_desc ws_created_at
    (List.filter (fun w => sql_eq_opt userId (Some (ws_user_id w))) (workspaces d)).

Definition countByUserId (d : db) (userId : string) : Z :=
  Z.of_nat (List.length (List.filter (fun w => String.eqb (ws_user_id w) userId) (workspaces d))).

(** [isOwner] runs [SELECT 1 FROM workspaces WHERE id = $1 AND
    user_id = $2] and answers whether a row came back.  [isOwner] is
    that answer for a [$1] the [uuid] column [id] accepts;
    [isOwner_query] is the query on any text, which raises when the
    cast of [$1] fails.  ([$2] is the user identifier of the verified
    token.) *)
Definition isOwner (d : db) (workspaceId userId : string) : bool :=
  existsb (fun w => String.eqb (ws_id w) workspaceId && String.eqb (ws_user_id w) userId)
          (workspaces d).

Definition invalid_uuid (text : string) : string :=
  "invalid input syntax for type uuid: " +:+ dquote +:+ text +:+ dquote.

Definition isOwner_query `{UuidColumn} (d : db) (workspaceId userId : string) : result bool :=
  if uuid_in workspaceId then Ok (isOwner d workspaceId userId)
  else Throw (invalid_uuid workspaceId).

Definition set_workspaces (d : db) (l : list workspace) : db :=
  {| subscriptions := subscriptions d; payment_events := payment_events d; workspaces := l |}.

(** [UPDATE workspaces SET ... WHERE id = $n RETURNING ...]; an empty
    result raises. *)
Definition update_by_id (d : db) (workspaceId : string) (f : workspace -> workspace)
  : result db :=
  if existsb (fun w => String.eqb (ws_id w) workspaceId) (workspaces d) then
    Ok (set_workspaces d
          (List.map (fun w => if String.eqb (ws_id w) workspaceId then f w else w)
                    (workspaces d)))
  else Throw "Workspace not found".

Definition updateContainer (d : db) (t : Z) (workspaceId containerId status : string)
  : result db :=
  update_by_id d workspaceId
    (fun w => {| ws_id := ws_id w; ws_user_id := ws_user_id w; ws_name := ws_name w;
                 ws_api_key := ws_api_key w; ws_cpu_limit := ws_cpu_limit w;
                 ws_memory_limit := ws_memory_limit w;
                 ws_container_id := Some containerId;
                 ws_container_status := status;
                 ws_created_at := ws_created_at w; ws_updated_at := t;
                 ws_last_started_at := ws_last_started_at w |}).

Definition updateStatus (d : db) (t : Z) (workspaceId status : string) : result db :=
  update_by_id d workspaceId
    (fun w => {| ws_id := ws_id w; ws_user_id := ws_user_id w; ws_name := ws_name w;
                 ws_api_key := ws_api_key w; ws_cpu_limit := ws_cpu_limit w;
                 ws_memory_limit := ws_memory_limit w;
                 ws_container_id := ws_container_id w;
                 ws_container_status := status;
                 ws_created_at := ws_created_at w; ws_updated_at := t;
                 ws_last_started_at :=
                   if String.eqb status "running" then Some t else ws_last_started_at w |}).

Section Create.
Context `{Config}.

(** [INSERT INTO workspaces ...]: the primary key, [(user_id, name)]
    and [api_key] are unique; a violation (code 23505) is rethrown as
    a name conflict. *)
Definition create (d : db) (env : environment) (userId name : string)
    (cpuLimitOpt memoryLimitOpt : option string) : result (db * workspace) :=
  let apiKey := fresh_api_key env in
  let cpuLimit := default "1.0" (or_str (or_str cpuLimitOpt (Some DEFAULT_CPU_LIMIT)) (Some "1.0")) in
  let memoryLimit :=
    default "512m" (or_str (or_str memoryLimitOpt (Some DEFAULT_MEMORY_LIMIT)) (Some "512m")) in
  let row := {| ws_id := fresh_uuid env; ws_user_id := userId; ws_name := name;
                ws_api_key := apiKey; ws_cpu_limit := cpuLimit;
                ws_memory_limit := memoryLimit; ws_container_id := None;
                ws_container_status := "stopped";
                ws_created_at := now env; ws_updated_at := now env;
                ws_last_started_at := None |} in
  if existsb (fun w => String.eqb (ws_id w) (ws_id row)
                       || (String.eqb (ws_user_id w) userId && String.eqb (ws_name w) name)
                       || String.eqb (ws_api_key w) apiKey)
             (workspaces d)
  then Throw "Workspace name already exists"
  else Ok (set_workspaces d (workspaces d ++ [row]), row).

End Create.

End WorkspaceModel.

(** ** models/subscription.js *)

Module SubscriptionModel.

(** The [WHERE] clause of [findActiveByUserId]. *)
Definition is_active_for (userId : string) (t : Z) (s : subscription) : bool :=
  String.eqb (sub_user_id s) userId
  && String.eqb (sub_status s) "active"
  && (t <? sub_current_period_end s).

Definition findActiveByUserId (d : db) (t : Z) (userId : string) : option subscription :=
  head (order_by_desc sub_created_at (List.filter (is_active_for userId t) (subscriptions d))).

Definition hasActive (d : db) (t : Z) (userId : string) : bool :=
  match findActiveByUserId d t userId with
  | Some _ => true
  | None => false
  end.

(** [findByUserId] returns [result.rows]: an array, also when it holds
    no row or one row. *)
Definition findByUserId (d : db) (userId : string) : list subscription :=
  order_by_desc sub_created_at
    (List.filter (fun s => String.eqb (sub_user_id s) userId) (subscriptions d)).

Definition opt_str (o : option string) : jsval :=
  match o with
  | Some s => JStr s
  | None => JNull
  end.

(** A row as the driver hands it over, with the selected columns;
    timestamps are kept as numbers. *)
Definition row_to_js (s : subscription) : jsval :=
  JObj [ ("id", JStr (sub_id s));
         ("user_id", JStr (sub_user_id s));
         ("razorpay_subscription_id", opt_str (sub_razorpay_subscription_id s));
         ("status", JStr (sub_status s));
         ("plan_id", JStr (sub_plan_id s));
         ("current_period_start", JNum (sub_current_period_start s));
         ("current_period_end", JNum (sub_current_period_end s));
         ("created_at", JNum (sub_created_at s));
         ("updated_at", JNum (sub_updated_at s)) ].

End SubscriptionModel.

(** ** services/webhookHandler.js *)

Module WebhookHandler.

Definition VALID_TRANSITIONS : list (string * list string) :=
  [ ("pending", ["active"]);
    ("active", ["past_due"; "cancelled"; "expired"]);
    ("past_due", ["active"; "cancelled"; "expired"]);
    ("cancelled", []);
    ("expired", []) ].

Fixpoint transitions_from (fromState : string) (table : list (string * list string))
  : option (list string) :=
  match table with
  | [] => None
  | (s, l) :: table' => if String.eqb s fromState then Some l else transitions_from fromState table'
  end.

Definition isValidTransition (fromState toState : string) : bool :=
  match transitions_from fromState VALID_TRANSITIONS with
  | None => false
  | Some l => existsb (String.eqb toState) l
  end.

(** The states the table marks terminal. *)
Definition is_terminal (s : string) : bool :=
  String.eqb s "cancelled" || String.eqb s "expired".

Definition set_subscriptions (d : db) (l : list subscription) : db :=
  {| subscriptions := l; payment_events := payment_events d; workspaces := workspaces d |}.

(** [SELECT * FROM subscriptions WHERE razorpay_subscription_id = $1
    FOR UPDATE], first row or [null]. *)
Definition getAndLockSubscription (d : db) (razorpaySubscriptionId : option string)
  : option subscription :=
  List.find (fun s => sql_eq_opt razorpaySubscriptionId (sub_razorpay_subscription_id s))
            (subscriptions d).

(** The rows after [UPDATE subscriptions SET ... WHERE id = $n]. *)
Definition update_subscription (d : db) (subscriptionId : string)
    (f : subscription -> subscription) : db :=
  set_subscriptions d
    (List.map (fun s => if String.eqb (sub_id s) subscriptionId then f s else s)
              (subscriptions d)).

(** The [SET] clauses used by the handlers. *)
Definition set_status (status : string) (t : Z) (s : subscription) : subscription :=
  {| sub_id := sub_id s; sub_user_id := sub_user_id s;
     sub_razorpay_subscription_id := sub_razorpay_subscription_id s;
     sub_status := status; sub_plan_id := sub_plan_id s;
     sub_current_period_start := sub_current_period_start s;
     sub_current_period_end := sub_current_period_end s;
     sub_cancelled_at := sub_cancelled_at s;
     sub_created_at := sub_created_at s; sub_updated_at := t |}.

Definition set_period (periodStart periodEnd t : Z) (s : subscription) : subscription :=
  {| sub_id := sub_id s; sub_user_id := sub_user_id s;
     sub_razorpay_subscription_id := sub_razorpay_subscription_id s;
     sub_status := sub_status s; sub_plan_id := sub_plan_id s;
     sub_current_period_start := periodStart;
     sub_current_period_end := periodEnd;
     sub_cancelled_at := sub_cancelled_at s;
     sub_created_at := sub_created_at s; sub_updated_at := t |}.

Definition set_cancelled (t : Z) (s : subscription) : subscription :=
  {| sub_id := sub_id s; sub_user_id := sub_user_id s;
     sub_razorpay_subscription_id := sub_razorpay_subscription_id s;
     sub_status := "cancelled"; sub_plan_id := sub_plan_id s;
     sub_current_period_start := sub_current_period_start s;
     sub_current_period_end := sub_current_period_end s;
     sub_cancelled_at := Some t;
     sub_created_at := sub_created_at s; sub_updated_at := t |}.

Definition check_violation : string :=
  "new row for relation " +:+ dquote +:+ "subscriptions" +:+ dquote
  +:+ " violates check constraint " +:+ dquote +:+ "check_subscription_status" +:+ dquote.

(** The statement [UPDATE subscriptions SET ... WHERE id = $n] as the
    server runs it: [named] are the columns of its [SET] and [WHERE]
    clauses, which the table has to have, and every row it rewrites
    has to pass the [CHECK] on [status]. *)
Definition update_subscriptions (d : db) (named : list string) (subscriptionId : string)
    (f : subscription -> subscription) : result db :=
  _ ← named_columns (Some "subscriptions") subscriptions_columns named;
  if forallb (fun s => existsb (String.eqb (sub_status (f s))) check_subscription_status)
             (List.filter (fun s => String.eqb (sub_id s) subscriptionId) (subscriptions d))
  then Ok (update_subscription d subscriptionId f)
  else Throw check_violation.

(** [insertPaymentEvent]; the two trailing parameters default to
    [null].  The statement names the seven columns of its column
    list. *)
Definition insertPaymentEvent (d : db) (subscriptionId : option string)
    (eventType : string) (webhookPayload : webhook_payload) (eventId : string)
    (razorpayPaymentId : option string) (amountCents : option Z) : result db :=
  _ ← named_columns (Some "payment_events") payment_events_columns
        [ "subscription_id"; "event_type"; "razorpay_payment_id"; "razorpay_event_id";
          "webhook_payload"; "amount_cents"; "currency" ];
  Ok {| subscriptions := subscriptions d;
        payment_events :=
          payment_events d ++
          [ {| pe_subscription_id := subscriptionId;
               pe_event_type := eventType;
               pe_razorpay_payment_id := razorpayPaymentId;
               pe_razorpay_event_id := eventId;
               pe_webhook_payload := webhookPayload;
               pe_amount_cents := amountCents;
               pe_currency := "INR" |} ];
        workspaces := workspaces d |}.

Section Handlers.
Context {E : Type} `{DockerEngine E}.

(** One turn of the loop of [stopUserContainers]; a failure is logged
    and the loop goes on. *)
Definition stop_one (t : Z) (st : state E) (w : workspace) : state E :=
  match ws_container_id w with
  | Some containerId =>
      if truthy_str (Some containerId) then
        match stopContainer (st_engine st) containerId with
        | (eng', Ok _) =>
            match WorkspaceModel.updateStatus (st_db st) t (ws_id w) "stopped" with
            | Ok d' => mkState d' eng'
            | Throw _ => mkState (st_db st) eng'
            end
        | (eng', Throw _) => mkState (st_db st) eng'
        end
      else st
  | None => st
  end.

Definition stopUserContainers (t : Z) (st : state E) (userId : option string) : state E :=
  let workspaces := WorkspaceModel.findByUserId (st_db st) userId in
  let runningWorkspaces :=
    List.filter (fun w => String.eqb (ws_container_status w) "running") workspaces in
  fold_left (stop_one t) runningWorkspaces st.

Definition with_db (st : state E) (d : db) : state E := mkState d (st_engine st).

(** A handler runs inside the transaction its caller opened.  It
    returns the state it leaves, or raises.  Every statement that can
    raise comes before the one call that reaches the engine and
    writes outside the transaction, [stopUserContainers], which
    catches its own errors: a handler that raises has changed nothing
    but rows of the transaction. *)
Definition handleSubscriptionActivated (t : Z) (st : state E) (ent : entity)
    (webhookPayload : webhook_payload) (eventId : string) : result (state E) :=
  match getAndLockSubscription (st_db st) (ent_id ent) with
  | None => Ok st
  | Some subscription =>
      if negb (isValidTransition (sub_status subscription) "active") then
        d1 ← insertPaymentEvent (st_db st) (Some (sub_id subscription))
               "subscription.activated" webhookPayload eventId None None;
        Ok (with_db st d1)
      else
        d1 ← update_subscriptions (st_db st)
               ["status"; "current_period_start"; "current_period_end"; "updated_at"; "id"]
               (sub_id subscription)
               (fun s => set_status "active" t
                           (set_period (ent_current_start ent * 1000)
                                       (ent_current_end ent * 1000) t s));
        d2 ← insertPaymentEvent d1 (Some (sub_id subscription))
               "subscription.activated" webhookPayload eventId None None;
        Ok (with_db st d2)
  end.

Definition handleSubscriptionCharged (t : Z) (st : state E) (ent : entity)
    (webhookPayload : webhook_payload) (eventId : string) : result (state E) :=
  let razorpayPaymentId :=
    pl ← wp_payload webhookPayload; p ← pl_payment_entity pl; ent_id p in
  match getAndLockSubscription (st_db st) (ent_id ent) with
  | None => Ok st
  | Some subscription =>
      d1 ← update_subscriptions (st_db st)
             ["current_period_start"; "current_period_end"; "updated_at"; "id"]
             (sub_id subscription)
             (set_period (ent_current_start ent * 1000) (ent_current_end ent * 1000) t);
      d2 ← insertPaymentEvent d1 (Some (sub_id subscription))
             "subscription.charged" webhookPayload eventId razorpayPaymentId None;
      Ok (with_db st d2)
  end.

Definition handleSubscriptionCompleted (t : Z) (st : state E) (ent : entity)
    (webhookPayload : webhook_payload) (eventId : string) : result (state E) :=
  let userId := ent_notes_user_id ent in
  match getAndLockSubscription (st_db st) (ent_id ent) with
  | None => Ok st
  | Some subscription =>
      if negb (isValidTransition (sub_status subscription) "expired") then
        d1 ← insertPaymentEvent (st_db st) (Some (sub_id subscription))
               "subscription.completed" webhookPayload eventId None None;
        Ok (with_db st d1)
      else
        d1 ← update_subscriptions (st_db st) ["status"; "updated_at"; "id"]
               (sub_id subscription) (set_status "expired" t);
        d2 ← insertPaymentEvent d1 (Some (sub_id subscription))
               "subscription.completed" webhookPayload eventId None None;
        Ok (stopUserContainers t (with_db st d2) userId)
  end.

Definition handleSubscriptionCancelled (t : Z) (st : state E) (ent : entity)
    (webhookPayload : webhook_payload) (eventId : string) : result (state E) :=
  let userId := ent_notes_user_id ent in
  match getAndLockSubscription (st_db st) (ent_id ent) with
  | None => Ok st
  | Some subscription =>
      d1 ← update_subscriptions (st_db st) ["status"; "cancelled_at"; "updated_at"; "id"]
             (sub_id subscription) (set_cancelled t);
      d2 ← insertPaymentEvent d1 (Some (sub_id subscription))
             "subscription.cancelled" webhookPayload eventId None None;
      Ok (stopUserContainers t (with_db st d2) userId)
  end.

(** [handleSubscriptionPending], [handleSubscriptionHalted],
    [handleSubscriptionResumed] and [handleSubscriptionPaused] differ
    in the event name and in the target state only. *)
Definition handle_guarded_transition (eventName toState : string) (t : Z) (st : state E)
    (ent : entity) (webhookPayload : webhook_payload) (eventId : string)
  : result (state E) :=
  match getAndLockSubscription (st_db st) (ent_id ent) with
  | None => Ok st
  | Some subscription =>
      if negb (isValidTransition (sub_status subscription) toState) then
        d1 ← insertPaymentEvent (st_db st) (Some (sub_id subscription))
               eventName webhookPayload eventId None None;
        Ok (with_db st d1)
      else
        d1 ← update_subscriptions (st_db st) ["status"; "updated_at"; "id"]
               (sub_id subscription) (set_status toState t);
        d2 ← insertPaymentEvent d1 (Some (sub_id subscription))
               eventName webhookPayload eventId None None;
        Ok (with_db st d2)
  end.

Definition handleSubscriptionPending := handle_guarded_transition "subscription.pending" "past_due".
Definition handleSubscriptionHalted := handle_guarded_transition "subscription.halted" "past_due".
Definition handleSubscriptionResumed := handle_guarded_transition "subscription.resumed" "active".
Definition handleSubscriptionPaused := handle_guarded_transition "subscription.paused" "past_due".

Definition handlePaymentFailed (t : Z) (st : state E) (ent : entity)
    (webhookPayload : webhook_payload) (eventId : string) : result (state E) :=
  let razorpayPaymentId := ent_id ent in
  match getAndLockSubscription (st_db st) (ent_subscription_id ent) with
  | None => Ok st
  | Some subscription =>
      d1 ← insertPaymentEvent (st_db st) (Some (sub_id subscription))
             "payment.failed" webhookPayload eventId razorpayPaymentId None;
      Ok (with_db st d1)
  end.

(** The [switch] of [handleWebhookEvent]. *)
Definition handleWebhookEvent (t : Z) (st : state E) (eventType : string) (ent : entity)
    (webhookPayload : webhook_payload) (eventId : string) : result (state E) :=
  if String.eqb eventType "subscription.activated" then
    handleSubscriptionActivated t st ent webhookPayload eventId
  else if String.eqb eventType "subscription.charged" then
    handleSubscriptionCharged t st ent webhookPayload eventId
  else if String.eqb eventType "subscription.completed" then
    handleSubscriptionCompleted t st ent webhookPayload eventId
  else if String.eqb eventType "subscription.cancelled" then
    handleSubscriptionCancelled t st ent webhookPayload eventId
  else if String.eqb eventType "subscription.pending" then
    handleSubscriptionPending t st ent webhookPayload eventId
  else if String.eqb eventType "subscription.halted" then
    handleSubscriptionHalted t st ent webhookPayload eventId
  else if String.eqb eventType "subscription.resumed" then
    handleSubscriptionResumed t st ent webhookPayload eventId
  else if String.eqb eventType "subscription.paused" then
    handleSubscriptionPaused t st ent webhookPayload eventId
  else if String.eqb eventType "payment.failed" then
    handlePaymentFailed t st ent webhookPayload eventId
  else
    d1 ← insertPaymentEvent (st_db st) None eventType webhookPayload eventId None None;
    Ok (with_db st d1).

End Handlers.

End WebhookHandler.

(** ** config/razorpay.js *)

Module Razorpay.

(** [crypto.timingSafeEqual] on the two buffers: it throws when the
    lengths differ, and otherwise compares every byte. *)
Definition timingSafeEqual (a b : string) : result bool :=
  if (String.length a =? String.length b)%nat then Ok (String.eqb a b)
  else Throw "Input buffers must have the same byte length".

Section Verify.
Context `{Crypto} `{Config}.

Definition verifyWebhookSignature (razorpaySignature requestBody : string) : bool :=
  let expectedSignature := hmac_sha256_hex WEBHOOK_SECRET requestBody in
  match timingSafeEqual razorpaySignature expectedSignature with
  | Ok b => b
  | Throw _ => false
  end.

End Verify.

End Razorpay.

(** ** routes/payments.js *)

Module Payments.

(** [req.body] after [express.raw({ type: 'application/json' })]: the
    parser leaves the body unset or as a parsed placeholder when the
    request has no body or another content type, and reads it into a
    [Buffer] otherwise. *)
Inductive raw_body : Type :=
| BodyAbsent
| BodyNotBuffer
| BodyBuffer (bytes : string).

Record webhook_request : Type := mkWebhookRequest {
  wh_headers : gmap string string;
  wh_body : raw_body }.

Section Routes.
Context {E : Type} `{DockerEngine E} `{Crypto} `{Config} `{Json}.

(** [payload?.payment?.entity?.id || payload?.subscription?.entity?.id
    || `event_${Date.now()}`] *)
Definition event_id_of (t : Z) (webhookPayload : webhook_payload) : string :=
  let paymentId :=
    pl ← wp_payload webhookPayload; p ← pl_payment_entity pl; ent_id p in
  let subscriptionId :=
    pl ← wp_payload webhookPayload; s ← pl_subscription_entity pl; ent_id s in
  default ("event_" +:+ pretty t) (or_str (or_str paymentId subscriptionId) None).

(** [processWebhookEvent]: reading [payload.subscription] of a body
    without [payload] raises; the handler runs between [BEGIN] and
    [COMMIT], and when it raises the transaction is rolled back and
    the error rethrown. *)
Definition processWebhookEvent (t : Z) (st : state E)
    (webhookPayload : webhook_payload) (eventId : string) : state E * result unit :=
  let eventType := wp_event webhookPayload in
  match wp_payload webhookPayload with
  | None => (st, Throw "Cannot read properties of undefined (reading 'subscription')")
  | Some pl =>
      let ent :=
        match pl_subscription_entity pl with
        | Some e => Some e
        | None => pl_payment_entity pl
        end in
      match ent with
      | None => (st, Ok tt)
      | Some ent =>
          let razorpaySubscriptionId := or_str (ent_id ent) (ent_subscription_id ent) in
          if negb (truthy_str razorpaySubscriptionId) then (st, Ok tt)
          else
            match WebhookHandler.handleWebhookEvent t st eventType ent webhookPayload
                    eventId with
            | Ok st' => (st', Ok tt)
            | Throw m => (st, Throw m)
            end
      end
  end.

(** [SELECT id FROM payment_events WHERE razorpay_event_id = $1] *)
Definition existingEvent (d : db) (eventId : string) : result (list payment_event) :=
  _ ← named_columns None payment_events_columns ["id"; "razorpay_event_id"];
  Ok (List.filter (fun e => String.eqb (pe_razorpay_event_id e) eventId) (payment_events d)).

(** [POST /api/webhooks/razorpay]. *)
Definition razorpay_webhook (t : Z) (st : state E) (req : webhook_request)
  : state E * response :=
  let signature := wh_headers req !! "x-razorpay-signature" in
  match wh_body req with
  | BodyAbsent => (st, json 400 [("error", JStr "Body missing")])
  | BodyNotBuffer => (st, json 400 [("error", JStr "Body must be raw")])
  | BodyBuffer rawBody =>
      if negb (truthy_str signature) then
        (st, json 401 [("error", JStr "Signature missing")])
      else if negb (Razorpay.verifyWebhookSignature (default "" signature) rawBody) then
        (st, json 401 [("error", JStr "Invalid signature")])
      else
        match JSON_parse rawBody with
        | None => (st, json 400 [("error", JStr "Invalid JSON")])
        | Some webhookPayload =>
            let eventId := event_id_of t webhookPayload in
            match existingEvent (st_db st) eventId with
            | Throw _ => (st, json 503 [("error", JStr "Database error")])
            | Ok rows =>
                if (0 <? List.length rows)%nat then
                  (st, json 200 [("status", JStr "already_processed")])
                else
                  match processWebhookEvent t st webhookPayload eventId with
                  | (st', Ok _) => (st', json 200 [("status", JStr "success")])
                  | (st', Throw _) => (st', json 500 [("error", JStr "Processing failed")])
                  end
            end
        end
  end.

(** [Math.ceil(a / b)] for a positive [b]. *)
Definition ceil_div (a b : Z) : Z := - ((- a) / b).

(** [GET /api/payments/subscription], after [requireAuth] has set
    [req.userId].  [subscription] is what [findByUserId] resolves to:
    the array of rows. *)
Definition get_subscription (t : Z) (d : db) (userId : string) : response :=
  let subscription := JArr (List.map SubscriptionModel.row_to_js
                                     (SubscriptionModel.findByUserId d userId)) in
  if negb (truthy subscription) then
    json 404 [ ("error", JStr "No subscription");
               ("message", JStr "You do not have a subscription yet") ]
  else
    json 200
      [ ("status", get_prop subscription "status");
        ("plan", get_prop subscription "plan_id");
        ("current_period_start", get_prop subscription "current_period_start");
        ("current_period_end", get_prop subscription "current_period_end");
        ("workspace_limit", JNum 5);
        ("cancelled_at", get_prop subscription "cancelled_at");
        ("is_active", JBool (strict_eq_str (get_prop subscription "status") "active"));
        ("days_remaining",
          let periodEnd := get_prop subscription "current_period_end" in
          if truthy periodEnd then
            match periodEnd with
            | JNum e => JNum (ceil_div (e - t) (1000 * 60 * 60 * 24))
            | _ => JNull
            end
          else JNum 0) ].

End Routes.

End Payments.

(** ** routes/workspaces.js *)

Module Workspaces.

Definition access_denied : response :=
  json 403 [ ("error", JStr "Access denied");
             ("message", JStr "You do not own this workspace") ].

Definition subscription_required : response :=
  json 403 [ ("error", JStr "Subscription required");
             ("message", JStr "Active subscription required to perform this action");
             ("redirectTo", JStr "/billing") ].

Definition too_many_operations : response :=
  json 429 [ ("error", JStr "Too many container operations");
             ("message", JStr "Please try again in a few minutes") ].

Definition validation_failed : response :=
  json 400 [ ("error", JStr "Validation failed") ].

Definition not_found : response :=
  json 404 [ ("error", JStr "Not found"); ("message", JStr "Workspace not found") ].

Section Routes.
Context {E : Type} `{DockerEngine E} `{Limits} `{Config} `{Validators} {U : UuidColumn}.

(** The middleware [checkOwnership] in front of what follows it in a
    route.  It is an [async] function the router calls as it is (the
    handlers are wrapped by [asyncHandler], the middleware is not):
    when its query raises, the rejection reaches neither [next] nor
    the error handler, and the request is left unanswered.  [answer]
    ends the request with a response, [next] is the rest of the
    chain. *)
Definition checkOwnership {A : Type} (d : db) (userId id : string)
    (answer : response -> A) (next : A) : A :=
  match WorkspaceModel.isOwner_query d id userId with
  | Throw _ => answer unanswered
  | Ok isOwner => if negb isOwner then answer access_denied else next
  end.

(** The middleware [checkOwnership], [requireSubscription] and
    [containerRateLimiter], in the order the lifecycle routes chain
    them, in front of a handler. *)
Definition lifecycle_chain (env : environment) (st : state E) (userId id : string)
    (handler : state E * response) : state E * response :=
  checkOwnership (st_db st) userId id (pair st)
    (if negb (SubscriptionModel.hasActive (st_db st) (now env) userId) then
       (st, subscription_required)
     else if negb (limiter_admits env) then (st, too_many_operations)
     else handler).

(** The [catch] block of the start handler: mark the workspace in
    error, then rethrow to the error handler. *)
Definition start_failed (env : environment) (d : db) (eng : E) (workspaceId message : string)
  : state E * response :=
  match WorkspaceModel.updateStatus d (now env) workspaceId "error" with
  | Ok d' => (mkState d' eng, errorHandler message)
  | Throw m => (mkState d eng, errorHandler m)
  end.

(** The second half of the [try] block: start, then record. *)
Definition start_existing (env : environment) (d : db) (eng : E)
    (workspaceId containerId : string) : state E * response :=
  match startContainer eng containerId with
  | (eng1, Throw m) => start_failed env d eng1 workspaceId m
  | (eng1, Ok _) =>
      match WorkspaceModel.updateStatus d (now env) workspaceId "running" with
      | Throw m => start_failed env d eng1 workspaceId m
      | Ok d1 =>
          (mkState d1 eng1,
           json 200 [ ("message", JStr "Workspace started successfully");
                      ("workspace",
                        JObj [ ("id", JStr workspaceId);
                               ("status", JStr "running");
                               ("containerId", JStr containerId);
                               ("startedAt", JNum (now env)) ]) ])
      end
  end.

Definition start_handler (env : environment) (st : state E) (id : string)
  : state E * response :=
  if negb (isUUID id) then (st, validation_failed)
  else
    match WorkspaceModel.findById (st_db st) id with
    | None => (st, not_found)
    | Some workspace =>
        if String.eqb (ws_container_status workspace) "running" then
          (st, json 200 [ ("message", JStr "Workspace already running");
                          ("workspace",
                            JObj [ ("id", JStr (ws_id workspace));
                                   ("status", JStr "running");
                                   ("containerId",
                                     SubscriptionModel.opt_str (ws_container_id workspace)) ]) ])
        else if truthy_str (ws_container_id workspace) then
          start_existing env (st_db st) (st_engine st) (ws_id workspace)
                         (default "" (ws_container_id workspace))
        else
          match WorkspaceModel.updateStatus (st_db st) (now env) (ws_id workspace) "creating" with
          | Throw m => start_failed env (st_db st) (st_engine st) (ws_id workspace) m
          | Ok d1 =>
              match createContainer (st_engine st) (ws_id workspace)
                      (ws_cpu_limit workspace) (ws_memory_limit workspace) with
              | (eng1, Throw m) => start_failed env d1 eng1 (ws_id workspace) m
              | (eng1, Ok containerId) =>
                  match WorkspaceModel.updateContainer d1 (now env) (ws_id workspace)
                          containerId "stopped" with
                  | Throw m => start_failed env d1 eng1 (ws_id workspace) m
                  | Ok d2 => start_existing env d2 eng1 (ws_id workspace) containerId
                  end
              end
          end
    end.

(** [POST /api/workspaces/:id/start], for an authenticated caller. *)
Definition start_route (env : environment) (st : state E) (userId id : string)
  : state E * response :=
  lifecycle_chain env st userId id (start_handler env st id).

Definition stop_handler (env : environment) (st : state E) (id : string)
  : state E * response :=
  if negb (isUUID id) then (st, validation_failed)
  else
    match WorkspaceModel.findById (st_db st) id with
    | None => (st, not_found)
    | Some workspace =>
        if negb (truthy_str (ws_container_id workspace)) then
          (st, json 400 [ ("error", JStr "Invalid operation");
                          ("message", JStr "Workspace has no container to stop") ])
        else if String.eqb (ws_container_status workspace) "stopped" then
          (st, json 200 [ ("message", JStr "Workspace already stopped");
                          ("workspace",
                            JObj [ ("id", JStr (ws_id workspace));
                                   ("status", JStr "stopped") ]) ])
        else
          match stopContainer (st_engine st) (default "" (ws_container_id workspace)) with
          | (eng1, Throw m) => (mkState (st_db st) eng1, errorHandler m)
          | (eng1, Ok _) =>
              match WorkspaceModel.updateStatus (st_db st) (now env) (ws_id workspace)
                      "stopped" with
              | Throw m => (mkState (st_db st) eng1, errorHandler m)
              | Ok d1 =>
                  (mkState d1 eng1,
                   json 200 [ ("message", JStr "Workspace stopped successfully");
                              ("workspace",
                                JObj [ ("id", JStr (ws_id workspace));
                                       ("status", JStr "stopped") ]) ])
              end
          end
    end.

(** [POST /api/workspaces/:id/stop], for an authenticated caller. *)
Definition stop_route (env : environment) (st : state E) (userId id : string)
  : state E * response :=
  lifecycle_chain env st userId id (stop_handler env st id).

(** [parseInt(process.env.MAX_WORKSPACES_PER_USER) || 3] *)
Definition maxWorkspaces : Z :=
  match MAX_WORKSPACES_PER_USER with
  | Some n => if n =? 0 then 3 else n
  | None => 3
  end.

(** [POST /api/workspaces], for an authenticated caller:
    [requireSubscription] runs first, the validators and the handler
    after it. *)
Definition create_route (env : environment) (st : state E) (userId : string)
    (name cpuLimit memoryLimit : option string) : state E * response :=
  if negb (SubscriptionModel.hasActive (st_db st) (now env) userId) then
    (st, subscription_required)
  else if negb (create_body_valid name cpuLimit memoryLimit) then (st, validation_failed)
  else if maxWorkspaces <=? WorkspaceModel.countByUserId (st_db st) userId then
    (st, json 400 [ ("error", JStr "Limit reached");
                    ("message", JStr ("Maximum " +:+ pretty maxWorkspaces
                                      +:+ " workspaces per user")) ])
  else
    match WorkspaceModel.create (st_db st) env userId (default "" name)
            cpuLimit memoryLimit with
    | Ok (d1, workspace) =>
        (mkState d1 (st_engine st),
         json 201 [ ("message", JStr "Workspace created successfully");
                    ("workspace",
                      JObj [ ("id", JStr (ws_id workspace));
                             ("name", JStr (ws_name workspace));
                             ("apiKey", JStr (ws_api_key workspace));
                             ("status", JStr (ws_container_status workspace));
                             ("cpuLimit", JStr (ws_cpu_limit workspace));
                             ("memoryLimit", JStr (ws_memory_limit workspace));
                             ("createdAt", JNum (ws_created_at workspace)) ]) ])
    | Throw m =>
        if String.eqb m "Workspace name already exists" then
          (st, json 409 [ ("error", JStr "Conflict");
                          ("message", JStr "Workspace with this name already exists") ])
        else (st, errorHandler m)
    end.

End Routes.

End Workspaces.

(** ** routes/proxy.js *)

Module Proxy.

(** An incoming proxy request: the header lines as sent, the URL as
    sent ([req.originalUrl]), the [:workspaceId] route parameter,
    method and body. *)
Record proxy_request : Type := mkProxyRequest {
  pr_rawHeaders : list (string * string);
  pr_originalUrl : string;
  pr_workspaceId : string;
  pr_method : string;
  pr_body : string }.

(** The options [express-http-proxy] builds for the upstream request
    from the incoming one, before the decorators run. *)
Record proxyReqOpts : Type := mkProxyReqOpts {
  opt_headers : gmap string string;
  opt_method : string }.

(** The request as it leaves for the container. *)
Record forwarded : Type := mkForwarded {
  fw_target : string;
  fw_path : string;
  fw_headers : gmap string string;
  fw_method : string;
  fw_body : string }.

Inductive outcome : Type :=
| Respond (r : response)
| Forward (f : forwarded).

(** [express-http-proxy] is library code: [reqHeaders] stands for the
    headers it puts into [proxyReqOpts] from [req.headers] before the
    decorators run.  It may drop or add headers of its own (such as
    [connection]); a name it adds is assumed to be in lower case.
    [reqBody] stands for the body it sends upstream for the body the
    server received (the body parsers of the application and the
    library read it; the route configures no body decorator). *)
Class ProxyLibrary : Type := {
  reqHeaders : gmap string string -> gmap string string;
  reqHeaders_names :
    forall (headers : gmap string string) (name : string),
      is_Some (reqHeaders headers !! name) ->
      is_Some (headers !! name) \/ toLowerCase name = name;
  reqBody : string -> string }.

Section Routes.
Context {E : Type} `{DockerEngine E} `{Config} `{ProxyLibrary}.

(** [process.env.OPENCLAW_PORT || 8080] *)
Definition openclawPort : string :=
  if String.eqb OPENCLAW_PORT "" then "8080" else OPENCLAW_PORT.

(** [authenticateApiKey]: a response that ends the request, or the
    workspace and container target attached to it. *)
Definition authenticateApiKey (t : Z) (st : state E) (headers : gmap string string)
  : response + (workspace * string) :=
  let apiKey := headers !! "x-api-key" in
  if negb (truthy_str apiKey) then
    inl (json 401 [ ("error", JStr "Authentication required");
                    ("message", JStr "X-API-Key header is required") ])
  else
    match WorkspaceModel.findByApiKey (st_db st) (default "" apiKey) with
    | None =>
        inl (json 401 [ ("error", JStr "Authentication failed");
                        ("message", JStr "Invalid API key") ])
    | Some workspace =>
        if negb (SubscriptionModel.hasActive (st_db st) t (ws_user_id workspace)) then
          inl (json 403 [ ("error", JStr "Subscription required");
                          ("message", JStr "Active subscription required to access workspace") ])
        else if negb (String.eqb (ws_container_status workspace) "running") then
          inl (json 503 [ ("error", JStr "Service unavailable");
                          ("message", JStr "Workspace is not running. Please start the workspace first.");
                          ("workspaceId", JStr (ws_id workspace));
                          ("status", JStr (ws_container_status workspace)) ])
        else if negb (truthy_str (ws_container_id workspace)) then
          inl (json 503 [ ("error", JStr "Service unavailable");
                          ("message", JStr "Workspace container not initialized") ])
        else
          let containerIp :=
            getContainerIp (st_engine st) (default "" (ws_container_id workspace)) in
          if negb (truthy_str containerIp) then
            inl (json 503 [ ("error", JStr "Service unavailable");
                            ("message", JStr "Could not connect to workspace container") ])
          else
            inr (workspace, "http://" +:+ default "" containerIp +:+ ":" +:+ openclawPort)
    end.

(** [req.originalUrl.replace(`/api/proxy/${workspaceId}`, '') || '/'],
    with the identifier of the workspace found by the API key. *)
Definition proxyReqPathResolver (workspace : workspace) (originalUrl : string) : string :=
  let prefix := "/api/proxy/" +:+ ws_id workspace in
  let newPath := replace_first_with_empty prefix originalUrl in
  if String.eqb newPath "" then "/" else newPath.

(** [delete proxyReqOpts.headers['x-api-key']] *)
Definition proxyReqOptDecorator (opts : proxyReqOpts) : proxyReqOpts :=
  {| opt_headers := delete "x-api-key" (opt_headers opts);
     opt_method := opt_method opts |}.

(** [proxyErrorHandler]: what the proxy answers when resolving the
    target throws. *)
Definition proxyErrorHandler (message : string) : response :=
  json 502 [ ("error", JStr "Bad gateway");
             ("message", JStr "Failed to connect to workspace container");
             ("details", JStr message) ].

(** [router.use('/:workspaceId', authenticateApiKey, proxy(...))]; a
    failure to reach the container once the request is forwarded is
    outside the model. *)
Definition proxy_route (t : Z) (st : state E) (req : proxy_request) : outcome :=
  let headers := node_headers (pr_rawHeaders req) in
  match authenticateApiKey t st headers with
  | inl r => Respond r
  | inr (workspace, containerTarget) =>
      if String.eqb containerTarget "" then
        Respond (proxyErrorHandler "Container target not configured")
      else
        let opts := proxyReqOptDecorator
                      {| opt_headers := reqHeaders headers;
                         opt_method := pr_method req |} in
        Forward {| fw_target := containerTarget;
                   fw_path := proxyReqPathResolver workspace (pr_originalUrl req);
                   fw_headers := opt_headers opts;
                   fw_method := opt_method opts;
                   fw_body := reqBody (pr_body req) |}
  end.

End Routes.

End Proxy.

(** ** Predicates the properties are stated with *)

Module Props.

(** A key is blacklisted when its lower-cased name contains one of
    the lower-cased configured fields. *)
Definition blacklisted (key : string) : Prop :=
  exists field, In field Logger.SECRET_FIELDS
                /\ includes (toLowerCase key) (toLowerCase field) = true.

(** The entitlement of a user at an instant: a subscription row of
    theirs is [active] and its period ends later. *)
Definition entitled (d : db) (t : Z) (userId : string) : Prop :=
  exists s, In s (subscriptions d)
            /\ sub_user_id s = userId
            /\ sub_status s = "active"
            /\ t < sub_current_period_end s.

(** What the engine answers to [startContainer]: the failed
    inspection, or else the answer to the start call. *)
Definition start_answer {E} `{DockerEngine E} (eng : E) (containerId : string)
  : E * docker_res unit :=
  match container_inspect eng containerId with
  | DockerErr e => (eng, DockerErr e)
  | DockerOk _ => container_start eng containerId
  end.

Section Webhook.
Context `{Crypto} `{Config} `{Json}.

(** The payload of a request that gets past the body checks, the
    signature check and the parser. *)
Definition accepted (req : Payments.webhook_request) : option webhook_payload :=
  match Payments.wh_body req with
  | Payments.BodyBuffer rawBody =>
      match Payments.wh_headers req !! "x-razorpay-signature" with
      | Some signature =>
          if negb (String.eqb signature "")
             && Razorpay.verifyWebhookSignature signature rawBody
          then JSON_parse rawBody else None
      | None => None
      end
  | _ => None
  end.

End Webhook.


(** The entity [processWebhookEvent] hands to the state machine. *)
Definition handed_entity (webhookPayload : webhook_payload) : option entity :=
  pl ← wp_payload webhookPayload;
  ent ← match pl_subscription_entity pl with
        | Some e => Some e
        | None => pl_payment_entity pl
        end;
  if truthy_str (or_str (ent_id ent) (ent_subscription_id ent)) then Some ent else None.

Definition subscription_events : list string :=
  [ "subscription.activated"; "subscription.charged"; "subscription.completed";
    "subscription.cancelled"; "subscription.pending"; "subscription.halted";
    "subscription.resumed"; "subscription.paused" ].

(** The handler of the event goes on to write: the type of the event
    is not one the switch knows, or its handler finds the
    subscription row. *)
Definition locates (d : db) (eventType : string) (ent : entity) : bool :=
  if existsb (String.eqb eventType) subscription_events then
    bool_decide (is_Some (WebhookHandler.getAndLockSubscription d (ent_id ent)))
  else if String.eqb eventType "payment.failed" then
    bool_decide (is_Some (WebhookHandler.getAndLockSubscription d (ent_subscription_id ent)))
  else true.

(** The request with another [:workspaceId] path parameter. *)
Definition with_path_parameter (req : Proxy.proxy_request) (other : string)
  : Proxy.proxy_request :=
  {| Proxy.pr_rawHeaders := Proxy.pr_rawHeaders req;
     Proxy.pr_originalUrl := Proxy.pr_originalUrl req;
     Proxy.pr_workspaceId := other;
     Proxy.pr_method := Proxy.pr_method req;
     Proxy.pr_body := Proxy.pr_body req |}.


(** The answer to a failed duplicate lookup. *)
Definition database_error : response := json 503 [("error", JStr "Database error")].

End Props.

(** ** A reference daemon and sample data for the examples *)

Module Sim.

(** A container: identifier, running flag, attached network. *)
Record sim_container : Type := mkSim {
  sc_id : string;
  sc_running : bool;
  sc_network : string;
  sc_ip : string }.

Record daemon : Type := mkDaemon {
  containers : list sim_container;
  networks : list string }.

Definition lookup_container (d : daemon) (id : string) : option sim_container :=
  List.find (fun c => String.eqb (sc_id c) id) (containers d).

Definition set_running (d : daemon) (id : string) (b : bool) : daemon :=
  {| containers :=
       List.map (fun c => if String.eqb (sc_id c) id
                          then {| sc_id := sc_id c; sc_running := b;
                                  sc_network := sc_network c; sc_ip := sc_ip c |}
                          else c) (containers d);
     networks := networks d |}.

Definition no_such_container : docker_error :=
  {| statusCode := Some 404; err_message := "no such container" |}.

Definition not_modified : docker_error :=
  {| statusCode := Some 304; err_message := "not modified" |}.

#[global] Instance sim_engine : DockerEngine daemon := {|
  docker_listNetworks d name := DockerOk (List.filter (String.eqb name) (networks d));
  docker_createNetwork d name :=
    ({| containers := containers d; networks := networks d ++ [name] |}, DockerOk tt);
  docker_createContainer d cfg :=
    ({| containers := containers d ++
                      [ {| sc_id := "ctr_" +:+ cfg_name cfg; sc_running := false;
                           sc_network := cfg_NetworkMode cfg; sc_ip := "" |} ];
        networks := networks d |},
     DockerOk ("ctr_" +:+ cfg_name cfg));
  container_inspect d id :=
    match lookup_container d id with
    | Some c => DockerOk {| info_networks := [(sc_network c, if sc_running c then sc_ip c else "")] |}
    | None => DockerErr no_such_container
    end;
  container_start d id :=
    match lookup_container d id with
    | Some c => if sc_running c then (d, DockerErr not_modified)
                else (set_running d id true, DockerOk tt)
    | None => (d, DockerErr no_such_container)
    end;
  container_stop d id _ :=
    match lookup_container d id with
    | Some c => if sc_running c then (set_running d id false, DockerOk tt)
                else (d, DockerErr not_modified)
    | None => (d, DockerErr no_such_container)
    end;
  container_remove d id _ :=
    match lookup_container d id with
    | Some c => ({| containers := List.filter (fun c => negb (String.eqb (sc_id c) id)) (containers d);
                    networks := networks d |}, DockerOk tt)
    | None => (d, DockerErr no_such_container)
    end;
  container_restart d id _ :=
    match lookup_container d id with
    | Some c => (set_running d id true, DockerOk tt)
    | None => (d, DockerErr no_such_container)
    end |}.

#[global] Instance sim_config : Config := {|
  OPENCLAW_NETWORK := "openclaw_internal";
  OPENCLAW_IMAGE := "openclaw/mock:latest";
  OPENCLAW_PORT := "";
  WEBHOOK_SECRET := "whsec_test";
  MAX_WORKSPACES_PER_USER := None;
  DEFAULT_CPU_LIMIT := "";
  DEFAULT_MEMORY_LIMIT := "";
  FRONTEND_URL := "" |}.

#[global] Instance sim_limits : Limits := {|
  validated_cpu_quota _ := Ok 100000;
  validateMemoryLimit m := Ok m;
  parseMemoryLimit _ := Ok 536870912 |}.

(** A stand-in for the UUID pattern: the 36-character strings. *)
#[global] Instance sim_validators : Validators := {|
  isUUID s := (String.length s =? 36)%nat;
  create_body_valid name _ _ := truthy_str name |}.

#[global] Instance sim_uuid : UuidColumn := {|
  uuid_in s := (String.length s =? 36)%nat;
  uuid_in_isUUID s Hs := Hs |}.

(** A library that copies the request headers and the body. *)
#[global] Instance sim_proxy : Proxy.ProxyLibrary := {|
  Proxy.reqHeaders headers := headers;
  Proxy.reqHeaders_names headers name Hsome := or_introl Hsome;
  Proxy.reqBody body := body |}.

(** A stand-in for the keyed digest: any function of key and body
    serves the examples. *)
#[global] Instance sim_crypto : Crypto := {|
  hmac_sha256_hex key body := "mac(" +:+ key +:+ "," +:+ body +:+ ")" |}.

Definition sub_entity (id : string) : entity :=
  {| ent_id := Some id; ent_subscription_id := None; ent_notes_user_id := Some "u1";
     ent_current_start := 1700000000; ent_current_end := 1702592000;
     ent_error_reason := None |}.

Definition sub_event (event id : string) : webhook_payload :=
  {| wp_event := event;
     wp_payload := Some {| pl_subscription_entity := Some (sub_entity id);
                           pl_payment_entity := None |} |}.

(** Sample bodies, by name. *)
#[global] Instance sim_json : Json := {|
  JSON_parse body :=
    if String.eqb body "activated sub_1" then Some (sub_event "subscription.activated" "sub_1")
    else if String.eqb body "charged sub_1" then Some (sub_event "subscription.charged" "sub_1")
    else if String.eqb body "cancelled sub_1" then Some (sub_event "subscription.cancelled" "sub_1")
    else if String.eqb body "charged sub_9" then Some (sub_event "subscription.charged" "sub_9")
    else None |}.

Definition signed (body : string) : Payments.webhook_request :=
  {| Payments.wh_headers := {[ "x-razorpay-signature" := hmac_sha256_hex WEBHOOK_SECRET body ]};
     Payments.wh_body := Payments.BodyBuffer body |}.

Definition sub1 (status : string) : subscription :=
  {| sub_id := "s1"; sub_user_id := "u1";
     sub_razorpay_subscription_id := Some "sub_1";
     sub_status := status; sub_plan_id := "plan_monthly_basic";
     sub_current_period_start := 1000; sub_current_period_end := 5000;
     sub_cancelled_at := None; sub_created_at := 900; sub_updated_at := 900 |}.

Definition ws1 (status : string) (containerId : option string) : workspace :=
  {| ws_id := "123e4567-e89b-12d3-a456-426614174000"; ws_user_id := "u1"; ws_name := "dev";
     ws_api_key := "k1"; ws_cpu_limit := "1.0"; ws_memory_limit := "512m";
     ws_container_id := containerId; ws_container_status := status;
     ws_created_at := 950; ws_updated_at := 950; ws_last_started_at := None |}.

Definition db1 (subStatus wsStatus : string) (containerId : option string) : db :=
  {| subscriptions := [sub1 subStatus]; payment_events := [];
     workspaces := [ws1 wsStatus containerId] |}.

Definition daemon1 (running : bool) : daemon :=
  {| containers := [ {| sc_id := "c1"; sc_running := running;
                        sc_network := "openclaw_internal"; sc_ip := "172.18.0.2" |} ];
     networks := ["openclaw_internal"] |}.

Definition env1 : environment :=
  {| now := 2000; limiter_admits := true; fresh_uuid := "w2"; fresh_api_key := "k2" |}.

Definition wsid : string := "123e4567-e89b-12d3-a456-426614174000".

Definition st_unentitled : state daemon :=
  mkState (db1 "pending" "stopped" (Some "c1")) (daemon1 false).

Definition st_stopped : state daemon :=
  mkState (db1 "active" "stopped" (Some "c1")) (daemon1 false).

Definition st_never_created : state daemon :=
  mkState (db1 "active" "stopped" None) (daemon1 false).

Definition st_running : state daemon :=
  mkState (db1 "active" "running" (Some "c1")) (daemon1 true).

Definition logged_sample : jsval :=
  JObj [ ("userId", JStr "u1");
         ("request", JObj [ ("headers", JObj [ ("Authorization", JStr "Bearer abc") ]);
                            ("items", JArr [ JObj [ ("apiKey", JStr "k1") ] ]) ]) ].

(** Two proxy requests presenting the API key of [ws1]: one whose
    path names that workspace, one whose path segment extends its
    identifier by a character. *)
Definition proxy_req (url param : string) : Proxy.proxy_request :=
  {| Proxy.pr_rawHeaders := [("X-API-Key", "k1"); ("Accept", "text/plain")];
     Proxy.pr_originalUrl := url;
     Proxy.pr_workspaceId := param;
     Proxy.pr_method := "GET";
     Proxy.pr_body := "" |}.

Definition proxy_req_own : Proxy.proxy_request :=
  proxy_req ("/api/proxy/" +:+ wsid +:+ "/health") wsid.

Definition proxy_req_other : Proxy.proxy_request :=
  proxy_req ("/api/proxy/" +:+ wsid +:+ "x/health") (wsid +:+ "x").

Definition fwd (path : string) : Proxy.forwarded :=
  {| Proxy.fw_target := "http://172.18.0.2:8080";
     Proxy.fw_path := path;
     Proxy.fw_headers := {[ "accept" := "text/plain" ]};
     Proxy.fw_method := "GET";
     Proxy.fw_body := "" |}.



Definition st_sub (status : string) : state daemon :=
  mkState (db1 status "running" (Some "c1")) (daemon1 true).

End Sim.

(** ** Characters of a string *)

Module Chars.

(** [s.includes(c)] for one character. *)
Definition has_char (c : ascii) (s : string) : bool :=
  existsb (Ascii.eqb c) (list_ascii_of_string s).

(** [s[0]] and [s[s.length - 1]]. *)
Definition first_char (s : string) : option ascii :=
  match s with
  | EmptyString => None
  | String c _ => Some c
  end.

Fixpoint last_char (s : string) : option ascii :=
  match s with
  | EmptyString => None
  | String c EmptyString => Some c
  | String _ s' => last_char s'
  end.

End Chars.

(** ** models/user.js *)

Module UserModel.

(** A row of [users].  The migration of this table is not among the
    migrations of the repository: the row has the columns the
    queries of the model name. *)
Record user : Type := mkUser {
  user_id : string;
  user_email : string;
  user_password_hash : string;
  user_created_at : Z;
  user_updated_at : Z }.

(** A user as returned to callers: every column but the digest. *)
Record public_user : Type := mkPublicUser {
  pu_id : string;
  pu_email : string;
  pu_created_at : Z;
  pu_updated_at : Z }.

Definition without_password (u : user) : public_user :=
  {| pu_id := user_id u; pu_email := user_email u;
     pu_created_at := user_created_at u; pu_updated_at := user_updated_at u |}.

(** [bcrypt] is library code; the salt it draws is an input. *)
Class Bcrypt : Type := {
  bcrypt_hash : string -> Z -> string -> string;
  bcrypt_compare : string -> string -> bool;
  BCRYPT_ROUNDS_env : option Z }.

Section Model.
Context `{Bcrypt}.

(** [parseInt(process.env.BCRYPT_ROUNDS) || 10] *)
Definition BCRYPT_ROUNDS : Z :=
  match BCRYPT_ROUNDS_env with
  | Some n => if n =? 0 then 10 else n
  | None => 10
  end.

(** [INSERT INTO users ...]: the primary key and [email] are unique;
    a violation (code 23505) is rethrown as a registration error. *)
Definition create (users : list user) (env : environment) (salt email password : string)
  : result (list user * public_user) :=
  let passwordHash := bcrypt_hash password BCRYPT_ROUNDS salt in
  let row := {| user_id := fresh_uuid env; user_email := email;
                user_password_hash := passwordHash;
                user_created_at := now env; user_updated_at := now env |} in
  if existsb (fun u => String.eqb (user_id u) (user_id row)
                       || String.eqb (user_email u) email) users
  then Throw "Email already registered"
  else Ok ((users ++ [row])%list, without_password row).

Definition findByEmail (users : list user) (email : string) : option user :=
  List.find (fun u => String.eqb (user_email u) email) users.

Definition findById (users : list user) (userId : string) : option public_user :=
  without_password <$> List.find (fun u => String.eqb (user_id u) userId) users.

Definition verifyPassword (users : list user) (email password : string)
  : option public_user :=
  match findByEmail users email with
  | None => None
  | Some user =>
      if negb (bcrypt_compare password (user_password_hash user)) then None
      else Some (without_password user)
  end.

(** [UPDATE users SET email = ...]: no row raises ["User not found"],
    a taken address raises ["Email already in use"]. *)
Definition updateEmail (users : list user) (t : Z) (userId newEmail : string)
  : result (list user * public_user) :=
  if existsb (fun u => negb (String.eqb (user_id u) userId)
                       && String.eqb (user_email u) newEmail) users
     && existsb (fun u => String.eqb (user_id u) userId) users
  then Throw "Email already in use"
  else
    let updated :=
      List.map (fun u => if String.eqb (user_id u) userId
                         then {| user_id := user_id u; user_email := newEmail;
                                 user_password_hash := user_password_hash u;
                                 user_created_at := user_created_at u;
                                 user_updated_at := t |}
                         else u) users in
    match List.find (fun u => String.eqb (user_id u) userId) updated with
    | None => Throw "User not found"
    | Some u => Ok (updated, without_password u)
    end.

Definition updatePassword (users : list user) (t : Z) (salt userId newPassword : string)
  : result (list user) :=
  let passwordHash := bcrypt_hash newPassword BCRYPT_ROUNDS salt in
  if existsb (fun u => String.eqb (user_id u) userId) users then
    Ok (List.map (fun u => if String.eqb (user_id u) userId
                           then {| user_id := user_id u; user_email := user_email u;
                                   user_password_hash := passwordHash;
                                   user_created_at := user_created_at u;
                                   user_updated_at := t |}
                           else u) users)
  else Throw "User not found".

End Model.

End UserModel.

(** ** services/authService.js and middleware/auth.js *)

Module AuthService.

(** [s.split(sep)] for a one-character separator. *)
Fixpoint split_on (sep : ascii) (s : string) : list string :=
  match s with
  | EmptyString => [EmptyString]
  | String c s' =>
      if Ascii.eqb c sep then EmptyString :: split_on sep s'
      else match split_on sep s' with
           | [] => [String c EmptyString]
           | part :: parts => String c part :: parts
           end
  end.

(** [extractTokenFromHeader]; the header may be absent. *)
Definition extractTokenFromHeader (authHeader : option string) : option string :=
  if negb (truthy_str authHeader) then None
  else
    match split_on " " (default "" authHeader) with
    | [scheme; token] => if String.eqb scheme "Bearer" then Some token else None
    | _ => None
    end.

(** The claims of a token. *)
Record token_payload : Type := mkTokenPayload {
  tp_userId : string;
  tp_email : string;
  tp_iat : Z }.

(** [jsonwebtoken] is library code: signing under a secret with a
    lifetime in seconds, and verification at an instant, which fails
    on a bad signature and on expiry. *)
Class Jwt : Type := {
  jwt_sign : token_payload -> string -> Z -> string;
  jwt_verify : string -> string -> Z -> option token_payload;
  JWT_SECRET : string;
  JWT_EXPIRY_env : option Z }.

Section Service.
Context `{Jwt}.

(** [parseInt(process.env.JWT_EXPIRY) || 86400] *)
Definition JWT_EXPIRY : Z :=
  match JWT_EXPIRY_env with
  | Some n => if n =? 0 then 86400 else n
  | None => 86400
  end.

(** [generateToken]; [Math.floor(Date.now() / 1000)] is the issue
    time. *)
Definition generateToken (t : Z) (user : UserModel.public_user) : string :=
  jwt_sign {| tp_userId := UserModel.pu_id user;
              tp_email := UserModel.pu_email user;
              tp_iat := t / 1000 |} JWT_SECRET JWT_EXPIRY.

(** [verifyToken]: every failure of the library is turned into
    [null]. *)
Definition verifyToken (t : Z) (token : string) : option token_payload :=
  jwt_verify token JWT_SECRET t.

(** [requireAuth]: the response that ends the request, or the user
    attached to it ([req.user], [req.userId]).  No modelled query
    fails, so the 500 of its [catch] block does not appear. *)
Definition requireAuth (t : Z) (users : list UserModel.user)
    (headers : gmap string string) : response + UserModel.public_user :=
  let authHeader := headers !! "authorization" in
  let token := extractTokenFromHeader authHeader in
  if negb (truthy_str token) then
    inl (json 401 [ ("error", JStr "Authentication required");
                    ("message", JStr "No token provided") ])
  else
    match verifyToken t (default "" token) with
    | None =>
        inl (json 401 [ ("error", JStr "Authentication failed");
                        ("message", JStr "Invalid or expired token") ])
    | Some decoded =>
        match UserModel.findById users (tp_userId decoded) with
        | None =>
            inl (json 401 [ ("error", JStr "Authentication failed");
                            ("message", JStr "User not found") ])
        | Some user => inr user
        end
    end.

End Service.

End AuthService.

(** ** routes/auth.js *)

Module AuthRoutes.

(** The [express-validator] chains of the two routes, and its
    [normalizeEmail] sanitizer, are library code. *)
Class AuthValidators : Type := {
  register_body_valid : string -> string -> bool;
  login_body_valid : string -> string -> bool;
  normalizeEmail : string -> string }.

Section Routes.
Context `{UserModel.Bcrypt} `{AuthService.Jwt} `{AuthValidators}.

Definition public_user_json (u : UserModel.public_user) : jsval :=
  JObj [ ("id", JStr (UserModel.pu_id u));
         ("email", JStr (UserModel.pu_email u));
         ("createdAt", JNum (UserModel.pu_created_at u)) ].

(** [POST /api/auth/register], for a request the rate limiter in
    front of it admits. *)
Definition register (users : list UserModel.user) (env : environment)
    (salt email password : string) : list UserModel.user * response :=
  if negb (register_body_valid email password) then
    (users, json 400 [ ("error", JStr "Validation failed") ])
  else
    match UserModel.create users env salt (normalizeEmail email) password with
    | Ok (users', user) =>
        (users', json 201 [ ("message", JStr "User registered successfully");
                            ("user", public_user_json user) ])
    | Throw m =>
        if String.eqb m "Email already registered" then
          (users, json 409 [ ("error", JStr "Registration failed");
                             ("message", JStr "Email already registered") ])
        else (users, errorHandler m)
    end.

(** [POST /api/auth/login], for a request the rate limiter in front
    of it admits. *)
Definition login (users : list UserModel.user) (t : Z) (email password : string)
  : response :=
  if negb (login_body_valid email password) then
    json 400 [ ("error", JStr "Validation failed") ]
  else
    match UserModel.verifyPassword users (normalizeEmail email) password with
    | None =>
        json 401 [ ("error", JStr "Authentication failed");
                   ("message", JStr "Invalid email or password") ]
    | Some user =>
        json 200 [ ("message", JStr "Login successful");
                   ("token", JStr (AuthService.generateToken t user));
                   ("expiresIn", JNum AuthService.JWT_EXPIRY);
                   ("user", JObj [ ("id", JStr (UserModel.pu_id user));
                                   ("email", JStr (UserModel.pu_email user)) ]) ]
    end.

(** [GET /api/auth/me], behind [requireAuth]. *)
Definition me (t : Z) (users : list UserModel.user) (headers : gmap string string)
  : response :=
  match AuthService.requireAuth t users headers with
  | inl r => r
  | inr user =>
      json 200 [ ("user",
                  JObj [ ("id", JStr (UserModel.pu_id user));
                         ("email", JStr (UserModel.pu_email user));
                         ("createdAt", JNum (UserModel.pu_created_at user));
                         ("updatedAt", JNum (UserModel.pu_updated_at user)) ]) ]
  end.

End Routes.

End AuthRoutes.

(** ** utils/validation.js *)

Module Validation.

(** The character classes of the regular expressions, on ASCII:
    [\s], [a-z], [A-Z], [0-9]. *)
Definition is_space (c : ascii) : bool :=
  let n := nat_of_ascii c in
  ((9 <=? n) && (n <=? 13) || (n =? 32))%nat.

Definition is_lower (c : ascii) : bool :=
  let n := nat_of_ascii c in ((97 <=? n) && (n <=? 122))%nat.

Definition is_upper (c : ascii) : bool :=
  let n := nat_of_ascii c in ((65 <=? n) && (n <=? 90))%nat.

Definition is_digit (c : ascii) : bool :=
  let n := nat_of_ascii c in ((48 <=? n) && (n <=? 57))%nat.

(** The class of the password rule, by character code:
    ! @ # $ % ^ & * ( ) _ + - = [ ] { } ; ' : double quote, backslash,
    | , . < > / ? *)
Definition special_codes : list nat :=
  [ 33; 64; 35; 36; 37; 94; 38; 42; 40; 41; 95; 43; 45; 61; 91; 93; 123; 125;
    59; 39; 58; 34; 92; 124; 44; 46; 60; 62; 47; 63 ]%nat.

Definition is_special (c : ascii) : bool :=
  existsb (Nat.eqb (nat_of_ascii c)) special_codes.

(** [[a-zA-Z0-9\s_-]] *)
Definition name_char (c : ascii) : bool :=
  is_lower c || is_upper c || is_digit c || is_space c
  || Ascii.eqb c "_" || Ascii.eqb c "-".

(** [s.trimStart()], [s.trimEnd()] and [s.trim()]. *)
Fixpoint trimStart (s : string) : string :=
  match s with
  | EmptyString => EmptyString
  | String c s' => if is_space c then trimStart s' else s
  end.

Fixpoint trimEnd (s : string) : string :=
  match s with
  | EmptyString => EmptyString
  | String c s' =>
      match trimEnd s' with
      | EmptyString => if is_space c then EmptyString else String c EmptyString
      | rest => String c rest
      end
  end.

Definition trim (s : string) : string := trimEnd (trimStart s).

(** [/^[a-zA-Z0-9\s_-]+$/.test(name)] *)
Definition name_pattern (name : string) : bool :=
  negb (String.eqb name "") && forallb name_char (list_ascii_of_string name).

(** [validateWorkspaceName], for a string argument. *)
Definition validateWorkspaceName (name : string) : result string :=
  if (String.length (trim name) =? 0)%nat then Throw "Workspace name is required"
  else if (100 <? String.length name)%nat then
    Throw "Workspace name must be 100 characters or less"
  else if negb (name_pattern name) then
    Throw "Workspace name can only contain letters, numbers, spaces, hyphens, and underscores"
  else Ok (trim name).

(** [validateEmailLength], for a string argument. *)
Definition validateEmailLength (email : string) : result string :=
  if (255 <? String.length email)%nat then Throw "Email must be 255 characters or less"
  else Ok email.

Definition has (class : ascii -> bool) (s : string) : bool :=
  existsb class (list_ascii_of_string s).

(** [validatePasswordStrength], for a string argument. *)
Definition validatePasswordStrength (password : string) : result string :=
  if ((String.length password <? 8) || (128 <? String.length password))%nat then
    Throw "Password must be between 8 and 128 characters"
  else if negb (has is_lower password) then
    Throw "Password must contain at least one lowercase letter"
  else if negb (has is_upper password) then
    Throw "Password must contain at least one uppercase letter"
  else if negb (has is_digit password) then
    Throw "Password must contain at least one number"
  else if negb (has is_special password) then
    Throw "Password must contain at least one special character"
  else Ok password.

End Validation.

(** ** models/workspace.js and routes/workspaces.js: listing, reading
    and deleting *)

Module WorkspaceCrud.

(** [DELETE FROM workspaces WHERE id = $1]; a [rowCount] of zero
    raises. *)
Definition deleteWorkspace (d : db) (workspaceId : string) : result db :=
  if existsb (fun w => String.eqb (ws_id w) workspaceId) (workspaces d) then
    Ok (WorkspaceModel.set_workspaces d
          (List.filter (fun w => negb (String.eqb (ws_id w) workspaceId)) (workspaces d)))
  else Throw "Workspace not found".

(** [findRunning]: [container_status = 'running' AND container_id IS
    NOT NULL]. *)
Definition findRunning (d : db) : list workspace :=
  List.filter (fun w => String.eqb (ws_container_status w) "running"
                        && match ws_container_id w with Some _ => true | None => false end)
              (workspaces d).

Definition opt_num (o : option Z) : jsval :=
  match o with
  | Some n => JNum n
  | None => JNull
  end.

(** The element the listing builds for a row. *)
Definition sanitized (ws : workspace) : jsval :=
  JObj [ ("id", JStr (ws_id ws));
         ("name", JStr (ws_name ws));
         ("status", JStr (ws_container_status ws));
         ("cpuLimit", JStr (ws_cpu_limit ws));
         ("memoryLimit", JStr (ws_memory_limit ws));
         ("createdAt", JNum (ws_created_at ws));
         ("lastStartedAt", opt_num (ws_last_started_at ws)) ].

(** [GET /api/workspaces], for an authenticated caller. *)
Definition list_route (d : db) (userId : string) : response :=
  let workspaces := WorkspaceModel.findByUserId d (Some userId) in
  let sanitizedWorkspaces := List.map sanitized workspaces in
  json 200 [ ("workspaces", JArr sanitizedWorkspaces);
             ("count", JNum (Z.of_nat (List.length sanitizedWorkspaces))) ].

(** [res.status(204).send()] *)
Definition no_content : response := {| res_status := 204; res_body := JUndefined |}.

Section Routes.
Context {E : Type} `{DockerEngine E} `{Config} `{Validators} {U : UuidColumn}.

(** [process.env.FRONTEND_URL || 'http://localhost:3000'] *)
Definition frontendUrl : string :=
  if String.eqb FRONTEND_URL "" then "http://localhost:3000" else FRONTEND_URL.

(** [GET /api/workspaces/:id], for an authenticated caller:
    [checkOwnership], then the handler. *)
Definition get_route (d : db) (userId id : string) : response :=
  Workspaces.checkOwnership d userId id (fun r => r)
    (if negb (isUUID id) then Workspaces.validation_failed
     else
       match WorkspaceModel.findById d id with
       | None => Workspaces.not_found
       | Some workspace =>
           json 200
             [ ("workspace",
                 JObj [ ("id", JStr (ws_id workspace));
                        ("name", JStr (ws_name workspace));
                        ("apiKey", JStr (ws_api_key workspace));
                        ("status", JStr (ws_container_status workspace));
                        ("cpuLimit", JStr (ws_cpu_limit workspace));
                        ("memoryLimit", JStr (ws_memory_limit workspace));
                        ("createdAt", JNum (ws_created_at workspace));
                        ("lastStartedAt", opt_num (ws_last_started_at workspace));
                        ("proxyUrl",
                          JStr (frontendUrl +:+ "/api/proxy/" +:+ ws_id workspace)) ]) ]
       end).

(** [DELETE /api/workspaces/:id], for an authenticated caller:
    [checkOwnership], then the handler; neither a subscription nor
    the rate limiter stands in front of it. *)
Definition delete_route (st : state E) (userId id : string) : state E * response :=
  Workspaces.checkOwnership (st_db st) userId id (pair st)
    (if negb (isUUID id) then (st, Workspaces.validation_failed)
     else
       match WorkspaceModel.findById (st_db st) id with
       | None => (st, Workspaces.not_found)
       | Some workspace =>
           let removed :=
             if truthy_str (ws_container_id workspace) then
               removeContainer (st_engine st) (default "" (ws_container_id workspace)) true
             else (st_engine st, Ok true) in
           match removed with
           | (eng1, Throw m) => (mkState (st_db st) eng1, errorHandler m)
           | (eng1, Ok _) =>
               match deleteWorkspace (st_db st) (ws_id workspace) with
               | Throw m => (mkState (st_db st) eng1, errorHandler m)
               | Ok d1 => (mkState d1 eng1, no_content)
               end
           end
       end).

End Routes.

End WorkspaceCrud.

(** ** What a request on one workspace leaves alone *)

Module Frames.

(** A row before and after a request on the workspace [id]: it is the
    same row (identifier, owner, name, API key, limits and creation
    time are kept), and a row with another identifier is untouched. *)
Definition same_workspace (id : string) (w w' : workspace) : Prop :=
  ws_id w' = ws_id w
  /\ ws_user_id w' = ws_user_id w
  /\ ws_name w' = ws_name w
  /\ ws_api_key w' = ws_api_key w
  /\ ws_cpu_limit w' = ws_cpu_limit w
  /\ ws_memory_limit w' = ws_memory_limit w
  /\ ws_created_at w' = ws_created_at w
  /\ (ws_id w <> id -> w' = w).

(** The database before and after: the subscription tables are
    untouched, the workspaces are the same rows in the same order. *)
Definition workspaces_kept (id : string) (d d' : db) : Prop :=
  subscriptions d' = subscriptions d
  /\ payment_events d' = payment_events d
  /\ Forall2 (same_workspace id) (workspaces d) (workspaces d').


(** The row [UPDATE workspaces SET container_status = 'stopped',
    updated_at = NOW()] leaves. *)
Definition marked_stopped (t : Z) (w : workspace) : workspace :=
  {| ws_id := ws_id w; ws_user_id := ws_user_id w; ws_name := ws_name w;
     ws_api_key := ws_api_key w; ws_cpu_limit := ws_cpu_limit w;
     ws_memory_limit := ws_memory_limit w;
     ws_container_id := ws_container_id w;
     ws_container_status := "stopped";
     ws_created_at := ws_created_at w; ws_updated_at := t;
     ws_last_started_at := ws_last_started_at w |}.

(** A workspace row before and after a webhook: untouched, or marked
    stopped. *)
Definition stopped_or_same (w w' : workspace) : Prop :=
  w' = w \/ exists t, w' = marked_stopped t w.



End Frames.

(** ** models/subscription.js and routes/payments.js: checkout and
    cancellation *)

Module Checkout.

(** [PLANS]: [process.env.RAZORPAY_PLAN_MONTHLY_BASIC ||
    'plan_monthly_basic']; an unset variable reads as the empty
    string. *)
Class Plans : Type := {
  RAZORPAY_PLAN_MONTHLY_BASIC : string }.

(** What [razorpay.subscriptions.create] resolves to, as far as it is
    read; a [null] period bound multiplies to 0. *)
Record razorpay_subscription : Type := mkRazorpaySubscription {
  rz_id : string;
  rz_short_url : string;
  rz_current_start : Z;
  rz_current_end : Z }.

(** What the SDK rejects with: [error.error.code] and
    [error.error.description] when the API answered, and the
    message. *)
Record api_error : Type := mkApiError {
  api_code : option string;
  api_description : option string;
  api_message : string }.

(** The payment provider behind the SDK: an abstract state and the
    two calls the routes make. *)
Class RazorpayApi (R : Type) : Type := {
  subscriptions_create : R -> string -> string -> string -> R * (api_error + razorpay_subscription);
  subscriptions_cancel : R -> option string -> R * (api_error + unit) }.

Definition dquote : string := String (ascii_of_nat 34) EmptyString.

(** The message of PostgreSQL's error 23505. *)
Definition unique_violation (constraint : string) : string :=
  "duplicate key value violates unique constraint " +:+ dquote +:+ constraint +:+ dquote.

(** [subscriptionModel.create]: [INSERT INTO subscriptions ...]; the
    primary key and [razorpay_subscription_id] are unique, and the
    error of a violation is rethrown as it is. *)
Definition create (d : db) (env : environment) (userId razorpaySubscriptionId status planId : string)
    (currentPeriodStart currentPeriodEnd : Z) : result (db * subscription) :=
  let row := {| sub_id := fresh_uuid env; sub_user_id := userId;
                sub_razorpay_subscription_id := Some razorpaySubscriptionId;
                sub_status := status; sub_plan_id := planId;
                sub_current_period_start := currentPeriodStart;
                sub_current_period_end := currentPeriodEnd;
                sub_cancelled_at := None;
                sub_created_at := now env; sub_updated_at := now env |} in
  if existsb (fun s => String.eqb (sub_id s) (sub_id row)) (subscriptions d) then
    Throw (unique_violation "subscriptions_pkey")
  else if existsb (fun s => sql_eq_opt (Some razorpaySubscriptionId)
                                       (sub_razorpay_subscription_id s))
                  (subscriptions d) then
    Throw (unique_violation "subscriptions_razorpay_subscription_id_key")
  else Ok (WebhookHandler.set_subscriptions d (subscriptions d ++ [row]), row).

(** [findPendingByUserId]: the newest [pending] row of the user. *)
Definition findPendingByUserId (d : db) (userId : string) : option subscription :=
  head (order_by_desc sub_created_at
          (List.filter (fun s => String.eqb (sub_user_id s) userId
                                 && String.eqb (sub_status s) "pending")
                       (subscriptions d))).

Section Routes.
Context {R : Type} `{RazorpayApi R} `{Plans}.

(** [Object.values(PLANS)] *)
Definition validPlans : list string :=
  [ if String.eqb RAZORPAY_PLAN_MONTHLY_BASIC "" then "plan_monthly_basic"
    else RAZORPAY_PLAN_MONTHLY_BASIC ].

(** The answer to an error of the SDK, in both routes: 503 when the
    API answered with an error code, the error handler otherwise. *)
Definition provider_error (what : string) (e : api_error) : response :=
  if truthy_str (api_code e) then
    json 503 [ ("error", JStr "Payment provider error");
               ("message", JStr ("Unable to " +:+ what +:+ " subscription. Please try again later."));
               ("details", SubscriptionModel.opt_str
                             (or_str (api_description e) (Some (api_message e)))) ]
  else errorHandler (api_message e).

(** [POST /api/payments/checkout], for an authenticated caller;
    [plan_id] is the member of the body, when it is a string.  The
    row of a pending subscription has no [short_url] column. *)
Definition checkout (users : list UserModel.user) (env : environment) (d : db) (rz : R)
    (userId : string) (plan_id : option string) : (db * R) * response :=
  if negb (truthy_str plan_id)
     || negb (existsb (String.eqb (default "" plan_id)) validPlans) then
    ((d, rz), json 400 [ ("error", JStr "Invalid plan");
                         ("message", JStr ("Plan ID must be one of: "
                                           +:+ String.concat ", " validPlans)) ])
  else if SubscriptionModel.hasActive d (now env) userId then
    ((d, rz), json 409 [ ("error", JStr "Subscription exists");
                         ("message", JStr "You already have an active subscription") ])
  else
    match findPendingByUserId d userId with
    | Some pendingSubscription =>
        ((d, rz),
         json 200 [ ("subscription_id",
                      SubscriptionModel.opt_str
                        (sub_razorpay_subscription_id pendingSubscription));
                    ("short_url", JUndefined);
                    ("message", JStr "Pending subscription already exists") ])
    | None =>
        match UserModel.findById users userId with
        | None =>
            ((d, rz), json 404 [ ("error", JStr "User not found");
                                 ("message", JStr "User account not found") ])
        | Some user =>
            match subscriptions_create rz (default "" plan_id) userId
                    (UserModel.pu_email user) with
            | (rz1, inl e) => ((d, rz1), provider_error "create" e)
            | (rz1, inr razorpaySubscription) =>
                match create d env userId (rz_id razorpaySubscription) "pending"
                        (default "" plan_id)
                        (rz_current_start razorpaySubscription * 1000)
                        (rz_current_end razorpaySubscription * 1000) with
                | Throw m => ((d, rz1), errorHandler m)
                | Ok (d1, _) =>
                    ((d1, rz1),
                     json 200 [ ("subscription_id", JStr (rz_id razorpaySubscription));
                                ("short_url", JStr (rz_short_url razorpaySubscription));
                                ("message",
                                  JStr "Subscription created. Please complete payment.") ])
                end
            end
        end
    end.

(** [POST /api/payments/cancel], for an authenticated caller.
    [subscription] is what [findByUserId] resolves to: the array of
    rows. *)
Definition cancel (d : db) (rz : R) (userId : string) : R * response :=
  let subscription := JArr (List.map SubscriptionModel.row_to_js
                                     (SubscriptionModel.findByUserId d userId)) in
  if negb (truthy subscription) then
    (rz, json 404 [ ("error", JStr "No subscription");
                    ("message", JStr "You do not have a subscription to cancel") ])
  else if strict_eq_str (get_prop subscription "status") "cancelled" then
    (rz, json 200 [ ("message", JStr "Subscription is already cancelled");
                    ("end_date", get_prop subscription "current_period_end") ])
  else if strict_eq_str (get_prop subscription "status") "expired" then
    (rz, json 400 [ ("error", JStr "Cannot cancel");
                    ("message", JStr "Subscription has already expired") ])
  else
    let razorpaySubscriptionId :=
      match get_prop subscription "razorpay_subscription_id" with
      | JStr id => Some id
      | _ => None
      end in
    match subscriptions_cancel rz razorpaySubscriptionId with
    | (rz1, inr _) =>
        (rz1,
         json 200 [ ("message",
                      JStr "Subscription will be cancelled at the end of the current period");
                    ("end_date", get_prop subscription "current_period_end");
                    ("access_until", get_prop subscription "current_period_end") ])
    | (rz1, inl e) => (rz1, provider_error "cancel" e)
    end.

End Routes.

End Checkout.

(** ** Sample data for the further examples *)

Module Samples.

(** A log record without any secret. *)
Definition clean_sample : jsval :=
  JObj [ ("method", JStr "GET"); ("tags", JArr [ JStr "a"; JNum 200 ]) ].

(** Stand-ins for the password and token libraries. *)
#[global] Instance sample_bcrypt : UserModel.Bcrypt := {|
  UserModel.bcrypt_hash password _ salt := "$2b$" +:+ salt +:+ "$" +:+ password;
  UserModel.bcrypt_compare password digest :=
    String.eqb (drop_chars (String.length digest - String.length password) digest) password;
  UserModel.BCRYPT_ROUNDS_env := None |}.

#[global] Instance sample_jwt : AuthService.Jwt := {|
  AuthService.jwt_sign payload _ _ := "jwt." +:+ AuthService.tp_userId payload;
  AuthService.jwt_verify token _ _ :=
    if String.prefix "jwt." token
    then Some {| AuthService.tp_userId := drop_chars 4 token;
                 AuthService.tp_email := ""; AuthService.tp_iat := 0 |}
    else None;
  AuthService.JWT_SECRET := "jwt_secret";
  AuthService.JWT_EXPIRY_env := None |}.

#[global] Instance sample_auth_validators : AuthRoutes.AuthValidators := {|
  AuthRoutes.register_body_valid email password := (8 <=? String.length password)%nat;
  AuthRoutes.login_body_valid email password := negb (String.eqb password "");
  AuthRoutes.normalizeEmail email := toLowerCase email |}.

Definition alice : UserModel.user :=
  {| UserModel.user_id := "u1"; UserModel.user_email := "alice@x.test";
     UserModel.user_password_hash := "$2b$s0$Abcd1234!";
     UserModel.user_created_at := 100; UserModel.user_updated_at := 100 |}.

Definition env_register : environment :=
  {| now := 1000; limiter_admits := true; fresh_uuid := "u2"; fresh_api_key := "" |}.

(** An engine that carries out every call: the containers asked for
    are always there. *)
#[global] Instance obliging_engine : DockerEngine unit := {|
  docker_listNetworks _ name := DockerOk [name];
  docker_createNetwork e _ := (e, DockerOk tt);
  docker_createContainer e cfg := (e, DockerOk ("ctr_" +:+ cfg_name cfg));
  container_inspect _ _ := DockerOk {| info_networks := [] |};
  container_start e _ := (e, DockerOk tt);
  container_stop e _ _ := (e, DockerOk tt);
  container_remove e _ _ := (e, DockerOk tt);
  container_restart e _ _ := (e, DockerOk tt) |}.

Definition st_obliging (subStatus : string) : state unit :=
  mkState (Sim.db1 subStatus "running" (Some "c1")) tt.

(** A payment provider that numbers the subscriptions it creates and
    cancels what it is asked to. *)
#[global] Instance counting_razorpay : Checkout.RazorpayApi nat := {|
  Checkout.subscriptions_create n plan userId email :=
    (S n, inr {| Checkout.rz_id := "sub_" +:+ pretty (Z.of_nat n);
                 Checkout.rz_short_url := "https://rzp.io/i/" +:+ pretty (Z.of_nat n);
                 Checkout.rz_current_start := 0;
                 Checkout.rz_current_end := 0 |});
  Checkout.subscriptions_cancel n _ := (n, inr tt) |}.

#[global] Instance sample_plans : Checkout.Plans := {|
  Checkout.RAZORPAY_PLAN_MONTHLY_BASIC := "" |}.

Definition no_subscriptions : db :=
  {| subscriptions := []; payment_events := []; workspaces := [] |}.

Definition env_checkout : environment :=
  {| now := 1000; limiter_admits := true; fresh_uuid := "s9"; fresh_api_key := "k9" |}.

Definition env_checkout_again : environment :=
  {| now := 1500; limiter_admits := true; fresh_uuid := "s10"; fresh_api_key := "k10" |}.

End Samples.

(* ===================================================================== *)
(** * Part II: properties *)
(* ===================================================================== *)

(** ** Strings *)



Lemma string_eqb_true (a b : string) : String.eqb a b = true <-> a = b.
Proof. apply String.eqb_eq. Qed.

Lemma string_eqb_false (a b : string) : String.eqb a b = false <-> a <> b.
Proof. apply String.eqb_neq. Qed.

(** ** The logger *)

Section JsvalInduction.
Variable P : jsval -> Prop.
Hypothesis P_undefined : P JUndefined.
Hypothesis P_null : P JNull.
Hypothesis P_bool : forall b, P (JBool b).
Hypothesis P_num : forall z, P (JNum z).
Hypothesis P_str : forall s, P (JStr s).
Hypothesis P_arr : forall items, Forall P items -> P (JArr items).
Hypothesis P_obj : forall fields, Forall (fun kv => P (snd kv)) fields -> P (JObj fields).

Lemma jsval_nested_ind : forall v, P v.
Proof.
  fix IH 1. intros [ | | b | z | s | items | fields ].
  - exact P_undefined.
  - exact P_null.
  - apply P_bool.
  - apply P_num.
  - apply P_str.
  - apply P_arr. induction items as [|x xs IHxs]; constructor; [apply IH | exact IHxs].
  - apply P_obj. induction fields as [|[k x] xs IHxs]; constructor; [apply IH | exact IHxs].
Qed.
End JsvalInduction.

Lemma isSecret_blacklisted (key : string) :
  Logger.isSecret key = true <-> Props.blacklisted key.
Proof.
  unfold Logger.isSecret, Props.blacklisted. rewrite existsb_exists. reflexivity.
Qed.

Lemma entry_of_scalar (k : string) (v w : jsval) :
  is_object w = false -> ~ Logger.entry_of k v w.
Proof. intros Hw He. destruct He; discriminate Hw. Qed.

Lemma redactSecrets_scalar (w : jsval) :
  is_object w = false -> Logger.redactSecrets w = w.
Proof. destruct w; simpl; intros; congruence. Qed.

(** C8 (as amended). Whatever value is handed to the logger, every
    entry of the redacted value, at any depth through nested objects
    and arrays, whose key is blacklisted (its lower-cased name
    contains a lower-cased member of [SECRET_FIELDS]) carries the
    sentinel ["[REDACTED]"]. *)
Theorem redactSecrets_hides_blacklisted (obj : jsval) (k : string) (v : jsval) :
  Logger.entry_of k v (Logger.redactSecrets obj) ->
  Props.blacklisted k ->
  v = Logger.REDACTED.
Proof.
  intros Hentry Hk. apply isSecret_blacklisted in Hk.
  revert k v Hentry Hk.
  induction obj as [ | | b | z | s | items IH | fields IH ] using jsval_nested_ind;
    intros k v Hentry Hk; simpl in Hentry;
    try (exfalso; revert Hentry; apply entry_of_scalar; reflexivity).
  - inversion Hentry as [ | | item items' Hin Hsub ]; subst.
    apply in_map_iff in Hin as [x [<- Hx]].
    rewrite List.Forall_forall in IH. eapply IH; eauto.
  - rewrite List.Forall_forall in IH.
    inversion Hentry as [ fs Hin | k' v' fs Hin Hsub | ]; subst.
    + apply in_map_iff in Hin as [[k0 x] [Heq Hx]]. simpl in Heq.
      destruct (Logger.isSecret k0) eqn:Hs0.
      * now inversion Heq.
      * assert (k0 = k) as -> by (destruct x; now inversion Heq). congruence.
    + apply in_map_iff in Hin as [[k0 x] [Heq Hx]]. simpl in Heq.
      destruct (Logger.isSecret k0) eqn:Hs0.
      * inversion Heq; subst. exfalso. revert Hsub. now apply entry_of_scalar.
      * destruct (is_object x) eqn:Hobj.
        -- assert (v' = Logger.redactSecrets x) as ->
             by (destruct x; try discriminate Hobj; now inversion Heq).
           apply (IH (k0, x) Hx k v Hsub Hk).
        -- assert (v' = x) as -> by (destruct x; try discriminate Hobj; now inversion Heq).
           exfalso. revert Hsub. now apply entry_of_scalar.
Qed.

Lemma redactSecrets_hides_blacklisted_witness :
  Logger.entry_of "apiKey" Logger.REDACTED (Logger.redactSecrets Sim.logged_sample)
  /\ Props.blacklisted "apiKey"
  /\ Logger.REDACTED = Logger.REDACTED.
Proof.
  assert (He : Logger.entry_of "apiKey" Logger.REDACTED (Logger.redactSecrets Sim.logged_sample)).
  { simpl. eapply Logger.entry_in_field; [right; left; reflexivity|].
    eapply Logger.entry_in_field; [right; left; reflexivity|].
    eapply Logger.entry_in_item; [left; reflexivity|].
    apply Logger.entry_here. left. reflexivity. }
  assert (Hb : Props.blacklisted "apiKey").
  { exists "apiKey". split; [simpl; tauto | reflexivity]. }
  split; [exact He|]. split; [exact Hb|].
  exact (redactSecrets_hides_blacklisted Sim.logged_sample "apiKey" Logger.REDACTED He Hb).
Defined.

(** C8, the claim as stated fails for a webhook signature: no member
    of [SECRET_FIELDS] occurs in the key [signature] (nor in
    [x-razorpay-signature] or [webhook_signature]), and the value
    logged under it is emitted as it is. *)
Lemma signature_key_not_redacted :
  Logger.redactSecrets (JObj [ ("signature", JStr "3f9a1c0b7e...") ])
    = JObj [ ("signature", JStr "3f9a1c0b7e...") ]
  /\ Logger.isSecret "x-razorpay-signature" = false
  /\ Logger.isSecret "webhook_signature" = false.
Proof. repeat split; reflexivity. Qed.

(** ** The container manager *)

Section ContainerManagerProps.
Context {E : Type} `{DockerEngine E}.

Lemma has_status_code (e : docker_error) (code : Z) :
  statusCode e = Some code -> has_status e code = true.
Proof. unfold has_status. intros ->. apply Z.eqb_refl. Qed.

Lemma has_status_other (e : docker_error) (code other : Z) :
  statusCode e = Some code -> code <> other -> has_status e other = false.
Proof. unfold has_status. intros -> Hne. now apply Z.eqb_neq. Qed.

Lemma startContainer_answer (eng : E) (containerId : string) :
  startContainer eng containerId =
  match Props.start_answer eng containerId with
  | (eng', DockerOk _) => (eng', Ok true)
  | (eng', DockerErr e) => (eng', startContainer_catch e)
  end.
Proof.
  unfold startContainer, Props.start_answer.
  destruct (container_inspect eng containerId); [|reflexivity].
  destruct (container_start eng containerId) as [eng' [|]]; reflexivity.
Qed.

(** C10. [startContainer] and [stopContainer] succeed when the engine
    answers 304 (already in the requested state) and throw
    ["Container not found"] when it answers 404; [removeContainer]
    succeeds on 404. *)
Theorem engine_304_and_404 (eng eng' : E) (containerId : string) (e : docker_error)
    (force : bool) :
  (Props.start_answer eng containerId = (eng', DockerErr e) ->
     (statusCode e = Some 304 -> startContainer eng containerId = (eng', Ok true))
     /\ (statusCode e = Some 404 ->
         startContainer eng containerId = (eng', Throw "Container not found")))
  /\ (container_stop eng containerId 30 = (eng', DockerErr e) ->
     (statusCode e = Some 304 -> stopContainer eng containerId = (eng', Ok true))
     /\ (statusCode e = Some 404 ->
         stopContainer eng containerId = (eng', Throw "Container not found")))
  /\ (container_remove eng containerId force = (eng', DockerErr e) ->
     statusCode e = Some 404 -> removeContainer eng containerId force = (eng', Ok true)).
Proof.
  split; [|split].
  - intros Hans. rewrite startContainer_answer, Hans. unfold startContainer_catch.
    split; intros Hcode.
    + now rewrite (has_status_code e 304).
    + rewrite (has_status_other e 404 304) by (assumption || lia).
      now rewrite (has_status_code e 404).
  - intros Hans. unfold stopContainer, stopContainer_t. rewrite Hans.
    unfold stopContainer_catch. split; intros Hcode.
    + now rewrite (has_status_code e 304).
    + rewrite (has_status_other e 404 304) by (assumption || lia).
      now rewrite (has_status_code e 404).
  - intros Hans Hcode. unfold removeContainer. rewrite Hans.
    unfold removeContainer_catch. now rewrite (has_status_code e 404).
Qed.

(** The siblings that do not map 404 to success. *)
Lemma restartContainer_absent (eng eng' : E) (containerId : string) (e : docker_error) :
  container_restart eng containerId 30 = (eng', DockerErr e) ->
  statusCode e = Some 404 ->
  restartContainer eng containerId = (eng', Throw "Container not found").
Proof.
  intros Hans Hcode. unfold restartContainer. rewrite Hans.
  unfold restartContainer_catch. now rewrite (has_status_code e 404).
Qed.

End ContainerManagerProps.

Lemma engine_304_and_404_witness :
  startContainer (Sim.daemon1 true) "c1" = (Sim.daemon1 true, Ok true)
  /\ startContainer (Sim.daemon1 true) "gone"
     = (Sim.daemon1 true, Throw "Container not found")
  /\ stopContainer (Sim.daemon1 false) "c1" = (Sim.daemon1 false, Ok true)
  /\ stopContainer (Sim.daemon1 false) "gone"
     = (Sim.daemon1 false, Throw "Container not found")
  /\ removeContainer (Sim.daemon1 false) "gone" true = (Sim.daemon1 false, Ok true).
Proof.
  destruct (engine_304_and_404 (Sim.daemon1 true) (Sim.daemon1 true) "c1"
              Sim.not_modified true) as [Hstart _].
  destruct (engine_304_and_404 (Sim.daemon1 true) (Sim.daemon1 true) "gone"
              Sim.no_such_container true) as [Hstart404 _].
  destruct (engine_304_and_404 (Sim.daemon1 false) (Sim.daemon1 false) "c1"
              Sim.not_modified true) as [_ [Hstop _]].
  destruct (engine_304_and_404 (Sim.daemon1 false) (Sim.daemon1 false) "gone"
              Sim.no_such_container true) as [_ [Hstop404 Hremove]].
  split; [apply (Hstart eq_refl); reflexivity|].
  split; [apply (Hstart404 eq_refl); reflexivity|].
  split; [apply (Hstop eq_refl); reflexivity|].
  split; [apply (Hstop404 eq_refl); reflexivity|].
  apply (Hremove eq_refl); reflexivity.
Defined.

(** ** Entitlement *)

Lemma In_insert_desc {A} (key : A -> Z) (x y : A) (l : list A) :
  In y (insert_desc key x l) <-> y = x \/ In y l.
Proof.
  induction l as [|z l IH]; simpl.
  - intuition.
  - destruct (key z <? key x); simpl; [intuition|]. rewrite IH. intuition.
Qed.

Lemma In_order_by_desc {A} (key : A -> Z) (y : A) (l : list A) :
  In y (order_by_desc key l) <-> In y l.
Proof.
  induction l as [|x l IH]; simpl; [reflexivity|].
  rewrite In_insert_desc, IH. intuition.
Qed.

Lemma is_active_for_spec (userId : string) (t : Z) (s : subscription) :
  SubscriptionModel.is_active_for userId t s = true <->
  sub_user_id s = userId /\ sub_status s = "active" /\ t < sub_current_period_end s.
Proof.
  unfold SubscriptionModel.is_active_for.
  rewrite !andb_true_iff, !string_eqb_true, Z.ltb_lt. tauto.
Qed.

(** [hasActive] decides the entitlement. *)
Lemma hasActive_entitled (d : db) (t : Z) (userId : string) :
  SubscriptionModel.hasActive d t userId = true <-> Props.entitled d t userId.
Proof.
  unfold SubscriptionModel.hasActive, SubscriptionModel.findActiveByUserId, Props.entitled.
  set (rows := List.filter (SubscriptionModel.is_active_for userId t) (subscriptions d)).
  split.
  - destruct (order_by_desc sub_created_at rows) as [|s l] eqn:Hsorted; [discriminate|].
    intros _. exists s.
    assert (Hin : In s rows) by (apply (In_order_by_desc sub_created_at); rewrite Hsorted; now left).
    apply filter_In in Hin as [Hin Hact]. apply is_active_for_spec in Hact. tauto.
  - intros [s [Hin Hact]].
    assert (Hrows : In s (order_by_desc sub_created_at rows)).
    { apply In_order_by_desc, filter_In. split; [exact Hin|]. now apply is_active_for_spec. }
    destruct (order_by_desc sub_created_at rows); [destruct Hrows | reflexivity].
Qed.

Lemma hasActive_not_entitled (d : db) (t : Z) (userId : string) :
  ~ Props.entitled d t userId -> SubscriptionModel.hasActive d t userId = false.
Proof.
  intros Hno. destruct (SubscriptionModel.hasActive d t userId) eqn:Hact; [|reflexivity].
  now apply hasActive_entitled in Hact.
Qed.

(** ** The workspace routes *)

Section WorkspaceRouteProps.
Context {E : Type} `{DockerEngine E} `{Limits} `{Config} `{Validators} {U : UuidColumn}.

(** [checkOwnership] on an identifier the [uuid] column accepts. *)
Lemma checkOwnership_uuid {A : Type} (d : db) (userId id : string)
    (answer : response -> A) (next : A) :
  uuid_in id = true ->
  Workspaces.checkOwnership d userId id answer next
  = if negb (WorkspaceModel.isOwner d id userId) then answer Workspaces.access_denied
    else next.
Proof.
  intros Huuid. unfold Workspaces.checkOwnership, WorkspaceModel.isOwner_query.
  now rewrite Huuid.
Qed.

(** [checkOwnership] lets the owner through, and nobody else. *)
Lemma checkOwnership_cases {A : Type} (d : db) (userId id : string)
    (answer : response -> A) (next : A) :
  (WorkspaceModel.isOwner d id userId = true
   /\ Workspaces.checkOwnership d userId id answer next = next)
  \/ (exists r, Workspaces.checkOwnership d userId id answer next = answer r
                /\ (r = Workspaces.access_denied \/ r = unanswered)).
Proof.
  unfold Workspaces.checkOwnership, WorkspaceModel.isOwner_query.
  destruct (uuid_in id); simpl; [|right; eauto].
  destruct (WorkspaceModel.isOwner d id userId); simpl; [left; tauto | right; eauto].
Qed.

(** C5 (as amended). For a caller without entitlement (no
    subscription row of theirs is [active] with a period end after
    the instant of the check), starting a workspace and creating a
    workspace both leave the database and the engine as they were;
    the creation is answered 403, and so is the start when the
    workspace identifier is one the [uuid] column accepts (every
    identifier [isUUID] accepts is one). *)
Theorem no_lifecycle_without_entitlement (env : environment) (st : state E)
    (userId id : string) (name cpuLimit memoryLimit : option string) :
  ~ Props.entitled (st_db st) (now env) userId ->
  (exists r, Workspaces.start_route env st userId id = (st, r)
             /\ (uuid_in id = true -> res_status r = 403))
  /\ (exists r, Workspaces.create_route env st userId name cpuLimit memoryLimit = (st, r)
                /\ res_status r = 403).
Proof.
  intros Hno. apply hasActive_not_entitled in Hno. split.
  - unfold Workspaces.start_route, Workspaces.lifecycle_chain, Workspaces.checkOwnership,
      WorkspaceModel.isOwner_query.
    rewrite Hno. simpl.
    destruct (uuid_in id); [|eexists; split; [reflexivity | discriminate]].
    destruct (WorkspaceModel.isOwner (st_db st) id userId); simpl;
      eexists; split; reflexivity.
  - unfold Workspaces.create_route. rewrite Hno. simpl. eexists; split; reflexivity.
Qed.

(** The same gate read the other way: a start, stop or creation
    request that changes the database or the engine was made by an
    entitled caller. *)
Lemma lifecycle_change_needs_entitlement (env : environment) (st : state E)
    (userId id : string) (handler : state E * response) :
  fst (Workspaces.lifecycle_chain env st userId id handler) <> st ->
  Props.entitled (st_db st) (now env) userId
  /\ WorkspaceModel.isOwner (st_db st) id userId = true.
Proof.
  unfold Workspaces.lifecycle_chain.
  destruct (checkOwnership_cases (st_db st) userId id (pair st)
              (if negb (SubscriptionModel.hasActive (st_db st) (now env) userId)
               then (st, Workspaces.subscription_required)
               else if negb (limiter_admits env) then (st, Workspaces.too_many_operations)
               else handler))
    as [[Hown ->]|(r & -> & _)]; simpl; [|congruence].
  destruct (SubscriptionModel.hasActive (st_db st) (now env) userId) eqn:Hact; simpl;
    [|congruence].
  intros _. split; [now apply hasActive_entitled | exact Hown].
Qed.

(** C7 (as amended). Stopping a workspace that is already [stopped]
    and has a container identifier, by its entitled owner and within
    the rate limit, is answered 200 and changes neither the database
    nor the engine. *)
Theorem stop_already_stopped (env : environment) (st : state E) (userId id : string)
    (w : workspace) (containerId : string) :
  WorkspaceModel.isOwner (st_db st) id userId = true ->
  Props.entitled (st_db st) (now env) userId ->
  limiter_admits env = true ->
  isUUID id = true ->
  WorkspaceModel.findById (st_db st) id = Some w ->
  ws_container_status w = "stopped" ->
  ws_container_id w = Some containerId ->
  containerId <> "" ->
  exists r, Workspaces.stop_route env st userId id = (st, r)
            /\ res_status r = 200
            /\ get_prop (get_prop (res_body r) "workspace") "status" = JStr "stopped".
Proof.
  intros Hown Hent Hlim Huuid Hfind Hstatus Hcid Hne.
  apply hasActive_entitled in Hent.
  unfold Workspaces.stop_route, Workspaces.lifecycle_chain, Workspaces.stop_handler.
  rewrite (checkOwnership_uuid _ _ _ _ _ (uuid_in_isUUID id Huuid)).
  rewrite Hown, Hent, Hlim, Huuid, Hfind, Hcid, Hstatus. simpl.
  apply string_eqb_false in Hne. rewrite Hne. simpl.
  eexists; repeat split; reflexivity.
Qed.

End WorkspaceRouteProps.

Lemma no_lifecycle_without_entitlement_witness :
  ~ Props.entitled (st_db Sim.st_unentitled) (now Sim.env1) "u1"
  /\ (exists r, Workspaces.start_route Sim.env1 Sim.st_unentitled "u1" Sim.wsid
                = (Sim.st_unentitled, r) /\ res_status r = 403)
  /\ (exists r, Workspaces.create_route Sim.env1 Sim.st_unentitled "u1" (Some "demo") None None
                = (Sim.st_unentitled, r) /\ res_status r = 403).
Proof.
  assert (Hno : ~ Props.entitled (st_db Sim.st_unentitled) (now Sim.env1) "u1").
  { intros Hent. apply hasActive_entitled in Hent. vm_compute in Hent. discriminate. }
  split; [exact Hno|].
  destruct (no_lifecycle_without_entitlement Sim.env1 Sim.st_unentitled "u1"
              Sim.wsid (Some "demo") None None Hno) as [(r & Hstart & Hstatus) Hcreate].
  split; [|exact Hcreate].
  exists r. split; [exact Hstart | apply Hstatus; reflexivity].
Defined.

(** C5, the claim as stated fails for a start request whose workspace
    identifier is not a UUID: the ownership query of [checkOwnership]
    raises on it, nothing answers the request, and the caller without
    entitlement gets no 403 (the database and the engine are left as
    they were). *)
Lemma malformed_id_is_not_answered_403 :
  ~ Props.entitled (st_db Sim.st_unentitled) (now Sim.env1) "u1"
  /\ isUUID "not-a-uuid" = false
  /\ Workspaces.start_route Sim.env1 Sim.st_unentitled "u1" "not-a-uuid"
     = (Sim.st_unentitled, unanswered)
  /\ res_status unanswered <> 403.
Proof.
  split.
  { intros Hent. apply hasActive_entitled in Hent. vm_compute in Hent. discriminate. }
  repeat split; try reflexivity. discriminate.
Qed.

Lemma stop_already_stopped_witness :
  exists r, Workspaces.stop_route Sim.env1 Sim.st_stopped "u1" Sim.wsid = (Sim.st_stopped, r)
            /\ res_status r = 200
            /\ get_prop (get_prop (res_body r) "workspace") "status" = JStr "stopped".
Proof.
  apply (stop_already_stopped Sim.env1 Sim.st_stopped "u1" Sim.wsid
           (Sim.ws1 "stopped" (Some "c1")) "c1"); try reflexivity.
  - apply hasActive_entitled. reflexivity.
  - discriminate.
Defined.

(** C7, the claim as stated fails for a workspace whose container was
    never created: the stop request of its entitled owner is refused
    with 400 before the [stopped] test is reached, although the
    record is in state [stopped]. *)
Lemma stop_without_container_is_refused :
  WorkspaceModel.findById (st_db Sim.st_never_created) Sim.wsid
    = Some (Sim.ws1 "stopped" None)
  /\ Workspaces.stop_route Sim.env1 Sim.st_never_created "u1" Sim.wsid
     = (Sim.st_never_created,
        json 400 [ ("error", JStr "Invalid operation");
                   ("message", JStr "Workspace has no container to stop") ]).
Proof. split; vm_compute; reflexivity. Qed.

(** ** The subscription endpoint *)

Lemma array_is_truthy (items : list jsval) : truthy (JArr items) = true.
Proof. reflexivity. Qed.

Lemma array_has_no_named_property (items : list jsval) (k : string) :
  k <> "length" -> array_index k = None -> get_prop (JArr items) k = JUndefined.
Proof.
  intros Hlen Hidx. unfold get_prop.
  apply string_eqb_false in Hlen. now rewrite Hlen, Hidx.
Qed.

(** C6, what the code does. [findByUserId] resolves to the array of
    rows, and the handler reads it as if it were one row: an array is
    truthy even when empty, so the 404 branch is never taken, and an
    array has none of the row's properties, so whatever the caller's
    subscriptions are the answer is 200 with [status], [plan] and the
    period members undefined, [is_active] false and [days_remaining]
    zero. *)
Theorem get_subscription_reads_the_array (t : Z) (d : db) (userId : string) :
  Payments.get_subscription t d userId =
  json 200 [ ("status", JUndefined);
             ("plan", JUndefined);
             ("current_period_start", JUndefined);
             ("current_period_end", JUndefined);
             ("workspace_limit", JNum 5);
             ("cancelled_at", JUndefined);
             ("is_active", JBool false);
             ("days_remaining", JNum 0) ].
Proof.
  unfold Payments.get_subscription.
  rewrite array_is_truthy. simpl negb. cbv iota.
  rewrite !array_has_no_named_property by (discriminate || reflexivity).
  reflexivity.
Qed.

(** C6 at two concrete callers: one with an active subscription, who
    is told [is_active: false], and one with no subscription, who gets
    200 and not 404. *)
Lemma get_subscription_failing_inputs :
  SubscriptionModel.findByUserId (Sim.db1 "active" "stopped" None) "u1" = [Sim.sub1 "active"]
  /\ get_prop (res_body (Payments.get_subscription 2000 (Sim.db1 "active" "stopped" None) "u1"))
              "is_active" = JBool false
  /\ SubscriptionModel.findByUserId (Sim.db1 "active" "stopped" None) "nobody" = []
  /\ res_status (Payments.get_subscription 2000 (Sim.db1 "active" "stopped" None) "nobody") = 200.
Proof. repeat split; reflexivity. Qed.

(** ** The reverse proxy *)



Lemma includes_false_replace (pat s : string) :
  includes s pat = false -> replace_first_with_empty pat s = s.
Proof.
  induction s as [|c s IH]; simpl; intros Hinc.
  - apply orb_false_iff in Hinc as [Hpre _]. now rewrite Hpre.
  - apply orb_false_iff in Hinc as [Hpre Hrest]. rewrite Hpre. now rewrite IH.
Qed.

Section ProxyProps.
Context {E : Type} `{DockerEngine E} `{Config} `{Proxy.ProxyLibrary}.

(** What a forwarded request is made of. *)
Lemma proxy_route_forward (t : Z) (st : state E) (req : Proxy.proxy_request)
    (f : Proxy.forwarded) :
  Proxy.proxy_route t st req = Proxy.Forward f ->
  exists w target,
    Proxy.authenticateApiKey t st (node_headers (Proxy.pr_rawHeaders req)) = inr (w, target)
    /\ f = {| Proxy.fw_target := target;
              Proxy.fw_path := Proxy.proxyReqPathResolver w (Proxy.pr_originalUrl req);
              Proxy.fw_headers :=
                delete "x-api-key" (Proxy.reqHeaders (node_headers (Proxy.pr_rawHeaders req)));
              Proxy.fw_method := Proxy.pr_method req;
              Proxy.fw_body := Proxy.reqBody (Proxy.pr_body req) |}.
Proof.
  unfold Proxy.proxy_route.
  destruct (Proxy.authenticateApiKey t st (node_headers (Proxy.pr_rawHeaders req)))
    as [r|[w target]]; [discriminate|].
  destruct (String.eqb target ""); [discriminate|].
  intros Heq. inversion Heq. exists w, target. split; reflexivity.
Qed.


(** The steps [authenticateApiKey] went through when it lets a
    request pass. *)
Lemma authenticateApiKey_pass (t : Z) (st : state E) (headers : gmap string string)
    (w : workspace) (target : string) :
  Proxy.authenticateApiKey t st headers = inr (w, target) ->
  exists apiKey containerId ip,
    headers !! "x-api-key" = Some apiKey
    /\ WorkspaceModel.findByApiKey (st_db st) apiKey = Some w
    /\ SubscriptionModel.hasActive (st_db st) t (ws_user_id w) = true
    /\ ws_container_status w = "running"
    /\ ws_container_id w = Some containerId
    /\ getContainerIp (st_engine st) containerId = Some ip
    /\ target = "http://" +:+ ip +:+ ":" +:+ Proxy.openclawPort.
Proof.
  unfold Proxy.authenticateApiKey.
  destruct (headers !! "x-api-key") as [apiKey|]; simpl; [|discriminate].
  destruct (String.eqb apiKey ""); simpl; [discriminate|].
  destruct (WorkspaceModel.findByApiKey (st_db st) apiKey) as [w'|] eqn:Hfind; [|discriminate].
  destruct (SubscriptionModel.hasActive (st_db st) t (ws_user_id w')) eqn:Hact; simpl;
    [|discriminate].
  destruct (String.eqb (ws_container_status w') "running") eqn:Hrun; simpl; [|discriminate].
  destruct (ws_container_id w') as [containerId|] eqn:Hcid; simpl; [|discriminate].
  destruct (String.eqb containerId ""); simpl; [discriminate|].
  destruct (getContainerIp (st_engine st) containerId) as [ip|] eqn:Hip; simpl; [|discriminate].
  destruct (String.eqb ip ""); simpl; [discriminate|].
  intros Heq. inversion Heq; subst.
  exists apiKey, containerId, ip. apply string_eqb_true in Hrun. tauto.
Qed.

(** C9 (as amended). A forwarded request goes to the container of the
    workspace that owns the presented API key, at its address on the
    internal network; the [:workspaceId] path parameter plays no part.
    The forwarded path is the original URL without the first
    occurrence of [/api/proxy/] followed by that workspace's
    identifier: a non-empty URL that does not contain this text is
    forwarded as it is. *)
Theorem proxy_routes_by_api_key (t : Z) (st : state E) (req : Proxy.proxy_request)
    (f : Proxy.forwarded) :
  Proxy.proxy_route t st req = Proxy.Forward f ->
  (exists apiKey w containerId ip,
      node_headers (Proxy.pr_rawHeaders req) !! "x-api-key" = Some apiKey
      /\ WorkspaceModel.findByApiKey (st_db st) apiKey = Some w
      /\ ws_container_id w = Some containerId
      /\ getContainerIp (st_engine st) containerId = Some ip
      /\ Proxy.fw_target f = "http://" +:+ ip +:+ ":" +:+ Proxy.openclawPort
      /\ Proxy.fw_path f =
         (let newPath := replace_first_with_empty ("/api/proxy/" +:+ ws_id w)
                                                  (Proxy.pr_originalUrl req) in
          if String.eqb newPath "" then "/" else newPath)
      /\ (includes (Proxy.pr_originalUrl req) ("/api/proxy/" +:+ ws_id w) = false ->
          Proxy.pr_originalUrl req <> "" ->
          Proxy.fw_path f = Proxy.pr_originalUrl req))
  /\ (forall other, Proxy.proxy_route t st (Props.with_path_parameter req other) = Proxy.Forward f).
Proof.
  intros Hfwd. split.
  - apply proxy_route_forward in Hfwd as [w [target [Hauth ->]]]. simpl.
    apply authenticateApiKey_pass in Hauth
      as (apiKey & containerId & ip & Hkey & Hfind & _ & _ & Hcid & Hip & ->).
    exists apiKey, w, containerId, ip. repeat (split; [assumption || reflexivity|]).
    intros Hinc Hne. unfold Proxy.proxyReqPathResolver.
    rewrite (includes_false_replace _ _ Hinc).
    apply string_eqb_false in Hne. now rewrite Hne.
  - intros other. rewrite <- Hfwd. reflexivity.
Qed.

End ProxyProps.


Lemma proxy_routes_by_api_key_witness :
  Proxy.proxy_route 2000 Sim.st_running Sim.proxy_req_own = Proxy.Forward (Sim.fwd "/health")
  /\ Proxy.proxy_route 2000 Sim.st_running
       (Props.with_path_parameter Sim.proxy_req_own "another-workspace")
     = Proxy.Forward (Sim.fwd "/health").
Proof.
  assert (Hfwd : Proxy.proxy_route 2000 Sim.st_running Sim.proxy_req_own
                 = Proxy.Forward (Sim.fwd "/health")) by (vm_compute; reflexivity).
  split; [exact Hfwd|].
  apply (proj2 (proxy_routes_by_api_key 2000 Sim.st_running Sim.proxy_req_own
                  (Sim.fwd "/health") Hfwd)).
Defined.

(** C9, the claim as stated fails when the path segment differs from
    the identifier of the key's workspace but begins with it: the
    prefix built from that identifier still occurs in the URL and is
    cut out, so the forwarded path is not the original one. *)
Lemma proxy_rewrites_a_foreign_path :
  Proxy.pr_workspaceId Sim.proxy_req_other <> Sim.wsid
  /\ Proxy.proxy_route 2000 Sim.st_running Sim.proxy_req_other
     = Proxy.Forward (Sim.fwd "x/health")
  /\ Proxy.fw_path (Sim.fwd "x/health") <> Proxy.pr_originalUrl Sim.proxy_req_other.
Proof.
  split; [vm_compute; discriminate|].
  split; [vm_compute; reflexivity|].
  vm_compute; discriminate.
Qed.

(** ** The webhook signature *)

Section SignatureProps.
Context `{Crypto} `{Config}.


Context {E : Type} `{DockerEngine E} `{Json}.


End SignatureProps.



(** ** The subscription state machine *)

(** The statements on [razorpay_event_id] and on [cancelled_at] name
    a column their table does not have. *)
Lemma insertPaymentEvent_raises (d : db) (subscriptionId : option string)
    (eventType : string) (webhookPayload : webhook_payload) (eventId : string)
    (razorpayPaymentId : option string) (amountCents : option Z) :
  WebhookHandler.insertPaymentEvent d subscriptionId eventType webhookPayload eventId
    razorpayPaymentId amountCents
  = Throw (undefined_column (Some "payment_events") "razorpay_event_id").
Proof. reflexivity. Qed.

Lemma existingEvent_raises (d : db) (eventId : string) :
  Payments.existingEvent d eventId = Throw (undefined_column None "razorpay_event_id").
Proof. reflexivity. Qed.

Lemma update_cancelled_at_raises (d : db) (subscriptionId : string)
    (f : subscription -> subscription) :
  WebhookHandler.update_subscriptions d ["status"; "cancelled_at"; "updated_at"; "id"]
    subscriptionId f
  = Throw (undefined_column (Some "subscriptions") "cancelled_at").
Proof. reflexivity. Qed.

Ltac by_event_type eventType :=
  unfold WebhookHandler.handleWebhookEvent;
  repeat match goal with
         | |- context [String.eqb eventType ?literal] =>
             let Hevent := fresh "Hevent" in
             destruct (String.eqb eventType literal) eqn:Hevent;
             [apply String.eqb_eq in Hevent; subst eventType | ]
         end.

(** A statement of a handler that raises ends the handler. *)
Ltac raised :=
  repeat (rewrite ?insertPaymentEvent_raises, ?update_cancelled_at_raises; simpl);
  repeat match goal with
         | |- context [WebhookHandler.update_subscriptions ?d ?named ?id ?f] =>
             destruct (WebhookHandler.update_subscriptions d named id f); simpl;
             rewrite ?insertPaymentEvent_raises; simpl
         end.

Section HandlerProps.
Context {E : Type} `{DockerEngine E}.

Lemma locates_subscription_event (d : db) (eventType : string) (ent : entity) :
  In eventType Props.subscription_events ->
  Props.locates d eventType ent
  = bool_decide (is_Some (WebhookHandler.getAndLockSubscription d (ent_id ent))).
Proof.
  intros Hin. unfold Props.locates.
  assert (Hex : existsb (String.eqb eventType) Props.subscription_events = true).
  { apply existsb_exists. exists eventType. split; [exact Hin | apply String.eqb_refl]. }
  now rewrite Hex.
Qed.

(** A guarded handler leaves the state as it was when it finds no
    subscription row, and raises when it finds one. *)
Lemma guarded_transition_outcome (eventName toState : string) (t : Z) (st : state E)
    (ent : entity) (webhookPayload : webhook_payload) (eventId : string) :
  match WebhookHandler.handle_guarded_transition eventName toState t st ent webhookPayload
          eventId with
  | Ok st' => st' = st /\ WebhookHandler.getAndLockSubscription (st_db st) (ent_id ent) = None
  | Throw _ => is_Some (WebhookHandler.getAndLockSubscription (st_db st) (ent_id ent))
  end.
Proof.
  unfold WebhookHandler.handle_guarded_transition.
  destruct (WebhookHandler.getAndLockSubscription (st_db st) (ent_id ent)) as [s|];
    [|split; reflexivity].
  destruct (negb (WebhookHandler.isValidTransition (sub_status s) toState)); raised; eauto.
Qed.

(** The state machine on the tables of the repository: an event that
    finds no subscription row is dropped, the state unchanged; every
    other event (one that finds its row, or one of a type the switch
    does not know) makes its handler raise. *)
Lemma handleWebhookEvent_outcome (t : Z) (st : state E) (eventType : string) (ent : entity)
    (webhookPayload : webhook_payload) (eventId : string) :
  match WebhookHandler.handleWebhookEvent t st eventType ent webhookPayload eventId with
  | Ok st' => st' = st /\ Props.locates (st_db st) eventType ent = false
  | Throw _ => Props.locates (st_db st) eventType ent = true
  end.
Proof.
  by_event_type eventType;
    try (rewrite locates_subscription_event by (simpl; tauto)).
  - unfold WebhookHandler.handleSubscriptionActivated.
    destruct (WebhookHandler.getAndLockSubscription (st_db st) (ent_id ent)) as [s|];
      [|split; reflexivity].
    destruct (negb (WebhookHandler.isValidTransition (sub_status s) "active")); raised;
      reflexivity.
  - unfold WebhookHandler.handleSubscriptionCharged.
    destruct (WebhookHandler.getAndLockSubscription (st_db st) (ent_id ent)) as [s|];
      [|split; reflexivity].
    raised; reflexivity.
  - unfold WebhookHandler.handleSubscriptionCompleted.
    destruct (WebhookHandler.getAndLockSubscription (st_db st) (ent_id ent)) as [s|];
      [|split; reflexivity].
    destruct (negb (WebhookHandler.isValidTransition (sub_status s) "expired")); raised;
      reflexivity.
  - unfold WebhookHandler.handleSubscriptionCancelled.
    destruct (WebhookHandler.getAndLockSubscription (st_db st) (ent_id ent)) as [s|];
      [|split; reflexivity].
    raised; reflexivity.
  - pose proof (guarded_transition_outcome "subscription.pending" "past_due" t st ent
                  webhookPayload eventId) as Hout.
    unfold WebhookHandler.handleSubscriptionPending.
    destruct (WebhookHandler.handle_guarded_transition _ _ _ _ _ _ _) as [st'|m].
    + destruct Hout as [-> ->]. split; reflexivity.
    + destruct Hout as [s ->]. reflexivity.
  - pose proof (guarded_transition_outcome "subscription.halted" "past_due" t st ent
                  webhookPayload eventId) as Hout.
    unfold WebhookHandler.handleSubscriptionHalted.
    destruct (WebhookHandler.handle_guarded_transition _ _ _ _ _ _ _) as [st'|m].
    + destruct Hout as [-> ->]. split; reflexivity.
    + destruct Hout as [s ->]. reflexivity.
  - pose proof (guarded_transition_outcome "subscription.resumed" "active" t st ent
                  webhookPayload eventId) as Hout.
    unfold WebhookHandler.handleSubscriptionResumed.
    destruct (WebhookHandler.handle_guarded_transition _ _ _ _ _ _ _) as [st'|m].
    + destruct Hout as [-> ->]. split; reflexivity.
    + destruct Hout as [s ->]. reflexivity.
  - pose proof (guarded_transition_outcome "subscription.paused" "past_due" t st ent
                  webhookPayload eventId) as Hout.
    unfold WebhookHandler.handleSubscriptionPaused.
    destruct (WebhookHandler.handle_guarded_transition _ _ _ _ _ _ _) as [st'|m].
    + destruct Hout as [-> ->]. split; reflexivity.
    + destruct Hout as [s ->]. reflexivity.
  - unfold WebhookHandler.handlePaymentFailed, Props.locates. simpl.
    destruct (WebhookHandler.getAndLockSubscription (st_db st) (ent_subscription_id ent))
      as [s|]; [|split; reflexivity].
    raised; reflexivity.
  - raised. unfold Props.locates. simpl.
    repeat match goal with
           | Hevent : String.eqb eventType _ = false |- _ => rewrite Hevent; clear Hevent
           end.
    reflexivity.
Qed.

End HandlerProps.

(** ** The webhook transaction *)

Section TransactionProps.
Context {E : Type} `{DockerEngine E} `{Crypto} `{Config} `{Json}.

Lemma process_handed (t : Z) (st : state E) (webhookPayload : webhook_payload)
    (eventId : string) (ent : entity) :
  Props.handed_entity webhookPayload = Some ent ->
  Payments.processWebhookEvent t st webhookPayload eventId =
  match WebhookHandler.handleWebhookEvent t st (wp_event webhookPayload) ent webhookPayload
          eventId with
  | Ok st' => (st', Ok tt)
  | Throw m => (st, Throw m)
  end.
Proof.
  unfold Props.handed_entity, Payments.processWebhookEvent.
  destruct (wp_payload webhookPayload) as [pl|]; simpl; [|discriminate].
  destruct (match pl_subscription_entity pl with
            | Some e => Some e
            | None => pl_payment_entity pl
            end) as [ent'|]; simpl; [|discriminate].
  destruct (truthy_str (or_str (ent_id ent') (ent_subscription_id ent'))); simpl;
    [|discriminate].
  now intros [= ->].
Qed.

Lemma process_not_handed (t : Z) (st : state E) (webhookPayload : webhook_payload)
    (eventId : string) :
  Props.handed_entity webhookPayload = None ->
  fst (Payments.processWebhookEvent t st webhookPayload eventId) = st.
Proof.
  unfold Props.handed_entity, Payments.processWebhookEvent.
  destruct (wp_payload webhookPayload) as [pl|]; simpl; [|reflexivity].
  destruct (match pl_subscription_entity pl with
            | Some e => Some e
            | None => pl_payment_entity pl
            end) as [ent|]; simpl; [|reflexivity].
  destruct (truthy_str (or_str (ent_id ent) (ent_subscription_id ent))); simpl;
    [discriminate | reflexivity].
Qed.

(** The transaction of [processWebhookEvent] never changes the state:
    it commits what a handler that found nothing left as it was, and
    rolls back otherwise. *)
Lemma processWebhookEvent_keeps_state (t : Z) (st : state E)
    (webhookPayload : webhook_payload) (eventId : string) :
  fst (Payments.processWebhookEvent t st webhookPayload eventId) = st.
Proof.
  destruct (Props.handed_entity webhookPayload) as [ent|] eqn:Hent;
    [|now apply process_not_handed].
  rewrite (process_handed _ _ _ _ ent Hent).
  pose proof (handleWebhookEvent_outcome t st (wp_event webhookPayload) ent webhookPayload
                eventId) as Hout.
  destruct (WebhookHandler.handleWebhookEvent t st (wp_event webhookPayload) ent
              webhookPayload eventId) as [st'|m]; simpl; [tauto | reflexivity].
Qed.

(** ** The webhook endpoint *)

(** The endpoint on a request that passes the signature check and
    the parser: the duplicate lookup raises. *)
Lemma webhook_accepted (t : Z) (st : state E) (req : Payments.webhook_request)
    (webhookPayload : webhook_payload) :
  Props.accepted req = Some webhookPayload ->
  Payments.razorpay_webhook t st req = (st, Props.database_error).
Proof.
  unfold Props.accepted, Payments.razorpay_webhook.
  destruct (Payments.wh_body req) as [ | | rawBody ]; try discriminate.
  destruct (Payments.wh_headers req !! "x-razorpay-signature") as [signature|];
    [|discriminate].
  simpl. destruct (String.eqb signature ""); simpl; [discriminate|].
  destruct (Razorpay.verifyWebhookSignature signature rawBody); simpl; [|discriminate].
  intros ->. reflexivity.
Qed.



(** C2. A webhook for a subscription row its handler finds (a
    [cancelled] or [expired] one among them), or of a type the switch
    does not know, is not recorded.  At the endpoint the request is
    answered 503 and the subscriptions, the ledger, the workspaces
    and the engine are as before: the subscription keeps its state,
    terminal or not, and the ledger gets no row for the event.  The
    transaction of [processWebhookEvent], which the endpoint runs
    once the duplicate lookup is passed, would not record it either:
    on the same state and event it raises and is rolled back, every
    [INSERT] into the ledger naming the column [razorpay_event_id],
    which the table of migration 004 does not have. *)
Theorem located_event_is_not_recorded (t : Z) (st : state E)
    (req : Payments.webhook_request) (webhookPayload : webhook_payload) (ent : entity) :
  Props.accepted req = Some webhookPayload ->
  Props.handed_entity webhookPayload = Some ent ->
  Props.locates (st_db st) (wp_event webhookPayload) ent = true ->
  fst (Payments.razorpay_webhook t st req) = st
  /\ res_status (snd (Payments.razorpay_webhook t st req)) = 503
  /\ exists message,
       WebhookHandler.handleWebhookEvent t st (wp_event webhookPayload) ent webhookPayload
         (Payments.event_id_of t webhookPayload) = Throw message
       /\ Payments.processWebhookEvent t st webhookPayload
            (Payments.event_id_of t webhookPayload) = (st, Throw message).
Proof.
  intros Hacc Hent Hloc. rewrite (webhook_accepted t st req webhookPayload Hacc).
  split; [reflexivity|]. split; [reflexivity|].
  rewrite (process_handed _ _ _ _ ent Hent).
  pose proof (handleWebhookEvent_outcome t st (wp_event webhookPayload) ent webhookPayload
                (Payments.event_id_of t webhookPayload)) as Hout.
  destruct (WebhookHandler.handleWebhookEvent t st (wp_event webhookPayload) ent
              webhookPayload (Payments.event_id_of t webhookPayload)) as [st'|m].
  - destruct Hout as [_ Hnot]. congruence.
  - exists m. split; reflexivity.
Qed.

(** C1. Every webhook request that passes the signature check and
    the parser is answered 503 [Database error], and changes neither
    the subscriptions, nor the ledger, nor the workspaces, nor the
    engine: the duplicate lookup names the column
    [razorpay_event_id], which the table of migration 004 does not
    have.  So of two deliveries with the same event identifier
    neither is processed, neither is answered as a duplicate, and no
    ledger row is written for the event. *)
Theorem signed_webhook_is_answered_503 (t1 t2 : Z) (st : state E)
    (r1 r2 : Payments.webhook_request) (p1 p2 : webhook_payload) :
  Props.accepted r1 = Some p1 ->
  Props.accepted r2 = Some p2 ->
  Payments.razorpay_webhook t1 st r1 = (st, Props.database_error)
  /\ Payments.razorpay_webhook t2 (fst (Payments.razorpay_webhook t1 st r1)) r2
     = (st, Props.database_error).
Proof.
  intros Hacc1 Hacc2.
  rewrite (webhook_accepted t1 st r1 p1 Hacc1). simpl.
  split; [reflexivity | exact (webhook_accepted t2 st r2 p2 Hacc2)].
Qed.

End TransactionProps.

Lemma located_event_is_not_recorded_witness :
  WebhookHandler.is_terminal "cancelled" = true
  /\ fst (Payments.razorpay_webhook 2000 (Sim.st_sub "cancelled") (Sim.signed "charged sub_1"))
     = Sim.st_sub "cancelled"
  /\ res_status (snd (Payments.razorpay_webhook 2000 (Sim.st_sub "cancelled")
                        (Sim.signed "charged sub_1"))) = 503
  /\ exists message,
       WebhookHandler.handleWebhookEvent 2000 (Sim.st_sub "cancelled") "subscription.charged"
         (Sim.sub_entity "sub_1") (Sim.sub_event "subscription.charged" "sub_1") "sub_1"
       = Throw message
       /\ Payments.processWebhookEvent 2000 (Sim.st_sub "cancelled")
            (Sim.sub_event "subscription.charged" "sub_1") "sub_1"
          = (Sim.st_sub "cancelled", Throw message).
Proof.
  split; [reflexivity|].
  apply (located_event_is_not_recorded 2000 (Sim.st_sub "cancelled")
           (Sim.signed "charged sub_1") (Sim.sub_event "subscription.charged" "sub_1")
           (Sim.sub_entity "sub_1"));
    vm_compute; reflexivity.
Defined.

Lemma signed_webhook_is_answered_503_witness :
  Payments.razorpay_webhook 2000 (Sim.st_sub "pending") (Sim.signed "activated sub_1")
  = (Sim.st_sub "pending", Props.database_error)
  /\ Payments.razorpay_webhook 3000
       (fst (Payments.razorpay_webhook 2000 (Sim.st_sub "pending")
               (Sim.signed "activated sub_1")))
       (Sim.signed "activated sub_1")
     = (Sim.st_sub "pending", Props.database_error).
Proof.
  apply (signed_webhook_is_answered_503 2000 3000 (Sim.st_sub "pending")
           (Sim.signed "activated sub_1") (Sim.signed "activated sub_1")
           (Sim.sub_event "subscription.activated" "sub_1")
           (Sim.sub_event "subscription.activated" "sub_1"));
    vm_compute; reflexivity.
Defined.

(* ===================================================================== *)
(** * Part III: further properties of the code *)
(* ===================================================================== *)

(** ** Lists *)

Lemma NoDup_snoc {A} (l : list A) (x : A) :
  List.NoDup l -> ~ In x l -> List.NoDup (l ++ [x]).
Proof.
  intros Hnd Hx. apply List.NoDup_app; [exact Hnd | |].
  - constructor; [simpl; tauto | constructor].
  - intros a Ha [<-|[]]. contradiction.
Qed.

Lemma find_app_fresh {A} (p : A -> bool) (l : list A) (x : A) :
  (forall y, In y l -> p y = false) -> p x = true -> List.find p (l ++ [x]) = Some x.
Proof.
  induction l as [|y l IH]; simpl; intros Hl Hx; [now rewrite Hx|].
  rewrite (Hl y) by now left. apply IH; [|exact Hx]. intros z Hz. apply Hl. now right.
Qed.

Lemma find_app_old {A} (p : A -> bool) (l : list A) (x : A) :
  p x = false -> List.find p (l ++ [x]) = List.find p l.
Proof.
  intros Hx. induction l as [|y l IH]; simpl; [now rewrite Hx|].
  destruct (p y); [reflexivity | exact IH].
Qed.


(** ** More on the logger *)

Lemma redactSecrets_is_object (w : jsval) :
  is_object (Logger.redactSecrets w) = is_object w.
Proof. destruct w; reflexivity. Qed.

Lemma map_ext_Forall_snd (f g : string * jsval -> string * jsval)
    (P : jsval -> Prop) (fields : list (string * jsval)) :
  Forall (fun kv => P (snd kv)) fields ->
  (forall kv, P (snd kv) -> f kv = g kv) ->
  List.map f fields = List.map g fields.
Proof.
  intros Hall Hfg. induction Hall as [|kv l Hkv _ IH]; simpl; [reflexivity|].
  now rewrite (Hfg kv Hkv), IH.
Qed.

(** X1. Redaction is idempotent: a record that went through
    [redactSecrets] once is left as it is by a second pass. *)
Theorem redactSecrets_idempotent (obj : jsval) :
  Logger.redactSecrets (Logger.redactSecrets obj) = Logger.redactSecrets obj.
Proof.
  induction obj as [ | | b | z | s | items IH | fields IH ] using jsval_nested_ind;
    try reflexivity.
  - simpl. f_equal. rewrite List.map_map.
    induction IH as [|x l Hx _ IHl]; simpl; [reflexivity|]. now rewrite Hx, IHl.
  - simpl. f_equal. rewrite List.map_map.
    induction IH as [|[k x] l Hx _ IHl]; simpl; [reflexivity|]. rewrite IHl. f_equal.
    simpl in Hx. destruct (Logger.isSecret k) eqn:Hk; simpl.
    + now rewrite Hk.
    + destruct x; simpl; rewrite Hk; try reflexivity.
      * simpl in Hx. now rewrite Hx.
      * simpl in Hx. now rewrite Hx.
Qed.

(** X2. Redaction touches nothing else: a value in which no key, at
    any depth, is blacklisted comes back unchanged. *)
Theorem redactSecrets_keeps_clean_values (obj : jsval) :
  (forall k v, Logger.entry_of k v obj -> ~ Props.blacklisted k) ->
  Logger.redactSecrets obj = obj.
Proof.
  induction obj as [ | | b | z | s | items IH | fields IH ] using jsval_nested_ind;
    intros Hclean; try reflexivity.
  - simpl. f_equal.
    assert (Hall : forall x, In x items -> Logger.redactSecrets x = x).
    { rewrite List.Forall_forall in IH. intros x Hx. apply IH; [exact Hx|].
      intros k v He. apply (Hclean k v). eapply Logger.entry_in_item; eauto. }
    clear IH Hclean. induction items as [|x l IHl]; simpl; [reflexivity|].
    rewrite Hall by now left. f_equal. apply IHl. intros y Hy. apply Hall. now right.
  - simpl. f_equal.
    assert (Hall : forall kv, In kv fields ->
                     Logger.isSecret (fst kv) = false
                     /\ Logger.redactSecrets (snd kv) = snd kv).
    { rewrite List.Forall_forall in IH. intros [k x] Hkv. simpl. split.
      - destruct (Logger.isSecret k) eqn:Hk; [|reflexivity].
        exfalso. apply (Hclean k x); [now apply Logger.entry_here|].
        now apply isSecret_blacklisted.
      - apply (IH (k, x) Hkv). intros k' v' He. apply (Hclean k' v').
        eapply Logger.entry_in_field; eauto. }
    clear IH Hclean. induction fields as [|[k x] l IHl]; simpl; [reflexivity|].
    destruct (Hall (k, x) ltac:(now left)) as [Hk Hx]. simpl in Hk, Hx. rewrite Hk.
    f_equal.
    + destruct x; try reflexivity; now rewrite Hx.
    + apply IHl. intros kv Hkv. apply Hall. now right.
Qed.

Lemma redactSecrets_keeps_clean_values_witness :
  (forall k v, Logger.entry_of k v Samples.clean_sample -> ~ Props.blacklisted k)
  /\ Logger.redactSecrets Samples.clean_sample = Samples.clean_sample.
Proof.
  assert (Hclean : forall k v, Logger.entry_of k v Samples.clean_sample -> ~ Props.blacklisted k).
  { intros k v He Hb. apply isSecret_blacklisted in Hb.
    unfold Samples.clean_sample in He.
    inversion He as [ fs Hin | k' v' fs Hin Hsub | ]; subst.
    - simpl in Hin. destruct Hin as [Heq|[Heq|[]]]; inversion Heq; subst;
        vm_compute in Hb; discriminate.
    - simpl in Hin. destruct Hin as [Heq|[Heq|[]]]; inversion Heq; subst.
      + inversion Hsub.
      + inversion Hsub as [ | | item items Hin' Hsub' ]; subst.
        simpl in Hin'. destruct Hin' as [<-|[<-|[]]]; inversion Hsub'. }
  split; [exact Hclean|].
  exact (redactSecrets_keeps_clean_values Samples.clean_sample Hclean).
Defined.

(** ** Bearer tokens and the authentication middleware *)

Lemma split_on_not_nil (sep : ascii) (s : string) : AuthService.split_on sep s <> [].
Proof.
  induction s as [|c s IH]; simpl; [discriminate|].
  destruct (Ascii.eqb c sep); [discriminate|].
  destruct (AuthService.split_on sep s); discriminate.
Qed.

Lemma has_char_cons (sep c : ascii) (s : string) :
  Chars.has_char sep (String c s) = Ascii.eqb sep c || Chars.has_char sep s.
Proof. reflexivity. Qed.

(** The first piece of a split, and what is left after it. *)
Lemma split_on_cons (sep : ascii) (s part : string) (parts : list string) :
  AuthService.split_on sep s = part :: parts ->
  Chars.has_char sep part = false
  /\ match parts with
     | [] => s = part
     | _ :: _ => exists rest, s = part +:+ String sep rest
                              /\ AuthService.split_on sep rest = parts
     end.
Proof.
  revert part parts. induction s as [|c s IH]; intros part parts; simpl.
  - intros [= <- <-]. split; reflexivity.
  - destruct (Ascii.eqb c sep) eqn:Hc.
    + apply Ascii.eqb_eq in Hc. subst c. intros [= <- <-]. split; [reflexivity|].
      destruct (AuthService.split_on sep s) as [|p ps] eqn:Hs;
        [now apply split_on_not_nil in Hs|].
      exists s. split; [reflexivity | exact Hs].
    + destruct (AuthService.split_on sep s) as [|p ps] eqn:Hs;
        [now apply split_on_not_nil in Hs|].
      intros [= <- <-]. destruct (IH p ps eq_refl) as [Hp Hrest].
      split.
      * rewrite has_char_cons, Hp. rewrite Ascii.eqb_sym, Hc. reflexivity.
      * destruct ps as [|q qs].
        -- now rewrite Hrest.
        -- destruct Hrest as [rest [-> Hsplit]]. exists rest. split; [reflexivity|exact Hsplit].
Qed.

Lemma split_on_free (sep : ascii) (s : string) :
  Chars.has_char sep s = false -> AuthService.split_on sep s = [s].
Proof.
  induction s as [|c s IH]; simpl; [reflexivity|].
  rewrite has_char_cons. intros Hfree. apply orb_false_iff in Hfree as [Hc Hs].
  rewrite Ascii.eqb_sym, Hc. now rewrite (IH Hs).
Qed.

Lemma split_on_app (sep : ascii) (part rest : string) :
  Chars.has_char sep part = false ->
  AuthService.split_on sep (part +:+ String sep rest)
  = part :: AuthService.split_on sep rest.
Proof.
  induction part as [|c part IH]; simpl.
  - intros _. now rewrite Ascii.eqb_refl.
  - rewrite has_char_cons. intros Hfree. apply orb_false_iff in Hfree as [Hc Hp].
    rewrite Ascii.eqb_sym, Hc. now rewrite (IH Hp).
Qed.

Lemma extractTokenFromHeader_Some (authHeader : option string) (token : string) :
  AuthService.extractTokenFromHeader authHeader = Some token ->
  authHeader = Some ("Bearer " +:+ token) /\ Chars.has_char " " token = false.
Proof.
  unfold AuthService.extractTokenFromHeader.
  destruct authHeader as [h|]; simpl; [|discriminate].
  destruct (String.eqb h ""); simpl; [discriminate|].
  destruct (AuthService.split_on " " h) as [|scheme [|tok [|x xs]]] eqn:Hsplit;
    try discriminate.
  destruct (String.eqb scheme "Bearer") eqn:Hscheme; [|discriminate].
  apply string_eqb_true in Hscheme. subst scheme. intros [= ->].
  destruct (split_on_cons " " h "Bearer" [token] Hsplit) as [_ [rest [-> Hrest]]].
  destruct (split_on_cons " " rest token [] Hrest) as [Hfree ->].
  split; [reflexivity | exact Hfree].
Qed.

Lemma extractTokenFromHeader_of_bearer (token : string) :
  Chars.has_char " " token = false ->
  AuthService.extractTokenFromHeader (Some ("Bearer " +:+ token)) = Some token.
Proof.
  intros Hfree.
  assert (Hsplit : AuthService.split_on " " ("Bearer " +:+ token) = ["Bearer"; token]).
  { change ("Bearer " +:+ token) with ("Bearer" +:+ String " " token).
    rewrite split_on_app by reflexivity. now rewrite (split_on_free " " token Hfree). }
  unfold AuthService.extractTokenFromHeader.
  change (negb (truthy_str (Some ("Bearer " +:+ token)))) with false. cbv iota.
  change (default "" (Some ("Bearer " +:+ token))) with ("Bearer " +:+ token).
  now rewrite Hsplit.
Qed.

(** X3. [extractTokenFromHeader] yields a token exactly for a header
    made of the word [Bearer], one space and a token without spaces;
    the token it yields is the text after that space (possibly empty).
    Any other header, and an absent one, yield nothing. *)
Theorem extractTokenFromHeader_bearer (authHeader : option string) (token : string) :
  AuthService.extractTokenFromHeader authHeader = Some token
  <-> authHeader = Some ("Bearer " +:+ token) /\ Chars.has_char " " token = false.
Proof.
  split; [apply extractTokenFromHeader_Some|].
  intros [-> Hfree]. now apply extractTokenFromHeader_of_bearer.
Qed.

Section RequireAuthProps.
Context `{AuthService.Jwt}.

(** X4. [requireAuth] lets a request pass only with a [Bearer] header
    whose non-empty token verifies and names the identifier of an
    existing user, and attaches that user; every refusal is a 401
    (the 500 of a failing query is outside the model). *)
Theorem requireAuth_sound (t : Z) (users : list UserModel.user)
    (headers : gmap string string) :
  (forall user, AuthService.requireAuth t users headers = inr user ->
     exists token decoded row,
       headers !! "authorization" = Some ("Bearer " +:+ token)
       /\ token <> ""
       /\ AuthService.verifyToken t token = Some decoded
       /\ In row users
       /\ UserModel.user_id row = AuthService.tp_userId decoded
       /\ user = UserModel.without_password row)
  /\ (forall r, AuthService.requireAuth t users headers = inl r -> res_status r = 401).
Proof.
  unfold AuthService.requireAuth. split.
  - intros user.
    destruct (AuthService.extractTokenFromHeader (headers !! "authorization"))
      as [token|] eqn:Hextract; simpl; [|discriminate].
    destruct (String.eqb token "") eqn:Hempty; simpl; [discriminate|].
    destruct (AuthService.verifyToken t token) as [decoded|] eqn:Hverify; [|discriminate].
    unfold UserModel.findById.
    destruct (List.find _ users) as [row|] eqn:Hfind; simpl; [|discriminate].
    intros [= <-]. apply find_some in Hfind as [Hin Hid].
    apply extractTokenFromHeader_Some in Hextract as [Hheader _].
    exists token, decoded, row. apply string_eqb_false in Hempty.
    apply string_eqb_true in Hid. tauto.
  - intros r.
    destruct (negb (truthy_str _)); [now intros [= <-]|].
    destruct (AuthService.verifyToken t _); [|now intros [= <-]].
    destruct (UserModel.findById users _); [discriminate | now intros [= <-]].
Qed.

End RequireAuthProps.

Lemma requireAuth_sound_witness :
  AuthService.requireAuth 2000 [Samples.alice] {[ "authorization" := "Bearer jwt.u1" ]}
    = inr (UserModel.without_password Samples.alice)
  /\ exists token decoded row,
       ({[ "authorization" := "Bearer jwt.u1" ]} : gmap string string) !! "authorization"
         = Some ("Bearer " +:+ token)
       /\ token <> ""
       /\ AuthService.verifyToken 2000 token = Some decoded
       /\ In row [Samples.alice]
       /\ UserModel.user_id row = AuthService.tp_userId decoded
       /\ UserModel.without_password Samples.alice = UserModel.without_password row.
Proof.
  assert (Hpass : AuthService.requireAuth 2000 [Samples.alice]
                    {[ "authorization" := "Bearer jwt.u1" ]}
                  = inr (UserModel.without_password Samples.alice))
    by (vm_compute; reflexivity).
  split; [exact Hpass|].
  exact (proj1 (requireAuth_sound 2000 [Samples.alice]
                  {[ "authorization" := "Bearer jwt.u1" ]}) _ Hpass).
Defined.

(** ** Registration and login *)

Section UserModelProps.
Context `{UserModel.Bcrypt}.

Lemma create_Ok (users users' : list UserModel.user) (env : environment)
    (salt email password : string) (user : UserModel.public_user) :
  UserModel.create users env salt email password = Ok (users', user) ->
  let row := {| UserModel.user_id := fresh_uuid env; UserModel.user_email := email;
                UserModel.user_password_hash :=
                  UserModel.bcrypt_hash password UserModel.BCRYPT_ROUNDS salt;
                UserModel.user_created_at := now env;
                UserModel.user_updated_at := now env |} in
  users' = (users ++ [row])%list
  /\ user = UserModel.without_password row
  /\ (forall u, In u users ->
        UserModel.user_id u <> fresh_uuid env /\ UserModel.user_email u <> email).
Proof.
  unfold UserModel.create.
  destruct (existsb _ users) eqn:Hex; [discriminate|].
  intros [= <- <-]. split; [reflexivity|]. split; [reflexivity|].
  intros u Hu.
  assert (Hu' : (String.eqb (UserModel.user_id u) (fresh_uuid env)
                 || String.eqb (UserModel.user_email u) email) = false).
  { destruct (_ || _) eqn:Hor; [|reflexivity].
    assert (Hex' : existsb (fun u => String.eqb (UserModel.user_id u) (fresh_uuid env)
                                     || String.eqb (UserModel.user_email u) email) users
                   = true) by (apply existsb_exists; eauto).
    simpl in Hex. congruence. }
  apply orb_false_iff in Hu' as [Hid Hemail].
  split; now apply string_eqb_false.
Qed.

(** X5. [create] keeps e-mail addresses and identifiers unique: an
    address that is already registered is refused with ["Email
    already registered"], and a successful registration appends one
    row, leaves the earlier rows as they were and keeps both columns
    free of duplicates. *)
Theorem create_keeps_users_unique (users : list UserModel.user) (env : environment)
    (salt email password : string) :
  (In email (List.map UserModel.user_email users) ->
     UserModel.create users env salt email password = Throw "Email already registered")
  /\ (forall users' user,
        UserModel.create users env salt email password = Ok (users', user) ->
        (exists row, users' = (users ++ [row])%list
                     /\ UserModel.user_email row = email
                     /\ UserModel.user_id row = UserModel.pu_id user)
        /\ (List.NoDup (List.map UserModel.user_email users) ->
            List.NoDup (List.map UserModel.user_email users'))
        /\ (List.NoDup (List.map UserModel.user_id users) ->
            List.NoDup (List.map UserModel.user_id users'))).
Proof.
  split.
  - intros Hin. apply in_map_iff in Hin as [u [Hemail Hu]].
    unfold UserModel.create.
    assert (Hex : existsb (fun u => String.eqb (UserModel.user_id u) (fresh_uuid env)
                                    || String.eqb (UserModel.user_email u) email) users
                  = true).
    { apply existsb_exists. exists u. split; [exact Hu|].
      apply orb_true_iff. right. now apply string_eqb_true. }
    simpl. now rewrite Hex.
  - intros users' user Hcreate. apply create_Ok in Hcreate as (-> & -> & Hfresh).
    split; [eexists; repeat split; reflexivity|].
    split; intros Hnd; rewrite List.map_app; simpl; apply NoDup_snoc; try exact Hnd.
    + intros He. apply in_map_iff in He as [u [Hemail Hu]].
      destruct (Hfresh u Hu) as [_ Hne]. now apply Hne.
    + intros He. apply in_map_iff in He as [u [Hid Hu]].
      destruct (Hfresh u Hu) as [Hne _]. now apply Hne.
Qed.

Context `{AuthService.Jwt} `{AuthRoutes.AuthValidators}.

(** X6. Register, log in, ask who I am: after an accepted
    registration, logging in with the same address and password is
    answered 200 with a token for the registered user, and [GET
    /api/auth/me] with that token names the identifier the
    registration returned.  The libraries are assumed to do their
    part: the digest of a password compares equal to it, and the
    issued token is one non-empty word that still verifies, for the
    same user identifier, when it is presented. *)
Theorem register_login_me (users users' : list UserModel.user) (env : environment)
    (salt email password : string) (r : response) (t1 t2 : Z) :
  AuthRoutes.register users env salt email password = (users', r) ->
  res_status r = 201 ->
  AuthRoutes.login_body_valid email password = true ->
  (forall rounds, UserModel.bcrypt_compare password
                    (UserModel.bcrypt_hash password rounds salt) = true) ->
  (forall user, UserModel.pu_id user = fresh_uuid env ->
     let token := AuthService.generateToken t1 user in
     Chars.has_char " " token = false
     /\ token <> ""
     /\ exists decoded, AuthService.verifyToken t2 token = Some decoded
                        /\ AuthService.tp_userId decoded = fresh_uuid env) ->
  get_prop (get_prop (res_body r) "user") "id" = JStr (fresh_uuid env)
  /\ exists token,
       res_status (AuthRoutes.login users' t1 email password) = 200
       /\ get_prop (res_body (AuthRoutes.login users' t1 email password)) "token" = JStr token
       /\ res_status (AuthRoutes.me t2 users' {[ "authorization" := "Bearer " +:+ token ]})
          = 200
       /\ get_prop (get_prop (res_body (AuthRoutes.me t2 users'
                                          {[ "authorization" := "Bearer " +:+ token ]}))
                             "user") "id"
          = JStr (fresh_uuid env).
Proof.
  intros Hreg Hstatus Hlogin Hbcrypt Hjwt.
  unfold AuthRoutes.register in Hreg.
  destruct (AuthRoutes.register_body_valid email password);
    [|simpl in Hreg; inversion Hreg; subst; discriminate Hstatus].
  simpl in Hreg.
  destruct (UserModel.create users env salt (AuthRoutes.normalizeEmail email) password)
    as [[users1 user]|m] eqn:Hcreate.
  2:{ destruct (String.eqb m "Email already registered");
        inversion Hreg; subst; discriminate Hstatus. }
  inversion Hreg; subst users' r. clear Hreg Hstatus.
  apply create_Ok in Hcreate as (-> & -> & Hfresh). cbv zeta in *.
  set (row := {| UserModel.user_id := fresh_uuid env;
                 UserModel.user_email := AuthRoutes.normalizeEmail email;
                 UserModel.user_password_hash :=
                   UserModel.bcrypt_hash password UserModel.BCRYPT_ROUNDS salt;
                 UserModel.user_created_at := now env;
                 UserModel.user_updated_at := now env |}) in *.
  split; [reflexivity|].
  destruct (Hjwt (UserModel.without_password row) eq_refl)
    as (Hword & Hnonempty & decoded & Hverify & Hid).
  exists (AuthService.generateToken t1 (UserModel.without_password row)).
  assert (Hpw : UserModel.verifyPassword (users ++ [row])
                  (AuthRoutes.normalizeEmail email) password
                = Some (UserModel.without_password row)).
  { unfold UserModel.verifyPassword, UserModel.findByEmail.
    rewrite find_app_fresh.
    - simpl. now rewrite Hbcrypt.
    - intros u Hu. apply string_eqb_false. now destruct (Hfresh u Hu).
    - apply String.eqb_refl. }
  assert (Hme : AuthService.requireAuth t2 (users ++ [row])
                  {[ "authorization" :=
                       "Bearer " +:+ AuthService.generateToken t1
                                       (UserModel.without_password row) ]}
                = inr (UserModel.without_password row)).
  { unfold AuthService.requireAuth. rewrite lookup_singleton_eq.
    rewrite (extractTokenFromHeader_of_bearer _ Hword). simpl.
    apply string_eqb_false in Hnonempty. rewrite Hnonempty. simpl.
    rewrite Hverify, Hid. unfold UserModel.findById.
    rewrite find_app_fresh; [reflexivity | | apply String.eqb_refl].
    intros u Hu. apply string_eqb_false. now destruct (Hfresh u Hu). }
  unfold AuthRoutes.login, AuthRoutes.me. rewrite Hlogin, Hpw, Hme.
  repeat split; reflexivity.
Qed.

End UserModelProps.

Lemma create_keeps_users_unique_witness :
  UserModel.create [Samples.alice] Samples.env_register "s1" "alice@x.test" "Abcd1234!"
    = Throw "Email already registered"
  /\ List.NoDup (List.map UserModel.user_email
                   (fst (AuthRoutes.register [Samples.alice] Samples.env_register "s1"
                           "bob@x.test" "Abcd1234!"))).
Proof.
  destruct (create_keeps_users_unique [Samples.alice] Samples.env_register "s1"
              "alice@x.test" "Abcd1234!") as [Htaken _].
  destruct (create_keeps_users_unique [Samples.alice] Samples.env_register "s1"
              "bob@x.test" "Abcd1234!") as [_ Hfree].
  split; [apply Htaken; simpl; tauto|].
  destruct (UserModel.create [Samples.alice] Samples.env_register "s1"
              "bob@x.test" "Abcd1234!") as [[users' user]|m] eqn:Hcreate;
    [|vm_compute in Hcreate; discriminate].
  destruct (Hfree users' user eq_refl) as (_ & Hemails & _).
  assert (Hreg : fst (AuthRoutes.register [Samples.alice] Samples.env_register "s1"
                        "bob@x.test" "Abcd1234!") = users').
  { vm_compute in Hcreate. inversion Hcreate; subst. vm_compute. reflexivity. }
  rewrite Hreg. apply Hemails. constructor; [simpl; tauto | constructor].
Defined.

Lemma register_login_me_witness :
  get_prop (get_prop (res_body (snd (AuthRoutes.register [Samples.alice] Samples.env_register
                                       "s1" "Bob@X.test" "Abcd1234!"))) "user") "id"
    = JStr "u2"
  /\ exists token,
       res_status (AuthRoutes.login
                     (fst (AuthRoutes.register [Samples.alice] Samples.env_register
                             "s1" "Bob@X.test" "Abcd1234!"))
                     2000 "Bob@X.test" "Abcd1234!") = 200
       /\ get_prop (res_body (AuthRoutes.login
                                (fst (AuthRoutes.register [Samples.alice] Samples.env_register
                                        "s1" "Bob@X.test" "Abcd1234!"))
                                2000 "Bob@X.test" "Abcd1234!")) "token" = JStr token
       /\ res_status (AuthRoutes.me 3000
                        (fst (AuthRoutes.register [Samples.alice] Samples.env_register
                                "s1" "Bob@X.test" "Abcd1234!"))
                        {[ "authorization" := "Bearer " +:+ token ]}) = 200
       /\ get_prop (get_prop (res_body (AuthRoutes.me 3000
                                          (fst (AuthRoutes.register [Samples.alice]
                                                  Samples.env_register
                                                  "s1" "Bob@X.test" "Abcd1234!"))
                                          {[ "authorization" := "Bearer " +:+ token ]}))
                             "user") "id"
          = JStr "u2".
Proof.
  apply (register_login_me [Samples.alice] _ Samples.env_register "s1" "Bob@X.test"
           "Abcd1234!" _ 2000 3000).
  - apply surjective_pairing.
  - vm_compute. reflexivity.
  - vm_compute. reflexivity.
  - intros rounds. vm_compute. reflexivity.
  - intros user Hid. unfold AuthService.generateToken, AuthService.verifyToken.
    simpl. rewrite Hid. split; [reflexivity|]. split; [discriminate|].
    eexists. split; reflexivity.
Defined.

(** ** Input validation *)

Lemma trimStart_first (s : string) (c : ascii) :
  Chars.first_char (Validation.trimStart s) = Some c -> Validation.is_space c = false.
Proof.
  induction s as [|a s IH]; simpl; [discriminate|].
  destruct (Validation.is_space a) eqn:Ha; [exact IH|]. simpl. now intros [= <-].
Qed.

Lemma trimStart_id (s : string) :
  (forall c, Chars.first_char s = Some c -> Validation.is_space c = false) ->
  Validation.trimStart s = s.
Proof. destruct s as [|a s]; simpl; [reflexivity|]. intros Hs. now rewrite (Hs a eq_refl). Qed.

Lemma trimEnd_first (s : string) (c : ascii) :
  Chars.first_char (Validation.trimEnd s) = Some c -> Chars.first_char s = Some c.
Proof.
  destruct s as [|a s]; simpl; [discriminate|].
  destruct (Validation.trimEnd s); [destruct (Validation.is_space a)|]; simpl; congruence.
Qed.

Lemma trimEnd_last (s : string) (c : ascii) :
  Chars.last_char (Validation.trimEnd s) = Some c -> Validation.is_space c = false.
Proof.
  induction s as [|a s IH]; simpl; [discriminate|].
  destruct (Validation.trimEnd s) as [|b rest] eqn:Hrest.
  - destruct (Validation.is_space a) eqn:Ha; simpl; [discriminate|]. now intros [= <-].
  - exact IH.
Qed.

Lemma trimEnd_idempotent (s : string) :
  Validation.trimEnd (Validation.trimEnd s) = Validation.trimEnd s.
Proof.
  induction s as [|a s IH]; simpl; [reflexivity|].
  destruct (Validation.trimEnd s) as [|b rest] eqn:Hrest.
  - destruct (Validation.is_space a) eqn:Ha; simpl; [reflexivity|]. now rewrite Ha.
  - simpl in *. now rewrite IH.
Qed.

Lemma trim_idempotent (s : string) : Validation.trim (Validation.trim s) = Validation.trim s.
Proof.
  unfold Validation.trim.
  rewrite (trimStart_id (Validation.trimEnd (Validation.trimStart s))).
  - apply trimEnd_idempotent.
  - intros c Hc. apply trimEnd_first in Hc. now apply trimStart_first in Hc.
Qed.

Lemma trimStart_chars (s : string) (c : ascii) :
  In c (list_ascii_of_string (Validation.trimStart s)) -> In c (list_ascii_of_string s).
Proof.
  induction s as [|a s IH]; simpl; [tauto|].
  destruct (Validation.is_space a); simpl; tauto.
Qed.

Lemma trimEnd_chars (s : string) (c : ascii) :
  In c (list_ascii_of_string (Validation.trimEnd s)) -> In c (list_ascii_of_string s).
Proof.
  induction s as [|a s IH]; simpl; [tauto|].
  destruct (Validation.trimEnd s) as [|b rest].
  - destruct (Validation.is_space a); simpl; tauto.
  - simpl in *. tauto.
Qed.

Lemma trimStart_length (s : string) :
  (String.length (Validation.trimStart s) <= String.length s)%nat.
Proof.
  induction s as [|a s IH]; simpl; [lia|].
  destruct (Validation.is_space a); simpl; lia.
Qed.

Lemma trimEnd_length (s : string) :
  (String.length (Validation.trimEnd s) <= String.length s)%nat.
Proof.
  induction s as [|a s IH]; simpl; [lia|].
  destruct (Validation.trimEnd s) as [|b rest].
  - destruct (Validation.is_space a); simpl; lia.
  - simpl in *. lia.
Qed.

(** X7. A workspace name that [validateWorkspaceName] accepts comes
    back trimmed: the result is the name without the white space
    around it, it is not empty, has at most 100 characters, neither
    starts nor ends with white space, is made of letters, digits,
    white space, [_] and [-] only, and validating it again returns it
    unchanged. *)
Theorem validateWorkspaceName_accepts (name r : string) :
  Validation.validateWorkspaceName name = Ok r ->
  r = Validation.trim name
  /\ r <> ""
  /\ (String.length r <= 100)%nat
  /\ forallb Validation.name_char (list_ascii_of_string r) = true
  /\ (forall c, Chars.first_char r = Some c -> Validation.is_space c = false)
  /\ (forall c, Chars.last_char r = Some c -> Validation.is_space c = false)
  /\ Validation.validateWorkspaceName r = Ok r.
Proof.
  unfold Validation.validateWorkspaceName at 1.
  destruct (String.length (Validation.trim name) =? 0)%nat eqn:Hblank; [discriminate|].
  destruct (100 <? String.length name)%nat eqn:Hlong; [discriminate|].
  destruct (Validation.name_pattern name) eqn:Hpattern; simpl; [|discriminate].
  intros [= <-].
  apply Nat.eqb_neq in Hblank. apply Nat.ltb_ge in Hlong.
  assert (Hlen : (String.length (Validation.trim name) <= String.length name)%nat).
  { unfold Validation.trim.
    pose proof (trimEnd_length (Validation.trimStart name)).
    pose proof (trimStart_length name). lia. }
  assert (Hne : Validation.trim name <> "").
  { intros Heq. rewrite Heq in Hblank. simpl in Hblank. lia. }
  assert (Hchars : forallb Validation.name_char
                     (list_ascii_of_string (Validation.trim name)) = true).
  { unfold Validation.name_pattern in Hpattern.
    apply andb_true_iff in Hpattern as [_ Hall].
    rewrite forallb_forall in *. intros c Hc. apply Hall.
    unfold Validation.trim in Hc. now apply trimStart_chars, trimEnd_chars. }
  assert (Hfirst : forall c, Chars.first_char (Validation.trim name) = Some c ->
                             Validation.is_space c = false).
  { intros c Hc. unfold Validation.trim in Hc. apply trimEnd_first in Hc.
    now apply trimStart_first in Hc. }
  repeat (split; [first [reflexivity | assumption | lia]|]).
  split; [intros c Hc; unfold Validation.trim in Hc; now apply trimEnd_last in Hc|].
  unfold Validation.validateWorkspaceName. rewrite trim_idempotent.
  apply Nat.eqb_neq in Hblank. rewrite Hblank.
  assert (Hshort : (100 <? String.length (Validation.trim name))%nat = false)
    by (apply Nat.ltb_ge; lia).
  rewrite Hshort. unfold Validation.name_pattern. rewrite Hchars.
  apply string_eqb_false in Hne. now rewrite Hne.
Qed.

Lemma validateWorkspaceName_accepts_witness :
  Validation.validateWorkspaceName "  my workspace-1 " = Ok "my workspace-1"
  /\ Validation.validateWorkspaceName "my workspace-1" = Ok "my workspace-1".
Proof.
  assert (Hok : Validation.validateWorkspaceName "  my workspace-1 " = Ok "my workspace-1")
    by reflexivity.
  split; [exact Hok|].
  apply (validateWorkspaceName_accepts "  my workspace-1 " "my workspace-1" Hok).
Defined.

Lemma has_app (class : ascii -> bool) (p q : string) :
  Validation.has class p = true -> Validation.has class (p +:+ q) = true.
Proof.
  unfold Validation.has. induction p as [|c p IH]; simpl; [discriminate|].
  destruct (class c); simpl; [reflexivity | exact IH].
Qed.

Lemma length_append (p q : string) :
  String.length (p +:+ q) = (String.length p + String.length q)%nat.
Proof. induction p as [|c p IH]; simpl; [reflexivity | now rewrite IH]. Qed.

(** X8. A password that [validatePasswordStrength] accepts has 8 to
    128 characters and holds a lower-case letter, an upper-case
    letter, a digit and a character of the special class; it is
    returned as it is, and it stays acceptable when text is appended
    to it as long as the length does not exceed 128. *)
Theorem validatePasswordStrength_accepts (password r : string) :
  Validation.validatePasswordStrength password = Ok r ->
  r = password
  /\ (8 <= String.length password <= 128)%nat
  /\ (exists c, In c (list_ascii_of_string password) /\ Validation.is_lower c = true)
  /\ (exists c, In c (list_ascii_of_string password) /\ Validation.is_upper c = true)
  /\ (exists c, In c (list_ascii_of_string password) /\ Validation.is_digit c = true)
  /\ (exists c, In c (list_ascii_of_string password) /\ Validation.is_special c = true)
  /\ (forall more, (String.length (password +:+ more) <= 128)%nat ->
        Validation.validatePasswordStrength (password +:+ more) = Ok (password +:+ more)).
Proof.
  unfold Validation.validatePasswordStrength at 1.
  destruct ((String.length password <? 8) || (128 <? String.length password))%nat
    eqn:Hlen; [discriminate|].
  destruct (Validation.has Validation.is_lower password) eqn:Hlower; simpl; [|discriminate].
  destruct (Validation.has Validation.is_upper password) eqn:Hupper; simpl; [|discriminate].
  destruct (Validation.has Validation.is_digit password) eqn:Hdigit; simpl; [|discriminate].
  destruct (Validation.has Validation.is_special password) eqn:Hspecial; simpl;
    [|discriminate].
  intros [= <-]. apply orb_false_iff in Hlen as [Hmin Hmax].
  apply Nat.ltb_ge in Hmin. apply Nat.ltb_ge in Hmax.
  split; [reflexivity|]. split; [lia|].
  repeat (split; [now apply existsb_exists|]).
  intros more Hmore. unfold Validation.validatePasswordStrength.
  assert (Hlen' : ((String.length (password +:+ more) <? 8)
                   || (128 <? String.length (password +:+ more)))%nat = false).
  { apply orb_false_iff. rewrite length_append in *.
    split; apply Nat.ltb_ge; lia. }
  rewrite Hlen'.
  now rewrite !has_app by assumption.
Qed.

Lemma validatePasswordStrength_accepts_witness :
  Validation.validatePasswordStrength "Abcd1234!" = Ok "Abcd1234!"
  /\ Validation.validatePasswordStrength "Abcd1234!-and-more" = Ok "Abcd1234!-and-more".
Proof.
  assert (Hok : Validation.validatePasswordStrength "Abcd1234!" = Ok "Abcd1234!")
    by reflexivity.
  split; [exact Hok|].
  destruct (validatePasswordStrength_accepts "Abcd1234!" "Abcd1234!" Hok)
    as (_ & _ & _ & _ & _ & _ & Hmore).
  apply (Hmore "-and-more"). vm_compute. lia.
Defined.

(** ** [ORDER BY ... DESC] *)

Lemma insert_desc_Permutation {A} (key : A -> Z) (x : A) (l : list A) :
  Permutation (insert_desc key x l) (x :: l).
Proof.
  induction l as [|y l IH]; simpl; [reflexivity|].
  destruct (key y <? key x); [reflexivity|].
  rewrite IH. apply perm_swap.
Qed.

Lemma order_by_desc_Permutation {A} (key : A -> Z) (l : list A) :
  Permutation (order_by_desc key l) l.
Proof.
  induction l as [|x l IH]; simpl; [reflexivity|].
  unfold order_by_desc in *. simpl. rewrite insert_desc_Permutation. now rewrite IH.
Qed.

Lemma insert_desc_sorted {A} (key : A -> Z) (x : A) (l : list A) :
  StronglySorted (fun a b => key b <= key a) l ->
  StronglySorted (fun a b => key b <= key a) (insert_desc key x l).
Proof.
  induction l as [|y l IH]; simpl; intros Hs.
  - constructor; [constructor | constructor].
  - inversion Hs as [|? ? Hl Hy]; subst.
    destruct (key y <? key x) eqn:Hlt.
    + apply Z.ltb_lt in Hlt. constructor; [exact Hs|].
      constructor; [lia|].
      rewrite List.Forall_forall in *. intros z Hz. specialize (Hy z Hz). lia.
    + apply Z.ltb_ge in Hlt. constructor; [now apply IH|].
      rewrite List.Forall_forall in *. intros z Hz.
      apply In_insert_desc in Hz as [-> | Hz]; [lia | now apply Hy].
Qed.

Lemma order_by_desc_sorted {A} (key : A -> Z) (l : list A) :
  StronglySorted (fun a b => key b <= key a) (order_by_desc key l).
Proof.
  induction l as [|x l IH]; [constructor|].
  unfold order_by_desc in *. simpl. now apply insert_desc_sorted.
Qed.

(** ** Listing the workspaces of a user *)

Lemma filter_ext_in_eq {A} (f g : A -> bool) (l : list A) :
  (forall x, In x l -> f x = g x) -> List.filter f l = List.filter g l.
Proof.
  induction l as [|x l IH]; simpl; intros Hfg; [reflexivity|].
  rewrite (Hfg x (or_introl eq_refl)), IH; [reflexivity|].
  intros y Hy. apply Hfg. now right.
Qed.

Lemma findByUserId_filter (d : db) (userId : string) :
  Permutation (WorkspaceModel.findByUserId d (Some userId))
              (List.filter (fun w => String.eqb (ws_user_id w) userId) (workspaces d)).
Proof.
  unfold WorkspaceModel.findByUserId. rewrite order_by_desc_Permutation.
  erewrite filter_ext_in_eq; [reflexivity|].
  intros w _. simpl. apply String.eqb_sym.
Qed.

(** X9. [GET /api/workspaces] answers 200 with the caller's rows and
    no others, each as often as the table holds it, newest first;
    [count] is what [countByUserId] counts, and no element carries the
    API key or the container identifier of its row. *)
Theorem list_route_lists_own_rows (d : db) (userId : string) :
  exists rows,
    WorkspaceCrud.list_route d userId
    = json 200 [ ("workspaces", JArr (List.map WorkspaceCrud.sanitized rows));
                 ("count", JNum (WorkspaceModel.countByUserId d userId)) ]
    /\ Permutation rows
         (List.filter (fun w => String.eqb (ws_user_id w) userId) (workspaces d))
    /\ (forall w, In w rows <-> In w (workspaces d) /\ ws_user_id w = userId)
    /\ StronglySorted (fun a b => ws_created_at b <= ws_created_at a) rows
    /\ (forall w, get_prop (WorkspaceCrud.sanitized w) "apiKey" = JUndefined
                  /\ get_prop (WorkspaceCrud.sanitized w) "containerId" = JUndefined).
Proof.
  exists (WorkspaceModel.findByUserId d (Some userId)).
  pose proof (findByUserId_filter d userId) as Hperm.
  split; [|split; [exact Hperm|split; [|split]]].
  - unfold WorkspaceCrud.list_route, WorkspaceModel.countByUserId.
    rewrite List.length_map. now rewrite (Permutation_length Hperm).
  - intros w. split.
    + intros Hw. apply (Permutation_in _ Hperm) in Hw.
      apply List.filter_In in Hw as [Hin Heq]. now apply string_eqb_true in Heq.
    + intros [Hin Heq]. apply (Permutation_in _ (Permutation_sym Hperm)).
      apply List.filter_In. split; [exact Hin|]. now apply string_eqb_true.
  - apply order_by_desc_sorted.
  - intros w. split; reflexivity.
Qed.

(** ** Creating a workspace *)

Section WorkspaceCreateProps.
Context {E : Type} `{DockerEngine E} `{Limits} `{Config} `{Validators}.

Lemma workspace_create_Ok (d d' : db) (env : environment) (userId name : string)
    (cpuLimit memoryLimit : option string) (row : workspace) :
  WorkspaceModel.create d env userId name cpuLimit memoryLimit = Ok (d', row) ->
  d' = WorkspaceModel.set_workspaces d (workspaces d ++ [row])
  /\ ws_id row = fresh_uuid env
  /\ ws_user_id row = userId
  /\ ws_name row = name
  /\ ws_api_key row = fresh_api_key env
  /\ ws_container_id row = None
  /\ ws_container_status row = "stopped"
  /\ ws_created_at row = now env
  /\ (forall w, In w (workspaces d) ->
        ws_id w <> ws_id row
        /\ ws_api_key w <> ws_api_key row
        /\ (ws_user_id w, ws_name w) <> (ws_user_id row, ws_name row)).
Proof.
  unfold WorkspaceModel.create.
  match goal with |- context [existsb ?f ?l] => destruct (existsb f l) eqn:Hclash end;
    [discriminate|].
  intros [= <- <-]. simpl. repeat (split; [reflexivity|]).
  intros w Hw.
  apply not_true_iff_false in Hclash. rewrite existsb_exists in Hclash. simpl in Hclash.
  repeat split; intros Heq; apply Hclash; exists w; (split; [exact Hw|]).
  - rewrite Heq, String.eqb_refl. reflexivity.
  - rewrite Heq, String.eqb_refl. now rewrite !orb_true_r.
  - injection Heq as -> ->. rewrite !String.eqb_refl. simpl. now rewrite orb_true_r.
Qed.

Lemma workspace_create_Throw (d : db) (env : environment) (userId name : string)
    (cpuLimit memoryLimit : option string) (m : string) :
  WorkspaceModel.create d env userId name cpuLimit memoryLimit = Throw m ->
  m = "Workspace name already exists".
Proof.
  unfold WorkspaceModel.create.
  match goal with |- context [existsb ?f ?l] => destruct (existsb f l) end;
    [now intros [= <-] | discriminate].
Qed.

Lemma create_route_cases (env : environment) (st : state E) (userId : string)
    (name cpuLimit memoryLimit : option string) :
  (exists r, Workspaces.create_route env st userId name cpuLimit memoryLimit = (st, r)
             /\ res_status r <> 201)
  \/ (exists d' row,
        Workspaces.create_route env st userId name cpuLimit memoryLimit
        = (mkState d' (st_engine st),
           json 201 [ ("message", JStr "Workspace created successfully");
                      ("workspace",
                        JObj [ ("id", JStr (ws_id row));
                               ("name", JStr (ws_name row));
                               ("apiKey", JStr (ws_api_key row));
                               ("status", JStr (ws_container_status row));
                               ("cpuLimit", JStr (ws_cpu_limit row));
                               ("memoryLimit", JStr (ws_memory_limit row));
                               ("createdAt", JNum (ws_created_at row)) ]) ])
        /\ SubscriptionModel.hasActive (st_db st) (now env) userId = true
        /\ WorkspaceModel.countByUserId (st_db st) userId < Workspaces.maxWorkspaces
        /\ WorkspaceModel.create (st_db st) env userId (default "" name) cpuLimit memoryLimit
           = Ok (d', row)).
Proof.
  unfold Workspaces.create_route.
  destruct (SubscriptionModel.hasActive (st_db st) (now env) userId) eqn:Hactive; simpl;
    [|left; eexists; split; [reflexivity | simpl; lia]].
  destruct (create_body_valid name cpuLimit memoryLimit); simpl;
    [|left; eexists; split; [reflexivity | simpl; lia]].
  destruct (Workspaces.maxWorkspaces <=? WorkspaceModel.countByUserId (st_db st) userId)
    eqn:Hcap; [left; eexists; split; [reflexivity | simpl; lia]|].
  apply Z.leb_gt in Hcap.
  destruct (WorkspaceModel.create (st_db st) env userId (default "" name) cpuLimit memoryLimit)
    as [[d' row]|m] eqn:Hcreate.
  - right. exists d', row. repeat split; assumption.
  - left. destruct (String.eqb m "Workspace name already exists");
      eexists; (split; [reflexivity | simpl; lia]).
Qed.

Lemma countByUserId_snoc (d : db) (row : workspace) (u : string) :
  WorkspaceModel.countByUserId
    (WorkspaceModel.set_workspaces d (workspaces d ++ [row])) u
  = WorkspaceModel.countByUserId d u + (if String.eqb (ws_user_id row) u then 1 else 0).
Proof.
  unfold WorkspaceModel.countByUserId. simpl.
  rewrite List.filter_app, List.length_app. simpl.
  destruct (String.eqb (ws_user_id row) u); simpl; lia.
Qed.

(** X10. [POST /api/workspaces] changes the state only when it
    answers 201, and then: the caller is entitled and was below the
    cap, the engine and the subscription tables are untouched, and
    exactly one row is appended, owned by the caller, stopped, without
    container, found again by its identifier and by its API key, the
    key being the one the answer shows. *)
Theorem create_route_adds_one_row (env : environment) (st st' : state E) (userId : string)
    (name cpuLimit memoryLimit : option string) (r : response) :
  Workspaces.create_route env st userId name cpuLimit memoryLimit = (st', r) ->
  (res_status r <> 201 -> st' = st)
  /\ (res_status r = 201 ->
      Props.entitled (st_db st) (now env) userId
      /\ WorkspaceModel.countByUserId (st_db st) userId < Workspaces.maxWorkspaces
      /\ st_engine st' = st_engine st
      /\ subscriptions (st_db st') = subscriptions (st_db st)
      /\ payment_events (st_db st') = payment_events (st_db st)
      /\ exists row,
           workspaces (st_db st') = (workspaces (st_db st) ++ [row])%list
           /\ ws_user_id row = userId
           /\ ws_name row = default "" name
           /\ ws_container_id row = None
           /\ ws_container_status row = "stopped"
           /\ WorkspaceModel.findById (st_db st') (ws_id row) = Some row
           /\ WorkspaceModel.findByApiKey (st_db st') (ws_api_key row) = Some row
           /\ WorkspaceModel.isOwner (st_db st') (ws_id row) userId = true
           /\ get_prop (get_prop (res_body r) "workspace") "apiKey" = JStr (ws_api_key row)).
Proof.
  intros Hroute.
  destruct (create_route_cases env st userId name cpuLimit memoryLimit)
    as [(r0 & Heq & Hstatus) | (d' & row & Heq & Hactive & Hcap & Hcreate)];
    rewrite Heq in Hroute; injection Hroute as <- <-.
  - split; [reflexivity | contradiction].
  - split; [simpl; lia | intros _].
    apply workspace_create_Ok in Hcreate
      as (-> & Hid & Huser & Hname & Hkey & Hcontainer & Hstatus & _ & Hfresh).
    split; [now apply hasActive_entitled|].
    split; [exact Hcap|]. repeat (split; [reflexivity|]).
    exists row. simpl. repeat (split; [first [reflexivity | assumption]|]).
    split; [|split; [|split]].
    + unfold WorkspaceModel.findById. simpl. apply find_app_fresh.
      * intros w Hw. apply string_eqb_false. now apply Hfresh.
      * apply String.eqb_refl.
    + unfold WorkspaceModel.findByApiKey. simpl. apply find_app_fresh.
      * intros w Hw. apply string_eqb_false. now apply Hfresh.
      * apply String.eqb_refl.
    + unfold WorkspaceModel.isOwner. simpl. rewrite existsb_app. simpl.
      rewrite Huser, !String.eqb_refl. simpl. now rewrite orb_true_r.
    + reflexivity.
Qed.

(** X11. [POST /api/workspaces] keeps the unique keys of the table
    (identifier, API key, name per user) and takes no user's number of
    workspaces above the cap: each count stays at or below the larger
    of its former value and [maxWorkspaces]. *)
Theorem create_route_keeps_keys_and_cap (env : environment) (st : state E) (userId : string)
    (name cpuLimit memoryLimit : option string) :
  List.NoDup (List.map ws_id (workspaces (st_db st))) ->
  List.NoDup (List.map ws_api_key (workspaces (st_db st))) ->
  List.NoDup (List.map (fun w => (ws_user_id w, ws_name w)) (workspaces (st_db st))) ->
  List.NoDup (List.map ws_id
    (workspaces (st_db (fst (Workspaces.create_route env st userId name cpuLimit memoryLimit)))))
  /\ List.NoDup (List.map ws_api_key
    (workspaces (st_db (fst (Workspaces.create_route env st userId name cpuLimit memoryLimit)))))
  /\ List.NoDup (List.map (fun w => (ws_user_id w, ws_name w))
    (workspaces (st_db (fst (Workspaces.create_route env st userId name cpuLimit memoryLimit)))))
  /\ (forall u,
        WorkspaceModel.countByUserId
          (st_db (fst (Workspaces.create_route env st userId name cpuLimit memoryLimit))) u
        <= Z.max (WorkspaceModel.countByUserId (st_db st) u) Workspaces.maxWorkspaces).
Proof.
  intros Hids Hkeys Hnames.
  destruct (create_route_cases env st userId name cpuLimit memoryLimit)
    as [(r0 & Heq & Hstatus) | (d' & row & Heq & Hactive & Hcap & Hcreate)];
    rewrite Heq; simpl.
  - repeat (split; [assumption|]). intros u. lia.
  - apply workspace_create_Ok in Hcreate
      as (-> & Hid & Huser & Hname & Hkey & Hcontainer & Hstatus & _ & Hfresh).
    simpl. rewrite !List.map_app. simpl.
    split; [|split; [|split]].
    + apply NoDup_snoc; [exact Hids|]. intros Hin.
      apply List.in_map_iff in Hin as (w & Heq' & Hw).
      destruct (Hfresh w Hw) as (Hi & Hk & Hn). contradiction.
    + apply NoDup_snoc; [exact Hkeys|]. intros Hin.
      apply List.in_map_iff in Hin as (w & Heq' & Hw).
      destruct (Hfresh w Hw) as (Hi & Hk & Hn). contradiction.
    + apply NoDup_snoc; [exact Hnames|]. intros Hin.
      apply List.in_map_iff in Hin as (w & Heq' & Hw).
      destruct (Hfresh w Hw) as (Hi & Hk & Hn). contradiction.
    + intros u. rewrite countByUserId_snoc.
      destruct (String.eqb (ws_user_id row) u) eqn:Hu; [|lia].
      apply string_eqb_true in Hu. subst u. rewrite Huser. lia.
Qed.

End WorkspaceCreateProps.

Lemma create_route_adds_one_row_witness :
  exists row,
    workspaces (st_db (fst (Workspaces.create_route Sim.env1 Sim.st_stopped "u1"
                              (Some "demo") None None)))
    = [Sim.ws1 "stopped" (Some "c1"); row]
    /\ ws_name row = "demo"
    /\ ws_container_status row = "stopped".
Proof.
  assert (Hrun : Workspaces.create_route Sim.env1 Sim.st_stopped "u1" (Some "demo") None None
                 = (fst (Workspaces.create_route Sim.env1 Sim.st_stopped "u1"
                           (Some "demo") None None),
                    snd (Workspaces.create_route Sim.env1 Sim.st_stopped "u1"
                           (Some "demo") None None)))
    by (vm_compute; reflexivity).
  destruct (create_route_adds_one_row _ _ _ _ _ _ _ _ Hrun) as [_ Hcreated].
  destruct (Hcreated eq_refl)
    as (_ & _ & _ & _ & _ & row & Hrows & _ & Hname & _ & Hstatus & _).
  exists row. split; [exact Hrows|]. split; [exact Hname | exact Hstatus].
Defined.

Lemma create_route_keeps_keys_and_cap_witness :
  WorkspaceModel.countByUserId
    (st_db (fst (Workspaces.create_route Sim.env1 Sim.st_stopped "u1" (Some "demo") None None)))
    "u1"
  <= Z.max (WorkspaceModel.countByUserId (st_db Sim.st_stopped) "u1") Workspaces.maxWorkspaces.
Proof.
  assert (Hone : forall (A : Type) (x : A), List.NoDup [x])
    by (intros A x; constructor; [simpl; tauto | constructor]).
  destruct (create_route_keeps_keys_and_cap Sim.env1 Sim.st_stopped "u1" (Some "demo") None None
              (Hone _ _) (Hone _ _) (Hone _ _)) as (_ & _ & _ & Hcap).
  apply Hcap.
Defined.

(** ** Updating a workspace row *)

Lemma same_workspace_refl (id : string) (w : workspace) : Frames.same_workspace id w w.
Proof. unfold Frames.same_workspace. tauto. Qed.

Lemma same_workspace_trans (id : string) (a b c : workspace) :
  Frames.same_workspace id a b -> Frames.same_workspace id b c -> Frames.same_workspace id a c.
Proof.
  unfold Frames.same_workspace.
  intros (Hi & Hu & Hn & Hk & Hc & Hm & Ht & Ho) (Hi' & Hu' & Hn' & Hk' & Hc' & Hm' & Ht' & Ho').
  repeat (split; [congruence|]).
  intros Hne. rewrite Ho'; [now apply Ho|]. rewrite Hi. exact Hne.
Qed.

Lemma Forall2_same_workspace_refl (id : string) (l : list workspace) :
  Forall2 (Frames.same_workspace id) l l.
Proof. induction l; constructor; [apply same_workspace_refl | assumption]. Qed.

Lemma Forall2_same_workspace_trans (id : string) (l1 l2 l3 : list workspace) :
  Forall2 (Frames.same_workspace id) l1 l2 ->
  Forall2 (Frames.same_workspace id) l2 l3 ->
  Forall2 (Frames.same_workspace id) l1 l3.
Proof.
  intros H12. revert l3. induction H12 as [|a b l1 l2 Hab _ IH]; intros l3 H23.
  - inversion H23. constructor.
  - inversion H23 as [|? c ? l3' Hbc H23']; subst. constructor.
    + exact (same_workspace_trans id a b c Hab Hbc).
    + now apply IH.
Qed.

Lemma workspaces_kept_refl (id : string) (d : db) : Frames.workspaces_kept id d d.
Proof. repeat split. apply Forall2_same_workspace_refl. Qed.

Lemma workspaces_kept_trans (id : string) (d1 d2 d3 : db) :
  Frames.workspaces_kept id d1 d2 -> Frames.workspaces_kept id d2 d3 ->
  Frames.workspaces_kept id d1 d3.
Proof.
  intros (Hs & Hp & Hw) (Hs' & Hp' & Hw').
  repeat split; [congruence | congruence |].
  exact (Forall2_same_workspace_trans id _ _ _ Hw Hw').
Qed.

Lemma findById_Some (d : db) (id : string) (w : workspace) :
  WorkspaceModel.findById d id = Some w -> In w (workspaces d) /\ ws_id w = id.
Proof.
  unfold WorkspaceModel.findById. intros Hfind. apply List.find_some in Hfind as [Hin Heq].
  split; [exact Hin | now apply string_eqb_true].
Qed.

(** [UPDATE ... WHERE id = $n] on a row that is there: the row found
    by the identifier afterwards is the updated one. *)
Lemma update_by_id_found (d : db) (id : string) (f : workspace -> workspace) (w : workspace) :
  (forall x, Frames.same_workspace (ws_id x) x (f x)) ->
  WorkspaceModel.findById d id = Some w ->
  exists d',
    WorkspaceModel.update_by_id d id f = Ok d'
    /\ WorkspaceModel.findById d' id = Some (f w)
    /\ Frames.workspaces_kept id d d'.
Proof.
  intros Hf Hfind. unfold WorkspaceModel.update_by_id.
  assert (Hex : existsb (fun x => String.eqb (ws_id x) id) (workspaces d) = true).
  { apply findById_Some in Hfind as [Hin Heq]. apply existsb_exists. exists w.
    split; [exact Hin | now apply string_eqb_true]. }
  rewrite Hex. eexists. split; [reflexivity|].
  unfold WorkspaceModel.findById, Frames.workspaces_kept in *. simpl.
  split; [|split; [reflexivity|split; [reflexivity|]]].
  - clear Hex. induction (workspaces d) as [|x l IH]; simpl in *; [discriminate|].
    destruct (String.eqb (ws_id x) id) eqn:Hx.
    + injection Hfind as <-. destruct (Hf x) as (Hid & _).
      rewrite Hid, Hx. reflexivity.
    + rewrite Hx. now apply IH.
  - clear Hfind Hex. induction (workspaces d) as [|x l IH]; simpl; constructor; [|exact IH].
    destruct (String.eqb (ws_id x) id) eqn:Hx.
    + apply string_eqb_true in Hx. subst id. apply Hf.
    + apply same_workspace_refl.
Qed.

Lemma updateStatus_found (d : db) (t : Z) (id status : string) (w : workspace) :
  WorkspaceModel.findById d id = Some w ->
  exists d' w',
    WorkspaceModel.updateStatus d t id status = Ok d'
    /\ WorkspaceModel.findById d' id = Some w'
    /\ ws_container_status w' = status
    /\ ws_container_id w' = ws_container_id w
    /\ ws_last_started_at w'
       = (if String.eqb status "running" then Some t else ws_last_started_at w)
    /\ Frames.workspaces_kept id d d'.
Proof.
  intros Hfind. unfold WorkspaceModel.updateStatus.
  match goal with |- context [WorkspaceModel.update_by_id d id ?f] =>
    destruct (update_by_id_found d id f w) as (d' & Hupd & Hfind' & Hkept);
      [|exact Hfind|]
  end.
  - intros x. unfold Frames.same_workspace. simpl. tauto.
  - exists d'. eexists. split; [exact Hupd|]. split; [exact Hfind'|].
    simpl. repeat (split; [reflexivity|]). exact Hkept.
Qed.

Lemma updateContainer_found (d : db) (t : Z) (id containerId status : string)
    (w : workspace) :
  WorkspaceModel.findById d id = Some w ->
  exists d' w',
    WorkspaceModel.updateContainer d t id containerId status = Ok d'
    /\ WorkspaceModel.findById d' id = Some w'
    /\ ws_container_status w' = status
    /\ ws_container_id w' = Some containerId
    /\ Frames.workspaces_kept id d d'.
Proof.
  intros Hfind. unfold WorkspaceModel.updateContainer.
  match goal with |- context [WorkspaceModel.update_by_id d id ?f] =>
    destruct (update_by_id_found d id f w) as (d' & Hupd & Hfind' & Hkept);
      [|exact Hfind|]
  end.
  - intros x. unfold Frames.same_workspace. simpl. tauto.
  - exists d'. eexists. split; [exact Hupd|]. split; [exact Hfind'|].
    simpl. repeat (split; [reflexivity|]). exact Hkept.
Qed.

(** ** Starting and stopping a workspace *)

Section WorkspaceLifecycleProps.
Context {E : Type} `{DockerEngine E} `{Limits} `{Config} `{Validators} {U : UuidColumn}.

Lemma start_failed_outcome (env : environment) (d : db) (eng : E) (id message : string)
    (w : workspace) :
  WorkspaceModel.findById d id = Some w ->
  exists d' w',
    Workspaces.start_failed env d eng id message = (mkState d' eng, errorHandler message)
    /\ WorkspaceModel.findById d' id = Some w'
    /\ ws_container_status w' = "error"
    /\ Frames.workspaces_kept id d d'.
Proof.
  intros Hfind.
  destruct (updateStatus_found d (now env) id "error" w Hfind)
    as (d' & w' & Hupd & Hfind' & Hstatus & _ & _ & Hkept).
  exists d', w'. unfold Workspaces.start_failed. rewrite Hupd. auto.
Qed.

Lemma start_existing_outcome (env : environment) (d : db) (eng : E) (id containerId : string)
    (w : workspace) :
  WorkspaceModel.findById d id = Some w ->
  ws_container_id w = Some containerId ->
  exists d' eng' r w',
    Workspaces.start_existing env d eng id containerId = (mkState d' eng', r)
    /\ WorkspaceModel.findById d' id = Some w'
    /\ Frames.workspaces_kept id d d'
    /\ ((res_status r = 200
         /\ ws_container_status w' = "running"
         /\ ws_container_id w' = Some containerId
         /\ ws_last_started_at w' = Some (now env)
         /\ get_prop (get_prop (res_body r) "workspace") "containerId" = JStr containerId)
        \/ (res_status r = 500 /\ ws_container_status w' = "error")).
Proof.
  intros Hfind Hcontainer. unfold Workspaces.start_existing.
  destruct (startContainer eng containerId) as [eng1 [ok|m]].
  - destruct (updateStatus_found d (now env) id "running" w Hfind)
      as (d' & w' & Hupd & Hfind' & Hstatus & Hsame & Hstarted & Hkept).
    rewrite Hupd. exists d', eng1. eexists. exists w'.
    split; [reflexivity|]. split; [exact Hfind'|]. split; [exact Hkept|].
    left. simpl. rewrite Hsame. auto.
  - destruct (start_failed_outcome env d eng1 id m w Hfind)
      as (d' & w' & Hfailed & Hfind' & Hstatus & Hkept).
    rewrite Hfailed. exists d', eng1. eexists. exists w'.
    split; [reflexivity|]. split; [exact Hfind'|]. split; [exact Hkept|].
    right. simpl. auto.
Qed.

Lemma start_handler_outcome (env : environment) (st st' : state E) (id : string)
    (r : response) :
  Workspaces.start_handler env st id = (st', r) ->
  Frames.workspaces_kept id (st_db st) (st_db st')
  /\ (res_status r = 200 ->
      exists w', WorkspaceModel.findById (st_db st') id = Some w'
                 /\ ws_container_status w' = "running"
                 /\ get_prop (get_prop (res_body r) "workspace") "containerId"
                    = SubscriptionModel.opt_str (ws_container_id w'))
  /\ (res_status r = 500 ->
      exists w', WorkspaceModel.findById (st_db st') id = Some w'
                 /\ ws_container_status w' = "error")
  /\ (res_status r <> 200 -> res_status r <> 500 -> st' = st).
Proof.
  unfold Workspaces.start_handler.
  destruct (isUUID id); simpl.
  2:{ intros [= <- <-]. split; [apply workspaces_kept_refl|]. simpl.
      repeat split; intros; try discriminate; reflexivity. }
  destruct (WorkspaceModel.findById (st_db st) id) as [w|] eqn:Hfind.
  2:{ intros [= <- <-]. split; [apply workspaces_kept_refl|]. simpl.
      repeat split; intros; try discriminate; reflexivity. }
  destruct (findById_Some _ _ _ Hfind) as [Hin Hid]. rewrite Hid.
  destruct (String.eqb (ws_container_status w) "running") eqn:Hrunning.
  { intros [= <- <-]. split; [apply workspaces_kept_refl|]. simpl.
    split; [|split; [discriminate | congruence]].
    intros _. exists w. apply string_eqb_true in Hrunning. auto. }
  destruct (truthy_str (ws_container_id w)) eqn:Htruthy.
  - destruct (ws_container_id w) as [containerId|] eqn:Hcontainer; [|discriminate].
    simpl. destruct st as [d eng]. simpl in *.
    destruct (start_existing_outcome env d eng id containerId w Hfind Hcontainer)
      as (d' & eng' & r' & w' & Hstart & Hfind' & Hkept & Hout).
    rewrite Hstart. intros [= <- <-]. simpl. split; [exact Hkept|].
    destruct Hout as [(Hcode & Hstatus & Hc & _ & Hshown) | (Hcode & Hstatus)].
    + split; [|split; [lia | congruence]].
      intros _. exists w'. rewrite Hc. auto.
    + split; [lia|]. split; [|congruence]. intros _. exists w'. auto.
  - destruct st as [d eng]. simpl in *.
    destruct (updateStatus_found d (now env) id "creating" w Hfind)
      as (d1 & w1 & Hupd1 & Hfind1 & _ & _ & _ & Hkept1).
    rewrite Hupd1.
    destruct (createContainer eng id (ws_cpu_limit w) (ws_memory_limit w))
      as [eng1 [containerId|m]].
    + destruct (updateContainer_found d1 (now env) id containerId "stopped" w1 Hfind1)
        as (d2 & w2 & Hupd2 & Hfind2 & _ & Hcontainer2 & Hkept2).
      rewrite Hupd2.
      destruct (start_existing_outcome env d2 eng1 id containerId w2 Hfind2 Hcontainer2)
        as (d' & eng' & r' & w' & Hstart & Hfind' & Hkept & Hout).
      rewrite Hstart. intros [= <- <-]. simpl.
      split; [exact (workspaces_kept_trans id _ _ _ Hkept1
                       (workspaces_kept_trans id _ _ _ Hkept2 Hkept))|].
      destruct Hout as [(Hcode & Hstatus & Hc & _ & Hshown) | (Hcode & Hstatus)].
      * split; [|split; [lia | congruence]].
        intros _. exists w'. rewrite Hc. auto.
      * split; [lia|]. split; [|congruence]. intros _. exists w'. auto.
    + destruct (start_failed_outcome env d1 eng1 id m w1 Hfind1)
        as (d' & w' & Hfailed & Hfind' & Hstatus & Hkept).
      rewrite Hfailed. intros [= <- <-]. simpl.
      split; [exact (workspaces_kept_trans id _ _ _ Hkept1 Hkept)|].
      split; [discriminate|]. split; [|congruence]. intros _. exists w'. auto.
Qed.

(** X12. What [POST /api/workspaces/:id/start] does to the state, by
    the status of its answer.  Whatever the answer, the subscription
    tables are untouched and the workspaces stay the same rows, those
    with another identifier unchanged.  On 200 the caller owns the
    workspace and is entitled, the row is recorded as running and the
    answer shows the container recorded for it; on 500 the row is
    recorded as in error; on every other answer nothing changed. *)
Theorem start_route_outcome (env : environment) (st st' : state E) (userId id : string)
    (r : response) :
  Workspaces.start_route env st userId id = (st', r) ->
  Frames.workspaces_kept id (st_db st) (st_db st')
  /\ (res_status r = 200 ->
      WorkspaceModel.isOwner (st_db st) id userId = true
      /\ Props.entitled (st_db st) (now env) userId
      /\ exists w', WorkspaceModel.findById (st_db st') id = Some w'
                    /\ ws_container_status w' = "running"
                    /\ get_prop (get_prop (res_body r) "workspace") "containerId"
                       = SubscriptionModel.opt_str (ws_container_id w'))
  /\ (res_status r = 500 ->
      exists w', WorkspaceModel.findById (st_db st') id = Some w'
                 /\ ws_container_status w' = "error")
  /\ (res_status r <> 200 -> res_status r <> 500 -> st' = st).
Proof.
  unfold Workspaces.start_route, Workspaces.lifecycle_chain, Workspaces.checkOwnership,
    WorkspaceModel.isOwner_query.
  destruct (uuid_in id); simpl.
  2:{ intros [= <- <-]. split; [apply workspaces_kept_refl|]. simpl.
      repeat split; intros; try discriminate; reflexivity. }
  destruct (WorkspaceModel.isOwner (st_db st) id userId) eqn:Howner; simpl.
  2:{ intros [= <- <-]. split; [apply workspaces_kept_refl|]. simpl.
      repeat split; intros; try discriminate; reflexivity. }
  destruct (SubscriptionModel.hasActive (st_db st) (now env) userId) eqn:Hactive; simpl.
  2:{ intros [= <- <-]. split; [apply workspaces_kept_refl|]. simpl.
      repeat split; intros; try discriminate; reflexivity. }
  destruct (limiter_admits env); simpl.
  2:{ intros [= <- <-]. split; [apply workspaces_kept_refl|]. simpl.
      repeat split; intros; try discriminate; reflexivity. }
  intros Hhandler.
  destruct (start_handler_outcome env st st' id r Hhandler) as (Hkept & H200 & H500 & Hother).
  split; [exact Hkept|]. split; [|split; assumption].
  intros Hcode. split; [reflexivity|]. split; [now apply hasActive_entitled|]. now apply H200.
Qed.

(** X13. What [POST /api/workspaces/:id/stop] does to the state, by
    the status of its answer: on 200 the caller owns the workspace and
    is entitled, and the row, which has a container, is recorded as
    stopped; on every other answer the database is as it was (the
    engine may have been asked to stop the container).  The workspaces
    stay the same rows, those with another identifier unchanged. *)
Theorem stop_route_outcome (env : environment) (st st' : state E) (userId id : string)
    (r : response) :
  Workspaces.stop_route env st userId id = (st', r) ->
  Frames.workspaces_kept id (st_db st) (st_db st')
  /\ (res_status r = 200 ->
      WorkspaceModel.isOwner (st_db st) id userId = true
      /\ Props.entitled (st_db st) (now env) userId
      /\ exists w', WorkspaceModel.findById (st_db st') id = Some w'
                    /\ ws_container_status w' = "stopped"
                    /\ truthy_str (ws_container_id w') = true)
  /\ (res_status r <> 200 -> st_db st' = st_db st).
Proof.
  unfold Workspaces.stop_route, Workspaces.lifecycle_chain, Workspaces.checkOwnership,
    WorkspaceModel.isOwner_query.
  destruct (uuid_in id); simpl.
  2:{ intros [= <- <-]. split; [apply workspaces_kept_refl|]. simpl.
      split; intros; [discriminate | reflexivity]. }
  destruct (WorkspaceModel.isOwner (st_db st) id userId) eqn:Howner; simpl.
  2:{ intros [= <- <-]. split; [apply workspaces_kept_refl|]. simpl.
      split; intros; [discriminate | reflexivity]. }
  destruct (SubscriptionModel.hasActive (st_db st) (now env) userId) eqn:Hactive; simpl.
  2:{ intros [= <- <-]. split; [apply workspaces_kept_refl|]. simpl.
      split; intros; [discriminate | reflexivity]. }
  apply hasActive_entitled in Hactive.
  destruct (limiter_admits env); simpl.
  2:{ intros [= <- <-]. split; [apply workspaces_kept_refl|]. simpl.
      split; intros; [discriminate | reflexivity]. }
  unfold Workspaces.stop_handler.
  destruct (isUUID id); simpl.
  2:{ intros [= <- <-]. split; [apply workspaces_kept_refl|]. simpl.
      split; intros; [discriminate | reflexivity]. }
  destruct (WorkspaceModel.findById (st_db st) id) as [w|] eqn:Hfind.
  2:{ intros [= <- <-]. split; [apply workspaces_kept_refl|]. simpl.
      split; intros; [discriminate | reflexivity]. }
  destruct (findById_Some _ _ _ Hfind) as [Hin Hid]. rewrite Hid.
  destruct (truthy_str (ws_container_id w)) eqn:Htruthy; simpl.
  2:{ intros [= <- <-]. split; [apply workspaces_kept_refl|]. simpl.
      split; intros; [discriminate | reflexivity]. }
  destruct (String.eqb (ws_container_status w) "stopped") eqn:Hstopped.
  { intros [= <- <-]. split; [apply workspaces_kept_refl|]. simpl.
    split; [|congruence]. intros _. split; [reflexivity|]. split; [exact Hactive|].
    exists w. apply string_eqb_true in Hstopped. auto. }
  destruct (stopContainer (st_engine st) (default "" (ws_container_id w))) as [eng1 [ok|m]].
  - destruct (updateStatus_found (st_db st) (now env) id "stopped" w Hfind)
      as (d' & w' & Hupd & Hfind' & Hstatus & Hsame & _ & Hkept).
    rewrite Hupd. intros [= <- <-]. simpl. split; [exact Hkept|].
    split; [|congruence]. intros _. split; [reflexivity|]. split; [exact Hactive|].
    exists w'. rewrite Hsame. auto.
  - intros [= <- <-]. simpl. split; [apply workspaces_kept_refl|].
    split; [discriminate | reflexivity].
Qed.

End WorkspaceLifecycleProps.

Lemma start_route_outcome_witness :
  exists w',
    WorkspaceModel.findById
      (st_db (fst (Workspaces.start_route Sim.env1 Sim.st_never_created "u1" Sim.wsid)))
      Sim.wsid = Some w'
    /\ ws_container_status w' = "running".
Proof.
  assert (Hrun : Workspaces.start_route Sim.env1 Sim.st_never_created "u1" Sim.wsid
                 = (fst (Workspaces.start_route Sim.env1 Sim.st_never_created "u1" Sim.wsid),
                    snd (Workspaces.start_route Sim.env1 Sim.st_never_created "u1" Sim.wsid)))
    by (vm_compute; reflexivity).
  destruct (start_route_outcome _ _ _ _ _ _ Hrun) as (_ & Hstarted & _).
  destruct (Hstarted eq_refl) as (_ & _ & w' & Hfind & Hstatus & _).
  exists w'. split; [exact Hfind | exact Hstatus].
Defined.

Lemma stop_route_outcome_witness :
  exists w',
    WorkspaceModel.findById
      (st_db (fst (Workspaces.stop_route Sim.env1 Sim.st_running "u1" Sim.wsid)))
      Sim.wsid = Some w'
    /\ ws_container_status w' = "stopped".
Proof.
  assert (Hrun : Workspaces.stop_route Sim.env1 Sim.st_running "u1" Sim.wsid
                 = (fst (Workspaces.stop_route Sim.env1 Sim.st_running "u1" Sim.wsid),
                    snd (Workspaces.stop_route Sim.env1 Sim.st_running "u1" Sim.wsid)))
    by (vm_compute; reflexivity).
  destruct (stop_route_outcome _ _ _ _ _ _ Hrun) as (_ & Hstopped & _).
  destruct (Hstopped eq_refl) as (_ & _ & w' & Hfind & Hstatus & _).
  exists w'. split; [exact Hfind | exact Hstatus].
Defined.

(** ** Reading and deleting a workspace; the ownership check *)

Lemma isOwner_spec (d : db) (id userId : string) :
  WorkspaceModel.isOwner d id userId = true
  <-> exists w, In w (workspaces d) /\ ws_id w = id /\ ws_user_id w = userId.
Proof.
  unfold WorkspaceModel.isOwner. rewrite existsb_exists. split.
  - intros (w & Hin & Hw). apply andb_true_iff in Hw as [Hid Hu].
    exists w. split; [exact Hin|]. split; now apply string_eqb_true.
  - intros (w & Hin & <- & <-). exists w. split; [exact Hin|].
    now rewrite !String.eqb_refl.
Qed.

Lemma isOwner_strangers (d : db) (id userId : string) :
  (forall w, In w (workspaces d) -> ws_id w = id -> ws_user_id w <> userId) ->
  WorkspaceModel.isOwner d id userId = false.
Proof.
  intros Hnone. apply not_true_iff_false. intros Howner.
  apply isOwner_spec in Howner as (w & Hin & Hid & Hu). exact (Hnone w Hin Hid Hu).
Qed.

Lemma isOwner_findById (d : db) (id userId : string) :
  WorkspaceModel.isOwner d id userId = true ->
  exists w, WorkspaceModel.findById d id = Some w.
Proof.
  intros Howner. apply isOwner_spec in Howner as (w & Hin & Hid & _).
  unfold WorkspaceModel.findById.
  destruct (List.find (fun x => String.eqb (ws_id x) id) (workspaces d)) as [x|] eqn:Hfind;
    [now exists x|].
  apply (List.find_none _ _ Hfind) in Hin. apply string_eqb_false in Hin. contradiction.
Qed.

Lemma unique_workspace_id (l : list workspace) (a b : workspace) :
  List.NoDup (List.map ws_id l) -> In a l -> In b l -> ws_id a = ws_id b -> a = b.
Proof.
  induction l as [|x l IH]; simpl; [tauto|].
  intros Hnd [-> | Ha] [-> | Hb] Heq; inversion Hnd as [|? ? Hx Hl]; subst.
  - reflexivity.
  - exfalso. apply Hx. rewrite Heq. now apply List.in_map.
  - exfalso. apply Hx. rewrite <- Heq. now apply List.in_map.
  - now apply IH.
Qed.

Section WorkspaceCrudProps.
Context {E : Type} `{DockerEngine E} `{Limits} `{Config} `{Validators} {U : UuidColumn}.

(** X14. [GET /api/workspaces/:id] for a well-formed identifier, the
    identifiers in the table being unique: either a row with this
    identifier belongs to the caller, and the answer is 200 and shows
    the API key of that row; or no row with this identifier belongs to
    the caller, and the answer is the 403 of the ownership check,
    whether or not the workspace exists.  (The 404 of the handler is
    never reached.) *)
Theorem get_route_shows_own_workspace (d : db) (userId id : string) :
  List.NoDup (List.map ws_id (workspaces d)) ->
  isUUID id = true ->
  (exists w, In w (workspaces d) /\ ws_id w = id /\ ws_user_id w = userId
             /\ res_status (WorkspaceCrud.get_route d userId id) = 200
             /\ get_prop (get_prop (res_body (WorkspaceCrud.get_route d userId id)) "workspace")
                         "apiKey" = JStr (ws_api_key w))
  \/ ((forall w, In w (workspaces d) -> ws_id w = id -> ws_user_id w <> userId)
      /\ WorkspaceCrud.get_route d userId id = Workspaces.access_denied).
Proof.
  intros Hnd Huuid. unfold WorkspaceCrud.get_route.
  rewrite (checkOwnership_uuid _ _ _ _ _ (uuid_in_isUUID id Huuid)).
  destruct (WorkspaceModel.isOwner d id userId) eqn:Howner; simpl.
  - left. rewrite Huuid. simpl.
    destruct (isOwner_findById d id userId Howner) as [x Hfind]. rewrite Hfind.
    apply isOwner_spec in Howner as (w & Hin & Hid & Hu).
    destruct (findById_Some d id x Hfind) as [Hinx Hidx].
    assert (x = w) as -> by (apply (unique_workspace_id (workspaces d)); congruence).
    exists w. repeat (split; [assumption|]). split; reflexivity.
  - right. split; [|reflexivity]. intros w Hin Hid Hu.
    assert (WorkspaceModel.isOwner d id userId = true) by (apply isOwner_spec; eauto).
    congruence.
Qed.

Lemma deleteWorkspace_found (d : db) (id : string) (w : workspace) :
  WorkspaceModel.findById d id = Some w ->
  WorkspaceCrud.deleteWorkspace d id
  = Ok (WorkspaceModel.set_workspaces d
          (List.filter (fun x => negb (String.eqb (ws_id x) id)) (workspaces d))).
Proof.
  intros Hfind. unfold WorkspaceCrud.deleteWorkspace.
  assert (Hex : existsb (fun x => String.eqb (ws_id x) id) (workspaces d) = true).
  { apply findById_Some in Hfind as [Hin Heq]. apply existsb_exists. exists w.
    split; [exact Hin | now apply string_eqb_true]. }
  now rewrite Hex.
Qed.

Lemma find_filter_negb {A} (p : A -> bool) (l : list A) :
  List.find p (List.filter (fun x => negb (p x)) l) = None.
Proof.
  induction l as [|x l IH]; simpl; [reflexivity|].
  destruct (p x) eqn:Hp; simpl; [exact IH | now rewrite Hp].
Qed.

(** X15. What [DELETE /api/workspaces/:id] does to the state: the
    subscription tables are never touched; on 204 the caller owns the
    workspace, the rows with this identifier are gone and all other
    rows are kept in their order; on every other answer the database
    is as it was. *)
Theorem delete_route_outcome (st st' : state E) (userId id : string) (r : response) :
  WorkspaceCrud.delete_route st userId id = (st', r) ->
  subscriptions (st_db st') = subscriptions (st_db st)
  /\ payment_events (st_db st') = payment_events (st_db st)
  /\ (res_status r = 204 ->
      WorkspaceModel.isOwner (st_db st) id userId = true
      /\ workspaces (st_db st')
         = List.filter (fun w => negb (String.eqb (ws_id w) id)) (workspaces (st_db st))
      /\ WorkspaceModel.findById (st_db st') id = None
      /\ WorkspaceModel.isOwner (st_db st') id userId = false)
  /\ (res_status r <> 204 -> st_db st' = st_db st).
Proof.
  unfold WorkspaceCrud.delete_route, Workspaces.checkOwnership, WorkspaceModel.isOwner_query.
  destruct (uuid_in id); simpl.
  2:{ intros [= <- <-]. simpl. repeat split; intros; try discriminate; reflexivity. }
  destruct (WorkspaceModel.isOwner (st_db st) id userId) eqn:Howner; simpl.
  2:{ intros [= <- <-]. simpl. repeat split; intros; try discriminate; reflexivity. }
  destruct (isUUID id); simpl.
  2:{ intros [= <- <-]. simpl. repeat split; intros; try discriminate; reflexivity. }
  destruct (WorkspaceModel.findById (st_db st) id) as [w|] eqn:Hfind.
  2:{ intros [= <- <-]. simpl. repeat split; intros; try discriminate; reflexivity. }
  destruct (findById_Some _ _ _ Hfind) as [Hin Hid]. rewrite Hid.
  rewrite (deleteWorkspace_found _ _ _ Hfind).
  match goal with |- context [let (_, _) := ?removed in _] =>
    destruct removed as [eng1 [ok|m]] end.
  - intros [= <- <-]. simpl. split; [reflexivity|]. split; [reflexivity|].
    split; [|congruence]. intros _. split; [reflexivity|]. split; [reflexivity|].
    split.
    + unfold WorkspaceModel.findById. simpl.
      apply (find_filter_negb (fun x => String.eqb (ws_id x) id)).
    + apply isOwner_strangers. simpl. intros x Hx Hidx.
      apply List.filter_In in Hx as [_ Hx]. rewrite Hidx, String.eqb_refl in Hx. discriminate.
  - intros [= <- <-]. simpl. repeat split; intros; try discriminate; reflexivity.
Qed.

(** X16. Deleting asks for ownership only.  For a well-formed
    identifier of a workspace of the caller, whatever the caller's
    subscription: when the workspace has no container, or the engine
    removes it or answers 404 for it, the answer is 204. *)
Theorem delete_route_needs_no_subscription (st : state E) (userId id : string)
    (w : workspace) :
  WorkspaceModel.isOwner (st_db st) id userId = true ->
  isUUID id = true ->
  WorkspaceModel.findById (st_db st) id = Some w ->
  (forall containerId eng' e,
      ws_container_id w = Some containerId ->
      container_remove (st_engine st) containerId true = (eng', DockerErr e) ->
      statusCode e = Some 404) ->
  res_status (snd (WorkspaceCrud.delete_route st userId id)) = 204.
Proof.
  intros Howner Huuid Hfind Hengine. unfold WorkspaceCrud.delete_route.
  rewrite (checkOwnership_uuid _ _ _ _ _ (uuid_in_isUUID id Huuid)).
  rewrite Howner, Huuid, Hfind. simpl.
  destruct (findById_Some _ _ _ Hfind) as [Hin Hid]. rewrite Hid.
  rewrite (deleteWorkspace_found _ _ _ Hfind).
  destruct (truthy_str (ws_container_id w)) eqn:Htruthy; [|reflexivity].
  destruct (ws_container_id w) as [containerId|] eqn:Hcontainer; [|discriminate].
  simpl. unfold removeContainer.
  destruct (container_remove (st_engine st) containerId true) as [eng' [u|e]] eqn:Hremove;
    [reflexivity|].
  unfold removeContainer_catch.
  rewrite (has_status_code e 404 (Hengine containerId eng' e eq_refl Hremove)). reflexivity.
Qed.

(** X17. A caller who owns no row with the given (well-formed)
    identifier gets the 403 of the ownership check from the start,
    stop and delete routes, and the state is left as it was: nothing
    is looked up, asked of the engine, or written. *)
Theorem strangers_are_turned_away (env : environment) (st : state E) (userId id : string) :
  isUUID id = true ->
  (forall w, In w (workspaces (st_db st)) -> ws_id w = id -> ws_user_id w <> userId) ->
  Workspaces.start_route env st userId id = (st, Workspaces.access_denied)
  /\ Workspaces.stop_route env st userId id = (st, Workspaces.access_denied)
  /\ WorkspaceCrud.delete_route st userId id = (st, Workspaces.access_denied).
Proof.
  intros Huuid Hnone. apply isOwner_strangers in Hnone.
  unfold Workspaces.start_route, Workspaces.stop_route, Workspaces.lifecycle_chain,
    WorkspaceCrud.delete_route.
  rewrite !(checkOwnership_uuid _ _ _ _ _ (uuid_in_isUUID id Huuid)).
  rewrite Hnone. simpl. auto.
Qed.

End WorkspaceCrudProps.

Lemma get_route_shows_own_workspace_witness :
  (exists w, In w (workspaces (st_db Sim.st_stopped))
             /\ ws_id w = Sim.wsid /\ ws_user_id w = "u1"
             /\ res_status (WorkspaceCrud.get_route (st_db Sim.st_stopped) "u1" Sim.wsid) = 200
             /\ get_prop (get_prop (res_body (WorkspaceCrud.get_route (st_db Sim.st_stopped)
                                                "u1" Sim.wsid)) "workspace") "apiKey"
                = JStr (ws_api_key w))
  \/ ((forall w, In w (workspaces (st_db Sim.st_stopped)) ->
                 ws_id w = Sim.wsid -> ws_user_id w <> "u1")
      /\ WorkspaceCrud.get_route (st_db Sim.st_stopped) "u1" Sim.wsid
         = Workspaces.access_denied).
Proof.
  apply (get_route_shows_own_workspace (st_db Sim.st_stopped) "u1" Sim.wsid).
  - simpl. constructor; [simpl; tauto | constructor].
  - reflexivity.
Defined.

Lemma delete_route_outcome_witness :
  workspaces (st_db (fst (WorkspaceCrud.delete_route Sim.st_stopped "u1" Sim.wsid))) = []
  /\ WorkspaceModel.findById
       (st_db (fst (WorkspaceCrud.delete_route Sim.st_stopped "u1" Sim.wsid))) Sim.wsid = None.
Proof.
  assert (Hrun : WorkspaceCrud.delete_route Sim.st_stopped "u1" Sim.wsid
                 = (fst (WorkspaceCrud.delete_route Sim.st_stopped "u1" Sim.wsid),
                    snd (WorkspaceCrud.delete_route Sim.st_stopped "u1" Sim.wsid)))
    by (vm_compute; reflexivity).
  destruct (delete_route_outcome _ _ _ _ _ Hrun) as (_ & _ & Hdeleted & _).
  destruct (Hdeleted eq_refl) as (_ & Hrows & Hfind & _).
  split; [rewrite Hrows; reflexivity | exact Hfind].
Defined.

Lemma delete_route_needs_no_subscription_witness :
  SubscriptionModel.hasActive (st_db Sim.st_unentitled) (now Sim.env1) "u1" = false
  /\ res_status (snd (WorkspaceCrud.delete_route Sim.st_unentitled "u1" Sim.wsid)) = 204.
Proof.
  split; [reflexivity|].
  apply (delete_route_needs_no_subscription Sim.st_unentitled "u1" Sim.wsid
           (Sim.ws1 "stopped" (Some "c1"))); [reflexivity | reflexivity | reflexivity |].
  intros containerId eng' e [= <-]. vm_compute. discriminate.
Defined.

Lemma strangers_are_turned_away_witness :
  Workspaces.start_route Sim.env1 Sim.st_stopped "u2" Sim.wsid
    = (Sim.st_stopped, Workspaces.access_denied)
  /\ Workspaces.stop_route Sim.env1 Sim.st_stopped "u2" Sim.wsid
     = (Sim.st_stopped, Workspaces.access_denied)
  /\ WorkspaceCrud.delete_route Sim.st_stopped "u2" Sim.wsid
     = (Sim.st_stopped, Workspaces.access_denied).
Proof.
  apply (strangers_are_turned_away Sim.env1 Sim.st_stopped "u2" Sim.wsid); [reflexivity|].
  intros w [<- | []] _. simpl. discriminate.
Defined.

(** ** What a webhook leaves alone *)



Lemma stopped_or_same_refl (w : workspace) : Frames.stopped_or_same w w.
Proof. now left. Qed.

Lemma stopped_or_same_trans (a b c : workspace) :
  Frames.stopped_or_same a b -> Frames.stopped_or_same b c -> Frames.stopped_or_same a c.
Proof.
  intros [-> | [t ->]] [-> | [t' ->]].
  - now left.
  - right. now exists t'.
  - right. now exists t.
  - right. now exists t'.
Qed.

Lemma Forall2_stopped_or_same_refl (l : list workspace) :
  Forall2 Frames.stopped_or_same l l.
Proof. induction l; constructor; [apply stopped_or_same_refl | assumption]. Qed.

Lemma Forall2_stopped_or_same_trans (l1 l2 l3 : list workspace) :
  Forall2 Frames.stopped_or_same l1 l2 ->
  Forall2 Frames.stopped_or_same l2 l3 ->
  Forall2 Frames.stopped_or_same l1 l3.
Proof.
  intros H12. revert l3. induction H12 as [|a b l1 l2 Hab _ IH]; intros l3 H23.
  - inversion H23. constructor.
  - inversion H23 as [|? c ? l3' Hbc H23']; subst. constructor; [|now apply IH].
    exact (stopped_or_same_trans a b c Hab Hbc).
Qed.

Section WebhookFrameProps.
Context {E : Type} `{DockerEngine E}.

Lemma stop_one_workspaces (t : Z) (st : state E) (w : workspace) :
  Forall2 Frames.stopped_or_same (workspaces (st_db st))
    (workspaces (st_db (WebhookHandler.stop_one t st w))).
Proof.
  unfold WebhookHandler.stop_one.
  destruct (ws_container_id w) as [containerId|]; [|apply Forall2_stopped_or_same_refl].
  destruct (truthy_str (Some containerId)); [|apply Forall2_stopped_or_same_refl].
  destruct (stopContainer (st_engine st) containerId) as [eng' [ok|m]]; simpl;
    [|apply Forall2_stopped_or_same_refl].
  unfold WorkspaceModel.updateStatus, WorkspaceModel.update_by_id.
  destruct (existsb _ (workspaces (st_db st))); simpl; [|apply Forall2_stopped_or_same_refl].
  induction (workspaces (st_db st)) as [|x l IH]; simpl; constructor; [|exact IH].
  destruct (String.eqb (ws_id x) (ws_id w)); [|apply stopped_or_same_refl].
  right. exists t. reflexivity.
Qed.

Lemma stopUserContainers_workspaces (t : Z) (st : state E) (userId : option string) :
  Forall2 Frames.stopped_or_same (workspaces (st_db st))
    (workspaces (st_db (WebhookHandler.stopUserContainers t st userId))).
Proof.
  unfold WebhookHandler.stopUserContainers.
  generalize (List.filter (fun w => String.eqb (ws_container_status w) "running")
                (WorkspaceModel.findByUserId (st_db st) userId)).
  intros l. revert st. induction l as [|w l IH]; intros st; simpl;
    [apply Forall2_stopped_or_same_refl|].
  exact (Forall2_stopped_or_same_trans _ _ _ (stop_one_workspaces t st w)
           (IH (WebhookHandler.stop_one t st w))).
Qed.

End WebhookFrameProps.

(** ** The ledger *)

Section LedgerProps.
Context {E : Type} `{DockerEngine E} `{Crypto} `{Config} `{Json}.



End LedgerProps.


(** ** Stopping the containers of a user *)

Lemma Forall2_stopped_or_same_In (l l' : list workspace) (w' : workspace) :
  Forall2 Frames.stopped_or_same l l' -> In w' l' ->
  exists w, In w l /\ Frames.stopped_or_same w w'.
Proof.
  induction 1 as [|a b l l' Hab _ IH]; simpl; [tauto|].
  intros [<- | Hin]; [exists a; auto|].
  destruct (IH Hin) as (w & Hw & Hrel). exists w. auto.
Qed.

Lemma stopped_or_same_id (w w' : workspace) :
  Frames.stopped_or_same w w' -> ws_id w' = ws_id w.
Proof. intros [-> | [t ->]]; reflexivity. Qed.

Lemma stopped_or_same_stopped (w w' : workspace) :
  Frames.stopped_or_same w w' -> ws_container_status w = "stopped" ->
  ws_container_status w' = "stopped".
Proof. intros [-> | [t ->]]; auto. Qed.

Section StopProps.
Context {E : Type} `{DockerEngine E}.

Lemma fold_stop_one_workspaces (t : Z) (l : list workspace) (st : state E) :
  Forall2 Frames.stopped_or_same (workspaces (st_db st))
    (workspaces (st_db (fold_left (WebhookHandler.stop_one t) l st))).
Proof.
  revert st. induction l as [|w l IH]; intros st; simpl;
    [apply Forall2_stopped_or_same_refl|].
  exact (Forall2_stopped_or_same_trans _ _ _ (stop_one_workspaces t st w)
           (IH (WebhookHandler.stop_one t st w))).
Qed.

(** One turn of the loop on a workspace that is in the table and has
    a container the engine stops: every row with its identifier is
    stopped afterwards. *)
Lemma stop_one_stops (t : Z) (st : state E) (w : workspace) :
  (forall eng containerId, exists eng' ok, stopContainer eng containerId = (eng', Ok ok)) ->
  (exists x, In x (workspaces (st_db st)) /\ ws_id x = ws_id w) ->
  truthy_str (ws_container_id w) = true ->
  forall x', In x' (workspaces (st_db (WebhookHandler.stop_one t st w))) ->
             ws_id x' = ws_id w -> ws_container_status x' = "stopped".
Proof.
  intros Hengine (x & Hx & Hid) Htruthy x'. unfold WebhookHandler.stop_one.
  destruct (ws_container_id w) as [containerId|]; [|discriminate].
  rewrite Htruthy.
  destruct (Hengine (st_engine st) containerId) as (eng' & ok & ->).
  unfold WorkspaceModel.updateStatus, WorkspaceModel.update_by_id.
  assert (Hex : existsb (fun y => String.eqb (ws_id y) (ws_id w)) (workspaces (st_db st)) = true).
  { apply existsb_exists. exists x. split; [exact Hx | now apply string_eqb_true]. }
  rewrite Hex. simpl. intros Hin Hid'.
  apply List.in_map_iff in Hin as (y & <- & Hy).
  destruct (String.eqb (ws_id y) (ws_id w)) eqn:Heq; [reflexivity|].
  apply string_eqb_false in Heq. contradiction.
Qed.

Lemma fold_stop_one_stops (t : Z) (l : list workspace) (st : state E) :
  (forall eng containerId, exists eng' ok, stopContainer eng containerId = (eng', Ok ok)) ->
  (forall w, In w l -> exists x, In x (workspaces (st_db st)) /\ ws_id x = ws_id w) ->
  forall w, In w l -> truthy_str (ws_container_id w) = true ->
  forall x', In x' (workspaces (st_db (fold_left (WebhookHandler.stop_one t) l st))) ->
             ws_id x' = ws_id w -> ws_container_status x' = "stopped".
Proof.
  intros Hengine. revert st. induction l as [|a l IH]; intros st Hthere w Hw Htruthy x' Hx' Hid;
    [contradiction|].
  simpl in Hx'.
  pose proof (stop_one_workspaces t st a) as Hstep.
  destruct Hw as [-> | Hw].
  - destruct (Forall2_stopped_or_same_In _ _ _
                (fold_stop_one_workspaces t l (WebhookHandler.stop_one t st w)) Hx')
      as (x1 & Hx1 & Hrel).
    apply (stopped_or_same_stopped _ _ Hrel).
    apply (stop_one_stops t st w Hengine (Hthere w (or_introl eq_refl)) Htruthy x1 Hx1).
    rewrite <- (stopped_or_same_id _ _ Hrel). exact Hid.
  - apply (IH (WebhookHandler.stop_one t st a)) with (w := w); try assumption.
    intros w0 Hw0. destruct (Hthere w0 (or_intror Hw0)) as (x & Hx & Hidx).
    clear -Hstep Hx Hidx. revert Hx. induction Hstep as [|p q l1 l2 Hpq _ IHs]; simpl; [tauto|].
    intros [-> | Hx].
    + exists q. split; [now left|]. now rewrite (stopped_or_same_id _ _ Hpq).
    + destruct (IHs Hx) as (y & Hy & Hidy). exists y. auto.
Qed.

Lemma findByUserId_undefined (d : db) : WorkspaceModel.findByUserId d None = [].
Proof.
  unfold WorkspaceModel.findByUserId. simpl.
  induction (workspaces d) as [|w l IH]; simpl; [reflexivity | exact IH].
Qed.

(** X22. [stopUserContainers], the last step of the completion and
    cancellation handlers.  Called for a user, with an engine that
    carries out every stop call, it leaves no workspace of that user
    recorded as running with a container; called without a user (the
    entity's notes name none) it looks up no workspace and leaves the
    state as it was.  (The handlers call it after their [INSERT] into
    the ledger, which raises on the tables of the repository.) *)
Theorem stopUserContainers_stops_running (t : Z) (st : state E) :
  (forall userId,
      (forall eng containerId, exists eng' ok, stopContainer eng containerId = (eng', Ok ok)) ->
      forall w', In w' (workspaces (st_db (WebhookHandler.stopUserContainers t st
                                              (Some userId)))) ->
                 ws_user_id w' = userId ->
                 ws_container_status w' = "running" ->
                 truthy_str (ws_container_id w') = false)
  /\ WebhookHandler.stopUserContainers t st None = st.
Proof.
  split.
  2:{ unfold WebhookHandler.stopUserContainers. now rewrite findByUserId_undefined. }
  intros userId Hengine w' Hin Huser Hrunning.
  pose proof (stopUserContainers_workspaces t st (Some userId)) as Hrel.
  destruct (Forall2_stopped_or_same_In _ _ _ Hrel Hin) as (w & Hw & [Heq | [t0 Heq]]);
    [subst w|rewrite Heq in Hrunning; simpl in Hrunning; discriminate].
  destruct (truthy_str (ws_container_id w')) eqn:Htruthy; [|reflexivity].
  exfalso. unfold WebhookHandler.stopUserContainers in Hin.
  assert (Hlisted : In w' (List.filter
                             (fun x => String.eqb (ws_container_status x) "running")
                             (WorkspaceModel.findByUserId (st_db st) (Some userId)))).
  { apply List.filter_In. split; [|now apply string_eqb_true].
    unfold WorkspaceModel.findByUserId. apply In_order_by_desc.
    apply List.filter_In. split; [exact Hw|]. simpl. now apply string_eqb_true. }
  assert (Hstopped : ws_container_status w' = "stopped").
  { refine (fold_stop_one_stops t _ st Hengine _ w' Hlisted Htruthy w' Hin eq_refl).
    intros x Hx. apply List.filter_In in Hx as [Hx _].
    unfold WorkspaceModel.findByUserId in Hx. apply In_order_by_desc in Hx.
    apply List.filter_In in Hx as [Hx _]. exists x. auto. }
  rewrite Hrunning in Hstopped. discriminate.
Qed.

End StopProps.

Lemma stopUserContainers_stops_running_witness :
  List.Forall
    (fun w' => ws_user_id w' = "u1" -> ws_container_status w' = "running" ->
               truthy_str (ws_container_id w') = false)
    (workspaces (st_db (WebhookHandler.stopUserContainers 2000 (Samples.st_obliging "active")
                          (Some "u1"))))
  /\ List.map ws_container_status
       (workspaces (st_db (WebhookHandler.stopUserContainers 2000
                             (Samples.st_obliging "active") (Some "u1"))))
     = ["stopped"].
Proof.
  split; [|vm_compute; reflexivity].
  apply List.Forall_forall.
  apply (proj1 (stopUserContainers_stops_running 2000 (Samples.st_obliging "active")) "u1").
  intros [] containerId. exists tt, true. reflexivity.
Defined.

(** ** The reverse proxy *)

Lemma prefix_append (pat rest : string) : String.prefix pat (pat +:+ rest) = true.
Proof.
  induction pat as [|c pat IH]; simpl; [now destruct rest|].
  destruct (ascii_dec c c) as [_|Hne]; [exact IH | contradiction].
Qed.

Lemma drop_chars_append (pat rest : string) :
  drop_chars (String.length pat) (pat +:+ rest) = rest.
Proof. induction pat as [|c pat IH]; simpl; [reflexivity | exact IH]. Qed.

Lemma replace_first_own_prefix (pat rest : string) :
  replace_first_with_empty pat (pat +:+ rest) = rest.
Proof.
  assert (Hunfold : forall s,
             replace_first_with_empty pat s
             = if String.prefix pat s then drop_chars (String.length pat) s
               else match s with
                    | EmptyString => EmptyString
                    | String c s' => String c (replace_first_with_empty pat s')
                    end)
    by (intros s; destruct s; reflexivity).
  rewrite Hunfold, prefix_append. apply drop_chars_append.
Qed.

Lemma node_headers_fold_absent (raw : list (string * string)) (m : gmap string string)
    (k : string) :
  (forall name value, In (name, value) raw -> toLowerCase name <> k) ->
  fold_left
    (fun (m : gmap string string) (line : string * string) =>
       let name := toLowerCase (fst line) in
       match m !! name with
       | None => <[name := snd line]> m
       | Some old => <[name := old +:+ ", " +:+ snd line]> m
       end) raw m !! k
  = m !! k.
Proof.
  revert m. induction raw as [|[name value] raw IH]; intros m Hnone; simpl; [reflexivity|].
  rewrite IH by (intros n v Hin; apply (Hnone n v); now right).
  assert (Hne : toLowerCase name <> k) by (apply (Hnone name value); now left).
  destruct (m !! toLowerCase name); now rewrite lookup_insert_ne.
Qed.

(** The header of a request that carries one line of that name, in
    whatever letter case. *)
Lemma node_headers_sole_line (before after : list (string * string))
    (name value k : string) :
  toLowerCase name = k ->
  (forall n v, In (n, v) (before ++ after) -> toLowerCase n <> k) ->
  node_headers (before ++ (name, value) :: after) !! k = Some value.
Proof.
  intros Hname Hothers. unfold node_headers. rewrite fold_left_app. simpl.
  rewrite node_headers_fold_absent
    by (intros n v Hin; apply (Hothers n v), List.in_app_iff; now right).
  rewrite Hname.
  rewrite node_headers_fold_absent
    by (intros n v Hin; apply (Hothers n v), List.in_app_iff; now left).
  rewrite lookup_empty. apply lookup_insert_eq.
Qed.

Section ProxyGateProps.
Context {E : Type} `{DockerEngine E} `{Config} `{Proxy.ProxyLibrary}.

(** X24. The proxy forwards a request only when it presents a
    non-empty API key that finds a workspace, the owner of that
    workspace is entitled at that instant, and the workspace is
    recorded as running with a container; the target is never
    empty. *)
Theorem proxy_forwards_only_when_entitled (t : Z) (st : state E)
    (req : Proxy.proxy_request) (f : Proxy.forwarded) :
  Proxy.proxy_route t st req = Proxy.Forward f ->
  exists apiKey w,
    node_headers (Proxy.pr_rawHeaders req) !! "x-api-key" = Some apiKey
    /\ apiKey <> ""
    /\ In w (workspaces (st_db st))
    /\ ws_api_key w = apiKey
    /\ Props.entitled (st_db st) t (ws_user_id w)
    /\ ws_container_status w = "running"
    /\ truthy_str (ws_container_id w) = true
    /\ Proxy.fw_target f <> "".
Proof.
  unfold Proxy.proxy_route, Proxy.authenticateApiKey.
  destruct (node_headers (Proxy.pr_rawHeaders req) !! "x-api-key") as [apiKey|]; simpl;
    [|discriminate].
  destruct (String.eqb apiKey "") eqn:Hkey; simpl; [discriminate|].
  destruct (WorkspaceModel.findByApiKey (st_db st) apiKey) as [w|] eqn:Hfind; [|discriminate].
  destruct (SubscriptionModel.hasActive (st_db st) t (ws_user_id w)) eqn:Hactive; simpl;
    [|discriminate].
  destruct (String.eqb (ws_container_status w) "running") eqn:Hrunning; simpl; [|discriminate].
  destruct (truthy_str (ws_container_id w)) eqn:Hcontainer; simpl; [|discriminate].
  destruct (truthy_str (getContainerIp (st_engine st) (default "" (ws_container_id w))));
    simpl; [|discriminate].
  intros [= <-]. simpl.
  unfold WorkspaceModel.findByApiKey in Hfind. apply List.find_some in Hfind as [Hin Hk].
  exists apiKey, w. split; [reflexivity|].
  split; [now apply string_eqb_false|]. split; [exact Hin|].
  split; [now apply string_eqb_true|]. split; [now apply hasActive_entitled|].
  split; [now apply string_eqb_true|]. split; [exact Hcontainer | discriminate].
Qed.

(** X23. [authenticateApiKey] reads the API key whatever the letter
    case of its header name.  A request without any line named
    [x-api-key] in some letter case is answered 401 ["Authentication
    required"]; a request with one such line is treated exactly as
    the request carrying that key under the lower-case name. *)
Theorem authenticateApiKey_reads_any_case (t : Z) (st : state E)
    (raw : list (string * string)) :
  ((forall name value, In (name, value) raw -> toLowerCase name <> "x-api-key") ->
   Proxy.authenticateApiKey t st (node_headers raw)
   = inl (json 401 [ ("error", JStr "Authentication required");
                     ("message", JStr "X-API-Key header is required") ]))
  /\ (forall before name apiKey after,
        raw = (before ++ (name, apiKey) :: after)%list ->
        toLowerCase name = "x-api-key" ->
        (forall n v, In (n, v) (before ++ after) -> toLowerCase n <> "x-api-key") ->
        Proxy.authenticateApiKey t st (node_headers raw)
        = Proxy.authenticateApiKey t st {[ "x-api-key" := apiKey ]}).
Proof.
  split.
  - intros Hnone. unfold Proxy.authenticateApiKey, node_headers.
    rewrite (node_headers_fold_absent raw ∅ "x-api-key" Hnone), lookup_empty. reflexivity.
  - intros before name apiKey after -> Hname Hothers. unfold Proxy.authenticateApiKey.
    rewrite (node_headers_sole_line before after name apiKey "x-api-key" Hname Hothers).
    now rewrite lookup_singleton_eq.
Qed.

End ProxyGateProps.

(** X25. The path resolver on a URL that starts with the proxy prefix
    of the workspace: the prefix is cut off and the rest, query string
    included, is the upstream path, [/] when nothing is left.  The
    resolved path is never empty, whatever the URL. *)
Theorem proxyReqPathResolver_cuts_own_prefix (w : workspace) (rest url : string) :
  Proxy.proxyReqPathResolver w ("/api/proxy/" +:+ ws_id w +:+ rest)
  = (if String.eqb rest "" then "/" else rest)
  /\ Proxy.proxyReqPathResolver w url <> "".
Proof.
  unfold Proxy.proxyReqPathResolver. split.
  - change ("/api/proxy/" +:+ ws_id w +:+ rest)
      with (("/api/proxy/" +:+ ws_id w) +:+ rest).
    now rewrite replace_first_own_prefix.
  - destruct (String.eqb (replace_first_with_empty ("/api/proxy/" +:+ ws_id w) url) "")
      eqn:Hempty; [discriminate | now apply string_eqb_false].
Qed.

Lemma proxy_forwards_only_when_entitled_witness :
  exists apiKey w,
    node_headers (Proxy.pr_rawHeaders Sim.proxy_req_own) !! "x-api-key" = Some apiKey
    /\ apiKey <> ""
    /\ In w (workspaces (st_db Sim.st_running))
    /\ ws_api_key w = apiKey
    /\ Props.entitled (st_db Sim.st_running) 2000 (ws_user_id w)
    /\ ws_container_status w = "running"
    /\ truthy_str (ws_container_id w) = true
    /\ Proxy.fw_target (Sim.fwd "/health") <> "".
Proof.
  apply (proxy_forwards_only_when_entitled 2000 Sim.st_running Sim.proxy_req_own
           (Sim.fwd "/health")).
  vm_compute. reflexivity.
Defined.

Lemma authenticateApiKey_reads_any_case_witness :
  Proxy.authenticateApiKey 2000 Sim.st_running
    (node_headers (Proxy.pr_rawHeaders Sim.proxy_req_own))
  = Proxy.authenticateApiKey 2000 Sim.st_running {[ "x-api-key" := "k1" ]}.
Proof.
  destruct (authenticateApiKey_reads_any_case 2000 Sim.st_running
              (Proxy.pr_rawHeaders Sim.proxy_req_own)) as [_ Hone].
  apply (Hone [] "X-API-Key" "k1" [("Accept", "text/plain")]); [reflexivity | reflexivity |].
  intros n v [[= <- <-] | []]. vm_compute. discriminate.
Defined.

(** ** Checkout and cancellation *)

Lemma order_by_desc_nil {A} (key : A -> Z) (l : list A) :
  order_by_desc key l = [] -> l = [].
Proof.
  intros Hnil. destruct l as [|x l]; [reflexivity|].
  assert (Hin : In x (order_by_desc key (x :: l))) by (apply In_order_by_desc; now left).
  rewrite Hnil in Hin. contradiction.
Qed.

Lemma findPendingByUserId_None (d : db) (userId : string) :
  Checkout.findPendingByUserId d userId = None ->
  forall s, In s (subscriptions d) -> sub_user_id s = userId -> sub_status s <> "pending".
Proof.
  unfold Checkout.findPendingByUserId. intros Hhead s Hin Huser Hpending.
  destruct (order_by_desc sub_created_at _) as [|x l] eqn:Hsorted; [|discriminate].
  apply order_by_desc_nil in Hsorted.
  assert (Hs : In s (List.filter (fun s => String.eqb (sub_user_id s) userId
                                         && String.eqb (sub_status s) "pending")
                                 (subscriptions d))).
  { apply List.filter_In. split; [exact Hin|].
    apply andb_true_iff. split; now apply string_eqb_true. }
  rewrite Hsorted in Hs. contradiction.
Qed.

Lemma subscription_create_Ok (d d' : db) (env : environment)
    (userId razorpaySubscriptionId status planId : string) (periodStart periodEnd : Z)
    (row : subscription) :
  Checkout.create d env userId razorpaySubscriptionId status planId periodStart periodEnd
  = Ok (d', row) ->
  d' = WebhookHandler.set_subscriptions d (subscriptions d ++ [row])
  /\ row = {| sub_id := fresh_uuid env; sub_user_id := userId;
              sub_razorpay_subscription_id := Some razorpaySubscriptionId;
              sub_status := status; sub_plan_id := planId;
              sub_current_period_start := periodStart;
              sub_current_period_end := periodEnd;
              sub_cancelled_at := None;
              sub_created_at := now env; sub_updated_at := now env |}
  /\ (forall s, In s (subscriptions d) ->
        sub_id s <> fresh_uuid env
        /\ sub_razorpay_subscription_id s <> Some razorpaySubscriptionId).
Proof.
  unfold Checkout.create. cbv zeta. simpl.
  destruct (existsb (fun s => String.eqb (sub_id s) (fresh_uuid env)) (subscriptions d))
    eqn:Hid; [discriminate|].
  match goal with |- context [if existsb ?f ?l then _ else _] =>
    destruct (existsb f l) eqn:Hrid; [discriminate|] end.
  intros Heq. injection Heq as <- <-. split; [reflexivity|]. split; [reflexivity|].
  intros s Hs. apply not_true_iff_false in Hid, Hrid. rewrite existsb_exists in Hid, Hrid.
  split; intros Heq.
  - apply Hid. exists s. split; [exact Hs | now apply string_eqb_true].
  - apply Hrid. exists s. split; [exact Hs|]. rewrite Heq. simpl. apply String.eqb_refl.
Qed.

Section CheckoutProps.
Context {R : Type} `{Checkout.RazorpayApi R} `{Checkout.Plans}.

(** The two ways [checkout] ends: nothing written, or one pending row
    appended for a caller without active or pending subscription. *)
Lemma checkout_cases (users : list UserModel.user) (env : environment) (d : db) (rz : R)
    (userId : string) (plan_id : option string) :
  fst (fst (Checkout.checkout users env d rz userId plan_id)) = d
  \/ exists planId rz1 created row,
       plan_id = Some planId
       /\ In planId Checkout.validPlans
       /\ SubscriptionModel.hasActive d (now env) userId = false
       /\ Checkout.findPendingByUserId d userId = None
       /\ Checkout.subscriptions_create rz planId userId
            (default "" (UserModel.pu_email <$> UserModel.findById users userId))
          = (rz1, inr created)
       /\ Checkout.create d env userId (Checkout.rz_id created) "pending" planId
            (Checkout.rz_current_start created * 1000)
            (Checkout.rz_current_end created * 1000)
          = Ok (WebhookHandler.set_subscriptions d (subscriptions d ++ [row]), row)
       /\ Checkout.checkout users env d rz userId plan_id
          = ((WebhookHandler.set_subscriptions d (subscriptions d ++ [row]), rz1),
             json 200 [ ("subscription_id", JStr (Checkout.rz_id created));
                        ("short_url", JStr (Checkout.rz_short_url created));
                        ("message", JStr "Subscription created. Please complete payment.") ]).
Proof.
  unfold Checkout.checkout.
  remember Checkout.validPlans as plans eqn:Hplans.
  destruct (truthy_str plan_id) eqn:Hplan; simpl; [|now left].
  destruct plan_id as [planId|]; [|discriminate]. simpl.
  destruct (existsb (String.eqb planId) plans) eqn:Hvalid; simpl; [|now left].
  destruct (SubscriptionModel.hasActive d (now env) userId) eqn:Hactive; [now left|].
  destruct (Checkout.findPendingByUserId d userId) eqn:Hpending; [now left|].
  destruct (UserModel.findById users userId) as [user|]; [|now left]. simpl.
  destruct (Checkout.subscriptions_create rz planId userId (UserModel.pu_email user))
    as [rz1 [e|created]] eqn:Hcreate; [now left|].
  destruct (Checkout.create d env userId (Checkout.rz_id created) "pending" planId
              (Checkout.rz_current_start created * 1000)
              (Checkout.rz_current_end created * 1000)) as [[d1 row]|m] eqn:Hinsert;
    [|now left].
  right. exists planId, rz1, created, row.
  destruct (subscription_create_Ok _ _ _ _ _ _ _ _ _ _ Hinsert) as (-> & _ & _).
  split; [reflexivity|]. split.
  { apply existsb_exists in Hvalid as (p & Hp & Heq).
    apply string_eqb_true in Heq. now subst p. }
  auto.
Qed.

(** X26. Checkout grants nothing.  [POST /api/payments/checkout]
    writes neither workspaces nor ledger rows; it leaves the
    subscriptions as they are or appends one row, which is [pending],
    belongs to the caller and carries the requested plan, and it does
    so only for a caller who is not entitled and has no pending
    subscription.  No user is entitled afterwards who was not
    before. *)
Theorem checkout_grants_nothing (users : list UserModel.user) (env : environment) (d : db)
    (rz : R) (userId : string) (plan_id : option string) :
  workspaces (fst (fst (Checkout.checkout users env d rz userId plan_id))) = workspaces d
  /\ payment_events (fst (fst (Checkout.checkout users env d rz userId plan_id)))
     = payment_events d
  /\ (subscriptions (fst (fst (Checkout.checkout users env d rz userId plan_id)))
      = subscriptions d
      \/ exists row,
           subscriptions (fst (fst (Checkout.checkout users env d rz userId plan_id)))
           = (subscriptions d ++ [row])%list
           /\ sub_status row = "pending"
           /\ sub_user_id row = userId
           /\ plan_id = Some (sub_plan_id row)
           /\ ~ Props.entitled d (now env) userId
           /\ (forall s, In s (subscriptions d) -> sub_user_id s = userId ->
                         sub_status s <> "pending"))
  /\ (forall u t,
        Props.entitled (fst (fst (Checkout.checkout users env d rz userId plan_id))) t u ->
        Props.entitled d t u).
Proof.
  destruct (checkout_cases users env d rz userId plan_id)
    as [-> | (planId & rz1 & created & row & -> & _ & Hactive & Hpending & _ & Hinsert & ->)].
  { repeat (split; [reflexivity|]). split; [now left | auto]. }
  simpl. split; [reflexivity|]. split; [reflexivity|].
  destruct (subscription_create_Ok _ _ _ _ _ _ _ _ _ _ Hinsert) as (_ & Hrow & _).
  split.
  - right. exists row. split; [reflexivity|]. rewrite Hrow. simpl.
    repeat (split; [reflexivity|]). split.
    + intros Hentitled. apply hasActive_entitled in Hentitled. congruence.
    + now apply findPendingByUserId_None.
  - intros u t (s & Hin & Huser & Hstatus & Hend). simpl in Hin.
    apply List.in_app_iff in Hin as [Hin | [<- | []]].
    + exists s. auto.
    + rewrite Hrow in Hstatus. simpl in Hstatus. discriminate.
Qed.

Lemma hasActive_later (d : db) (t1 t2 : Z) (userId : string) :
  SubscriptionModel.hasActive d t1 userId = false -> t1 <= t2 ->
  SubscriptionModel.hasActive d t2 userId = false.
Proof.
  intros Hnot Hle. apply not_true_iff_false. intros Hactive.
  apply hasActive_entitled in Hactive as (s & Hin & Huser & Hstatus & Hend).
  apply not_true_iff_false in Hnot. apply Hnot. apply hasActive_entitled.
  exists s. repeat (split; [assumption|]). lia.
Qed.

(** X27. Checkout is idempotent for the caller.  After a checkout
    answered 200, the same request at a later instant answers 200
    with the same [subscription_id], without a call to the provider
    and without writing; its answer carries no [short_url], because
    the pending row it is read from has no such column. *)
Theorem checkout_again_returns_pending (users users' : list UserModel.user)
    (env1 env2 : environment) (d d1 : db) (rz rz1 : R) (userId : string)
    (plan_id : option string) (r1 : response) :
  Checkout.checkout users env1 d rz userId plan_id = ((d1, rz1), r1) ->
  res_status r1 = 200 ->
  now env1 <= now env2 ->
  exists r2,
    Checkout.checkout users' env2 d1 rz1 userId plan_id = ((d1, rz1), r2)
    /\ res_status r2 = 200
    /\ get_prop (res_body r2) "subscription_id" = get_prop (res_body r1) "subscription_id"
    /\ get_prop (res_body r2) "short_url" = JUndefined.
Proof.
  unfold Checkout.checkout.
  remember Checkout.validPlans as plans eqn:Hplans.
  destruct (negb (truthy_str plan_id) || negb (existsb (String.eqb (default "" plan_id)) plans))
    eqn:Hplan; [intros [= <- <- <-]; discriminate|].
  destruct (SubscriptionModel.hasActive d (now env1) userId) eqn:Hactive;
    [intros [= <- <- <-]; discriminate|].
  destruct (Checkout.findPendingByUserId d userId) as [pending|] eqn:Hpending.
  { intros [= <- <- <-] _ Hle. rewrite (hasActive_later d _ _ userId Hactive Hle), Hpending.
    eexists. split; [reflexivity|]. repeat split. }
  destruct (UserModel.findById users userId) as [user|];
    [|intros [= <- <- <-]; discriminate].
  destruct (Checkout.subscriptions_create rz (default "" plan_id) userId
              (UserModel.pu_email user)) as [rz2 [e|created]].
  { intros [= <- <- <-]. unfold Checkout.provider_error.
    destruct (truthy_str (Checkout.api_code e)); discriminate. }
  destruct (Checkout.create d env1 userId (Checkout.rz_id created) "pending"
              (default "" plan_id) (Checkout.rz_current_start created * 1000)
              (Checkout.rz_current_end created * 1000)) as [[d2 row]|m] eqn:Hinsert;
    [|intros [= <- <- <-]; discriminate].
  intros [= <- <- <-] _ Hle.
  destruct (subscription_create_Ok _ _ _ _ _ _ _ _ _ _ Hinsert) as (-> & Hrow & _).
  assert (Hactive' : SubscriptionModel.hasActive
                       (WebhookHandler.set_subscriptions d (subscriptions d ++ [row]))
                       (now env2) userId = false).
  { apply not_true_iff_false. intros Hentitled.
    apply hasActive_entitled in Hentitled as (s & Hin & Huser & Hstatus & Hend).
    simpl in Hin. apply List.in_app_iff in Hin as [Hin | [<- | []]].
    - pose proof (hasActive_later d _ _ userId Hactive Hle) as Hnot.
      apply not_true_iff_false in Hnot. apply Hnot. apply hasActive_entitled.
      exists s. auto.
    - rewrite Hrow in Hstatus. simpl in Hstatus. discriminate. }
  assert (Hpending' : Checkout.findPendingByUserId
                        (WebhookHandler.set_subscriptions d (subscriptions d ++ [row]))
                        userId = Some row).
  { unfold Checkout.findPendingByUserId in *. simpl.
    rewrite List.filter_app.
    destruct (order_by_desc sub_created_at
                (List.filter (fun s => String.eqb (sub_user_id s) userId
                                       && String.eqb (sub_status s) "pending")
                             (subscriptions d))) as [|x l] eqn:Hsorted; [|discriminate].
    apply order_by_desc_nil in Hsorted. rewrite Hsorted. simpl.
    rewrite Hrow. simpl. rewrite String.eqb_refl. reflexivity. }
  rewrite Hactive', Hpending'.
  eexists. split; [reflexivity|]. rewrite Hrow. simpl. repeat split.
Qed.

(** X28. [POST /api/payments/cancel] reads no row.  [findByUserId]
    resolves to an array, so the route finds neither a missing nor a
    cancelled nor an expired subscription: whatever the tables hold,
    also for a user without subscription, it asks the provider to
    cancel an undefined subscription and, when the provider accepts,
    answers 200 with undefined dates.  It never answers 404 or 400. *)
Theorem cancel_reads_no_row (d : db) (rz : R) (userId : string) :
  Checkout.cancel d rz userId
  = match Checkout.subscriptions_cancel rz None with
    | (rz1, inr _) =>
        (rz1,
         json 200 [ ("message",
                      JStr "Subscription will be cancelled at the end of the current period");
                    ("end_date", JUndefined);
                    ("access_until", JUndefined) ])
    | (rz1, inl e) => (rz1, Checkout.provider_error "cancel" e)
    end.
Proof.
  unfold Checkout.cancel.
  rewrite array_is_truthy. simpl negb. cbv iota.
  rewrite !array_has_no_named_property by (try discriminate; reflexivity).
  reflexivity.
Qed.

End CheckoutProps.

Lemma checkout_again_returns_pending_witness :
  exists r2,
    Checkout.checkout [Samples.alice] Samples.env_checkout_again
      (fst (fst (Checkout.checkout [Samples.alice] Samples.env_checkout
                   Samples.no_subscriptions 0%nat "u1" (Some "plan_monthly_basic"))))
      1%nat "u1" (Some "plan_monthly_basic")
    = ((fst (fst (Checkout.checkout [Samples.alice] Samples.env_checkout
                    Samples.no_subscriptions 0%nat "u1" (Some "plan_monthly_basic"))),
        1%nat), r2)
    /\ res_status r2 = 200
    /\ get_prop (res_body r2) "subscription_id" = JStr "sub_0"
    /\ get_prop (res_body r2) "short_url" = JUndefined.
Proof.
  destruct (checkout_again_returns_pending [Samples.alice] [Samples.alice]
              Samples.env_checkout Samples.env_checkout_again Samples.no_subscriptions
              (fst (fst (Checkout.checkout [Samples.alice] Samples.env_checkout
                           Samples.no_subscriptions 0%nat "u1" (Some "plan_monthly_basic"))))
              0%nat 1%nat "u1" (Some "plan_monthly_basic")
              (snd (Checkout.checkout [Samples.alice] Samples.env_checkout
                      Samples.no_subscriptions 0%nat "u1" (Some "plan_monthly_basic"))))
    as (r2 & Hrun & Hstatus & Hid & Hurl);
    [vm_compute; reflexivity | reflexivity | vm_compute; discriminate |].
  exists r2. split; [exact Hrun|]. split; [exact Hstatus|]. split; [|exact Hurl].
  rewrite Hid. vm_compute. reflexivity.
Defined.

(** ** The transition table *)



Section StateMachineTable.
Context {E : Type} `{DockerEngine E} `{Crypto} `{Config} `{Json}.


End StateMachineTable.


(** ** Creating a container *)

Section CreateContainerProps.
Context {E : Type} `{DockerEngine E} `{Limits} `{Config}.

(** X30. What [createContainer] asks of the engine.  When it returns
    a container identifier, the engine created that container from a
    configuration that binds and publishes no port, attaches it to
    the internal network only, drops all capabilities but
    [NET_BIND_SERVICE], never restarts it, and carries the validated
    CPU quota and the parsed memory limit, with swap equal to memory;
    the container is named after the workspace.  When a limit fails
    validation, the engine is not called at all and the validation
    error is thrown as it is; every other failure is thrown with the
    prefix ["Failed to create container: "]. *)
Theorem createContainer_asks_for_isolation (eng eng' : E)
    (workspaceId cpuLimit memoryLimit : string) :
  (forall containerId,
      createContainer eng workspaceId cpuLimit memoryLimit = (eng', Ok containerId) ->
      exists eng1 cfg validatedMemory,
        docker_createContainer eng1 cfg = (eng', DockerOk containerId)
        /\ cfg_name cfg = "openclaw_workspace_" +:+ workspaceId
        /\ cfg_Env cfg = ["WORKSPACE_ID=" +:+ workspaceId]
        /\ cfg_PortBindings cfg = []
        /\ cfg_PublishAllPorts cfg = false
        /\ cfg_NetworkMode cfg = OPENCLAW_NETWORK
        /\ cfg_EndpointsConfig cfg = [OPENCLAW_NETWORK]
        /\ cfg_CapDrop cfg = ["ALL"]
        /\ cfg_CapAdd cfg = ["NET_BIND_SERVICE"]
        /\ cfg_SecurityOpt cfg = ["no-new-privileges:true"]
        /\ cfg_RestartPolicy cfg = "no"
        /\ validated_cpu_quota cpuLimit = Ok (cfg_CpuQuota cfg)
        /\ cfg_CpuPeriod cfg = 100000
        /\ validateMemoryLimit memoryLimit = Ok validatedMemory
        /\ parseMemoryLimit validatedMemory = Ok (cfg_Memory cfg)
        /\ cfg_MemorySwap cfg = cfg_Memory cfg)
  /\ (forall m,
        validated_cpu_quota cpuLimit = Throw m
        \/ (exists quota, validated_cpu_quota cpuLimit = Ok quota
                          /\ validateMemoryLimit memoryLimit = Throw m) ->
        createContainer eng workspaceId cpuLimit memoryLimit = (eng, Throw m))
  /\ (forall m,
        createContainer eng workspaceId cpuLimit memoryLimit = (eng', Throw m) ->
        validated_cpu_quota cpuLimit = Throw m
        \/ validateMemoryLimit memoryLimit = Throw m
        \/ exists cause, m = "Failed to create container: " +:+ cause).
Proof.
  unfold createContainer. split; [|split].
  - intros containerId.
    destruct (validated_cpu_quota cpuLimit) as [cpuQuota|m]; [|discriminate].
    destruct (validateMemoryLimit memoryLimit) as [validatedMemory|m]; [|discriminate].
    destruct (ensureNetwork eng) as [eng1 [[]|m]]; [|discriminate].
    destruct (parseMemoryLimit validatedMemory) as [memoryBytes|m] eqn:Hparse; [|discriminate].
    destruct (docker_createContainer eng1 (containerConfig workspaceId cpuQuota memoryBytes))
      as [eng2 [id|e]] eqn:Hcreate; [|discriminate].
    intros [= <- <-].
    exists eng1, (containerConfig workspaceId cpuQuota memoryBytes), validatedMemory.
    split; [exact Hcreate|]. simpl. rewrite Hparse. repeat split.
  - intros m [Hcpu | (quota & Hcpu & Hmemory)].
    + now rewrite Hcpu.
    + now rewrite Hcpu, Hmemory.
  - intros m.
    destruct (validated_cpu_quota cpuLimit) as [cpuQuota|m0]; [|intros [= _ <-]; now left].
    destruct (validateMemoryLimit memoryLimit) as [validatedMemory|m0];
      [|intros [= _ <-]; right; now left].
    intros Hthrown. right. right.
    destruct (ensureNetwork eng) as [eng1 [[]|m0]]; [|injection Hthrown as _ <-; eauto].
    destruct (parseMemoryLimit validatedMemory) as [memoryBytes|m0];
      [|injection Hthrown as _ <-; eauto].
    destruct (docker_createContainer eng1 (containerConfig workspaceId cpuQuota memoryBytes))
      as [eng2 [id|e]]; [discriminate | injection Hthrown as _ <-; eauto].
Qed.

End CreateContainerProps.

Lemma createContainer_asks_for_isolation_witness :
  exists eng1 cfg,
    docker_createContainer eng1 cfg
    = (fst (createContainer (Sim.daemon1 false) Sim.wsid "1.0" "512m"),
       DockerOk ("ctr_openclaw_workspace_" +:+ Sim.wsid))
    /\ cfg_PortBindings cfg = []
    /\ cfg_NetworkMode cfg = "openclaw_internal".
Proof.
  destruct (createContainer_asks_for_isolation (Sim.daemon1 false)
              (fst (createContainer (Sim.daemon1 false) Sim.wsid "1.0" "512m"))
              Sim.wsid "1.0" "512m") as (Hcreated & _ & _).
  destruct (Hcreated ("ctr_openclaw_workspace_" +:+ Sim.wsid))
    as (eng1 & cfg & validatedMemory & Hengine & _ & _ & Hports & _ & Hnetwork & _);
    [vm_compute; reflexivity|].
  exists eng1, cfg. split; [exact Hengine|]. split; [exact Hports | exact Hnetwork].
Defined.
